(** * Coordination core of the distributed synth: leadership, registry, reaper

    A shallow embedding of the server-side TypeScript modules

    - [controller/manager.ts]  (module [Manager])
    - [controller/status.ts]   (module [Status])
    - [controller/lock.ts]     (module [Lock])
    - [signal.ts]              (module [Signal])

    over one shared Deno KV store, and the properties of the leadership
    service, the client registry, the message router and the reaper.

    Conventions of the embedding:
    - an [async] function is a state transformer; every [await] is a
      sequencing point and no other task is interleaved;
    - [Date.now()], [crypto.randomUUID()] and [ulid()] read oracles kept in the
      state;
    - the KV store itself never fails, [socket.send] throws unless the socket
      is open, and exceptions propagate to the enclosing [try];
    - the mutual recursion of [getActiveController] and
      [clearActiveController] in manager.ts is bounded by a budget, and a call
      that has not returned within the budget is [Pending];
    - session authentication ([checkAuth]) is outside: handlers take its
      result. *)

From stdpp Require Import gmap strings list fin_maps sorting pretty.
From Stdlib Require Import ZArith Lia.

Local Open Scope Z_scope.

(** ** Data model *)

(** A Deno KV key is an ordered tuple of key parts; every key of these modules
    is made of strings. *)
Abbreviation KvKey := (list string).

(** [ControllerRecord] of manager.ts.  status.ts stores the same shape without
    [instanceId] and [metadata]; [metadata] carries only [clientType]. *)
Record ControllerRecord := mkControllerRecord {
  cr_id : string;
  cr_timestamp : Z;
  cr_instanceId : option string;
  cr_metadata : option string
}.

(** The change notification: [controllerId] is [None] for "no active
    controller"; [notificationId] is the value of [crypto.randomUUID()]. *)
Record ChangeNotification := mkChangeNotification {
  cn_controllerId : option string;
  cn_timestamp : Z;
  cn_notificationId : nat
}.

(** The client record written by [registerConnection]. *)
Record ClientRecord := mkClientRecord {
  cl_instanceId : string;
  cl_lastSeen : Z;
  cl_connectionTimestamp : Z;
  cl_reconnectionCount : Z;
  cl_lastReconnectTime : option Z;
  cl_isController : bool
}.

(** The record under [["webrtc"; "controllers"; id]]. *)
Record ControllerDirRecord := mkControllerDirRecord {
  cd_instanceId : string;
  cd_lastSeen : Z;
  cd_connectionTimestamp : Z;
  cd_reconnectionCount : Z
}.

(** The legacy lock record of lock.ts. *)
Record LockRecord := mkLockRecord {
  lk_userId : string;
  lk_timestamp : Z
}.

(** One element of the [client-list] frame built by [getConnectedClients]. *)
Record ClientInfo := mkClientInfo {
  ci_id : string;
  ci_connected : bool;
  ci_lastSeen : Z;
  ci_connectionTimestamp : Z;
  ci_reconnectionCount : Z;
  ci_lastReconnectTime : option Z;
  ci_isInGracePeriod : bool;
  ci_hasWebsocket : bool;
  ci_webRTCConnected : bool
}.

(** The [client] object of a [client-connected] / [client-reconnected]
    notification. *)
Record ClientSummary := mkClientSummary {
  cs_id : string;
  cs_lastSeen : Z;
  cs_connectionTimestamp : Z;
  cs_reconnectionCount : Z;
  cs_isReconnect : bool
}.

Inductive SignalType := Offer | Answer | IceCandidate.

(** JSON frames sent to a socket or queued through the KV.  The signaling
    payload [data] is an opaque blob. *)
Inductive Frame :=
| FActiveController (controllerId : option string) (timestamp : option Z)
| FActiveControllerRequested (controllerId : option string) (timestamp : Z)
| FActiveControllerError (controllerId : option string)
| FClientList (clients : list ClientInfo)
| FRegistrationConfirmed (id : string) (reconnectionCount : Z)
    (timestamp : Z) (isReconnection : bool)
| FHeartbeatAck (timestamp : Z)
| FConnectionConfirm (request_timestamp : option Z) (timestamp : Z)
    (clientId : string)
| FClientConnected (client : ClientSummary)
| FClientReconnected (client : ClientSummary)
| FClientDisconnected (clientId : string)
| FSignal (type : SignalType) (data : string) (source : string).

(** Values of the KV store. *)
Inductive KvValue :=
| VController (r : ControllerRecord)
| VNotification (n : ChangeNotification)
| VClient (c : ClientRecord)
| VControllerDir (d : ControllerDirRecord)
| VLock (l : LockRecord)
| VMessage (f : Frame).

(** An entry keeps the [expireIn] option it was written with. *)
Record KvEntry := mkKvEntry {
  kv_value : KvValue;
  kv_expireIn : option Z
}.

Inductive ReadyState := CONNECTING | OPEN | CLOSING | CLOSED.

Global Instance ReadyState_eq_dec : EqDecision ReadyState.
Proof. solve_decision. Defined.

(** A WebSocket object: its ready state, the code and reason of a [close]
    call, and [clientId], the variable its [onmessage] closure captures. *)
Record Socket := mkSocket {
  sk_readyState : ReadyState;
  sk_closeInfo : option (Z * string);
  sk_clientId : option string
}.

(** Callbacks handed to [setTimeout] / [setInterval]. *)
Inductive Task :=
| TDelayedCleanup (socket : nat)
| TProcessMessages (clientId : string) (socket : nat).

Record Timer := mkTimer {
  tm_id : nat;
  tm_delay : Z;
  tm_repeat : bool;
  tm_task : Task
}.

(** The state of one server instance plus the shared KV store.

    [clock] is the sequence of values successive [Date.now()] calls return and
    [ticks] counts the calls made so far; [uuids] and [ulids] count the calls
    of [crypto.randomUUID()] and [ulid()].  [sent] is the trace of the frames
    handed to [socket.send], oldest first, each with its socket.  The
    JavaScript [Map]s and [Set]s that the code iterates are insertion-ordered
    association lists. *)
Record World := mkWorld {
  kv : gmap KvKey KvEntry;
  clock : nat → Z;
  ticks : nat;
  uuids : nat;
  ulids : nat;
  deploymentId : option string;
  sockets : gmap nat Socket;
  sent : list (nat * Frame);
  activeConnections : list (string * nat);
  pollingIntervals : list (string * nat);
  activeControllers : list string;
  activeWebRTCConnections : list (string * list string);
  timers : list Timer;
  nextTimer : nat
}.

Definition set_kv (f : gmap KvKey KvEntry → gmap KvKey KvEntry) (w : World) : World :=
  mkWorld (f (kv w)) (clock w) (ticks w) (uuids w) (ulids w) (deploymentId w)
    (sockets w) (sent w) (activeConnections w) (pollingIntervals w)
    (activeControllers w) (activeWebRTCConnections w) (timers w) (nextTimer w).

Definition set_ticks (f : nat → nat) (w : World) : World :=
  mkWorld (kv w) (clock w) (f (ticks w)) (uuids w) (ulids w) (deploymentId w)
    (sockets w) (sent w) (activeConnections w) (pollingIntervals w)
    (activeControllers w) (activeWebRTCConnections w) (timers w) (nextTimer w).

Definition set_uuids (f : nat → nat) (w : World) : World :=
  mkWorld (kv w) (clock w) (ticks w) (f (uuids w)) (ulids w) (deploymentId w)
    (sockets w) (sent w) (activeConnections w) (pollingIntervals w)
    (activeControllers w) (activeWebRTCConnections w) (timers w) (nextTimer w).

Definition set_ulids (f : nat → nat) (w : World) : World :=
  mkWorld (kv w) (clock w) (ticks w) (uuids w) (f (ulids w)) (deploymentId w)
    (sockets w) (sent w) (activeConnections w) (pollingIntervals w)
    (activeControllers w) (activeWebRTCConnections w) (timers w) (nextTimer w).

Definition set_sockets (f : gmap nat Socket → gmap nat Socket) (w : World) : World :=
  mkWorld (kv w) (clock w) (ticks w) (uuids w) (ulids w) (deploymentId w)
    (f (sockets w)) (sent w) (activeConnections w) (pollingIntervals w)
    (activeControllers w) (activeWebRTCConnections w) (timers w) (nextTimer w).

Definition set_sent (f : list (nat * Frame) → list (nat * Frame)) (w : World) : World :=
  mkWorld (kv w) (clock w) (ticks w) (uuids w) (ulids w) (deploymentId w)
    (sockets w) (f (sent w)) (activeConnections w) (pollingIntervals w)
    (activeControllers w) (activeWebRTCConnections w) (timers w) (nextTimer w).

Definition set_activeConnections
    (f : list (string * nat) → list (string * nat)) (w : World) : World :=
  mkWorld (kv w) (clock w) (ticks w) (uuids w) (ulids w) (deploymentId w)
    (sockets w) (sent w) (f (activeConnections w)) (pollingIntervals w)
    (activeControllers w) (activeWebRTCConnections w) (timers w) (nextTimer w).

Definition set_pollingIntervals
    (f : list (string * nat) → list (string * nat)) (w : World) : World :=
  mkWorld (kv w) (clock w) (ticks w) (uuids w) (ulids w) (deploymentId w)
    (sockets w) (sent w) (activeConnections w) (f (pollingIntervals w))
    (activeControllers w) (activeWebRTCConnections w) (timers w) (nextTimer w).

Definition set_activeControllers (f : list string → list string) (w : World) : World :=
  mkWorld (kv w) (clock w) (ticks w) (uuids w) (ulids w) (deploymentId w)
    (sockets w) (sent w) (activeConnections w) (pollingIntervals w)
    (f (activeControllers w)) (activeWebRTCConnections w) (timers w) (nextTimer w).

Definition set_activeWebRTCConnections
    (f : list (string * list string) → list (string * list string))
    (w : World) : World :=
  mkWorld (kv w) (clock w) (ticks w) (uuids w) (ulids w) (deploymentId w)
    (sockets w) (sent w) (activeConnections w) (pollingIntervals w)
    (activeControllers w) (f (activeWebRTCConnections w)) (timers w) (nextTimer w).

Definition set_timers (f : list Timer → list Timer) (g : nat → nat) (w : World) : World :=
  mkWorld (kv w) (clock w) (ticks w) (uuids w) (ulids w) (deploymentId w)
    (sockets w) (sent w) (activeConnections w) (pollingIntervals w)
    (activeControllers w) (activeWebRTCConnections w) (f (timers w))
    (g (nextTimer w)).

(** ** The computation monad

    A call either returns a value, throws (the state reached so far is kept),
    or has not returned within the recursion budget. *)
Inductive Outcome (A : Type) :=
| Done (a : A) (w : World)
| Threw (w : World)
| Pending.

Arguments Done {A} a w.
Arguments Threw {A} w.
Arguments Pending {A}.

Definition M (A : Type) : Type := World → Outcome A.

Definition ret {A} (a : A) : M A := λ w, Done a w.

Definition bind {A B} (m : M A) (k : A → M B) : M B :=
  λ w, match m w with
       | Done a w' => k a w'
       | Threw w' => Threw w'
       | Pending => Pending
       end.

Definition throw {A} : M A := λ w, Threw w.

Definition pending {A} : M A := λ _, Pending.

(** [try { m } catch { h }] *)
Definition try_catch {A} (m : M A) (h : M A) : M A :=
  λ w, match m w with
       | Done a w' => Done a w'
       | Threw w' => h w'
       | Pending => Pending
       end.

Definition modify (f : World → World) : M unit := λ w, Done tt (f w).

Definition gets {A} (f : World → A) : M A := λ w, Done (f w) w.

Declare Scope m_scope.
Delimit Scope m_scope with M.
Notation "'let!' x ':=' m 'in' k" := (bind m (λ x, k))
  (at level 10, x name, m at level 100, k at level 200, only parsing) : m_scope.
Notation "'do!' m 'in' k" := (bind m (λ _, k))
  (at level 10, m at level 100, k at level 200, only parsing) : m_scope.
Local Open Scope m_scope.

(** [for (const x of xs) { body x }] *)
Fixpoint for_each {A} (xs : list A) (body : A → M unit) : M unit :=
  match xs with
  | [] => ret tt
  | x :: rest => do! body x in for_each rest body
  end.

(** ** Runtime primitives *)

(** [Date.now()] *)
Definition Date_now : M Z :=
  λ w, Done (clock w (ticks w)) (set_ticks S w).

(** [crypto.randomUUID()] *)
Definition randomUUID : M nat :=
  λ w, Done (uuids w) (set_uuids S w).

(** [Deno.env.get("DENO_DEPLOYMENT_ID") || "local"] *)
Definition instance_name (w : World) : string :=
  match deploymentId w with
  | Some s => if decide (s = "") then "local" else s
  | None => "local"
  end.

Definition instanceId_or_local : M string := gets instance_name.

(** *** Deno KV *)
Module Kv.

Definition get (key : KvKey) : M (option KvValue) :=
  gets (λ w, kv_value <$> kv w !! key).

Definition set (key : KvKey) (v : KvValue) (expireIn : option Z) : M unit :=
  modify (set_kv (insert key (mkKvEntry v expireIn))).

Definition delete (key : KvKey) : M unit :=
  modify (set_kv (base.delete key)).

(** Reads typed by the record the TypeScript source expects at the key; a
    value of another shape does not occur at that key. *)
Definition as_controller (v : option KvValue) : option ControllerRecord :=
  match v with Some (VController r) => Some r | _ => None end.

Definition as_notification (v : option KvValue) : option ChangeNotification :=
  match v with Some (VNotification n) => Some n | _ => None end.

Definition as_client (v : option KvValue) : option ClientRecord :=
  match v with Some (VClient c) => Some c | _ => None end.

Definition as_lock (v : option KvValue) : option LockRecord :=
  match v with Some (VLock l) => Some l | _ => None end.

(** Field reads on a stored object; a field the object lacks reads as the
    falsy default the source substitutes with [||]. *)
Definition connectionTimestamp_or_0 (v : KvValue) : Z :=
  match v with
  | VClient c => cl_connectionTimestamp c
  | VControllerDir d => cd_connectionTimestamp d
  | _ => 0
  end.

Definition lastSeen_or_0 (v : KvValue) : Z :=
  match v with
  | VClient c => cl_lastSeen c
  | VControllerDir d => cd_lastSeen d
  | _ => 0
  end.

Definition reconnectionCount_or_0 (v : KvValue) : Z :=
  match v with
  | VClient c => cl_reconnectionCount c
  | VControllerDir d => cd_reconnectionCount d
  | _ => 0
  end.

Definition lastReconnectTime_of (v : KvValue) : option Z :=
  match v with
  | VClient c => cl_lastReconnectTime c
  | _ => None
  end.

End Kv.

(** ** controller/manager.ts *)
Module Manager.

Definition ACTIVE_CONTROLLER_KEY : KvKey := ["webrtc"; "controller"; "active"].
Definition CONTROLLER_NOTIFICATION_KEY : KvKey :=
  ["webrtc"; "controller"; "notification"].
Definition HEARTBEAT_TIMEOUT_MS : Z := 30000.

Definition createControllerChangeNotification
    (controllerId : option string) : M bool :=
  try_catch
    (let! notificationId := randomUUID in
     let! now := Date_now in
     do! Kv.set CONTROLLER_NOTIFICATION_KEY
           (VNotification (mkChangeNotification controllerId now notificationId))
           None in
     ret true)
    (ret false).

(** The body of [clearActiveController]; [getActive] is its call of
    [getActiveController]. *)
Definition clearActiveController_body
    (getActive : M (option ControllerRecord)) (controllerId : string) : M bool :=
  try_catch
    (let! current := getActive in
     match current with
     | None => ret false
     | Some cur =>
         if decide (cr_id cur ≠ controllerId) then ret false
         else
           do! Kv.delete ACTIVE_CONTROLLER_KEY in
           do! createControllerChangeNotification None in
           ret true
     end)
    (ret false).

(** [getActiveController] and [clearActiveController] call each other; the
    budget [fuel] bounds the depth of nested [getActiveController] calls. *)
Fixpoint getActiveController (fuel : nat) : M (option ControllerRecord) :=
  match fuel with
  | O => pending
  | S fuel' =>
      try_catch
        (let! result := Kv.get ACTIVE_CONTROLLER_KEY in
         match Kv.as_controller result with
         | None => ret None
         | Some value =>
             let! now := Date_now in
             if decide (now - cr_timestamp value > HEARTBEAT_TIMEOUT_MS) then
               do! clearActiveController_body (getActiveController fuel')
                     (cr_id value) in
               ret None
             else ret (Some value)
         end)
        (ret None)
  end.

Definition clearActiveController (fuel : nat) (controllerId : string) : M bool :=
  clearActiveController_body (getActiveController fuel) controllerId.

Definition setActiveController (fuel : nat) (controllerId : string)
    (isHeartbeat : bool) : M bool :=
  try_catch
    (let! current := getActiveController fuel in
     let! instanceId := instanceId_or_local in
     let! now := Date_now in
     let change :=
       do! Kv.set ACTIVE_CONTROLLER_KEY
             (VController (mkControllerRecord controllerId now
                             (Some instanceId) (Some "controller")))
             None in
       do! createControllerChangeNotification (Some controllerId) in
       ret true in
     match current with
     | Some cur =>
         if decide (cr_id cur = controllerId) then
           do! Kv.set ACTIVE_CONTROLLER_KEY
                 (VController (mkControllerRecord (cr_id cur) now
                                 (cr_instanceId cur) (cr_metadata cur)))
                 None in
           ret false
         else if isHeartbeat then ret false
         else change
     | None => change
     end)
    (ret false).

Definition forceResetControllerState (fuel : nat) : M bool :=
  try_catch
    (do! getActiveController fuel in
     do! Kv.delete ACTIVE_CONTROLLER_KEY in
     do! createControllerChangeNotification None in
     ret true)
    (ret false).

Definition sendControllerHeartbeat (fuel : nat) (controllerId : string) : M bool :=
  setActiveController fuel controllerId true.

(** [id.startsWith("controller-")] *)
Definition startsWith_controller (id : string) : bool :=
  String.prefix "controller-" id.

(** [id.startsWith("controller-") || id.includes("controller")]; a string
    with the prefix also includes the word. *)
Fixpoint includes_controller (id : string) : bool :=
  String.prefix "controller" id ||
  match id with
  | EmptyString => false
  | String _ rest => includes_controller rest
  end.

Definition isController (id : string) : bool :=
  startsWith_controller id || includes_controller id.

Definition standardizeControllerId (id : string) : string :=
  if startsWith_controller id
  then String.substring 11 (String.length id - 11)%nat id
  else id.

End Manager.

(** ** HTTP responses of the controller endpoints *)

(** [value || null] on a string: the empty string is falsy. *)
Definition string_or_null (s : option string) : option string :=
  match s with
  | Some x => if decide (x = "") then None else Some x
  | None => None
  end.

(** [!controllerId] on the result of [checkAuth]. *)
Definition authenticated (controllerId : option string) : option string :=
  string_or_null controllerId.

Inductive Response :=
| Unauthorized
| ServerError
| Activation (isActive : bool) (activeController : option string)
    (changed : bool) (timestamp : Z) (timeoutMs : Z)
| StatusReport (activeController : option string) (timestamp : Z) (timeoutMs : Z)
| Deactivation (success : bool)
| HealthReport (consistent : bool) (activeController : option ControllerRecord)
    (age : option Z) (timestamp : Z)
| NotLocked
| Locked (isOwner : bool) (activeController : string) (timestamp : Z)
    (remainingTimeMs : Z).

(** ** controller/status.ts *)
Module Status.

Definition ACTIVE_CONTROLLER_KEY : KvKey := ["webrtc"; "active_controller"].
Definition CONTROLLER_CHANGE_NOTIFICATION_KEY : KvKey :=
  ["webrtc"; "controller_change_notification"].
Definition HEARTBEAT_TIMEOUT_MS : Z := 30000.

Definition createControllerChangeNotification
    (controllerId : option string) : M bool :=
  try_catch
    (let! notificationId := randomUUID in
     let! now := Date_now in
     do! Kv.set CONTROLLER_CHANGE_NOTIFICATION_KEY
           (VNotification (mkChangeNotification controllerId now notificationId))
           None in
     ret true)
    (ret false).

Definition getActiveController : M (option ControllerRecord) :=
  let! result := Kv.get ACTIVE_CONTROLLER_KEY in
  match Kv.as_controller result with
  | None => ret None
  | Some value =>
      let! now := Date_now in
      if decide (now - cr_timestamp value > HEARTBEAT_TIMEOUT_MS) then
        do! Kv.delete ACTIVE_CONTROLLER_KEY in
        do! createControllerChangeNotification None in
        ret None
      else ret (Some value)
  end.

Definition setActiveController (controllerId : string) (isHeartbeat : bool) : M bool :=
  let! current := getActiveController in
  let change :=
    let! now := Date_now in
    do! Kv.set ACTIVE_CONTROLLER_KEY
          (VController (mkControllerRecord controllerId now None None)) None in
    do! createControllerChangeNotification (Some controllerId) in
    ret true in
  match current with
  | Some cur =>
      if decide (cr_id cur = controllerId) then
        let! now := Date_now in
        do! Kv.set ACTIVE_CONTROLLER_KEY
              (VController (mkControllerRecord controllerId now None None))
              None in
        ret false
      else if isHeartbeat then ret false
      else change
  | None => change
  end.

Definition clearActiveController (controllerId : string) : M bool :=
  let! current := getActiveController in
  match current with
  | None => ret false
  | Some cur =>
      if decide (cr_id cur ≠ controllerId) then ret false
      else
        do! Kv.delete ACTIVE_CONTROLLER_KEY in
        ret true
  end.

(** The handlers take the result of [checkAuth] and the parsed body. *)
Definition POST (auth : option string) (heartbeat : bool) : M Response :=
  match authenticated auth with
  | None => ret Unauthorized
  | Some controllerId =>
      try_catch
        (let! changed := setActiveController controllerId heartbeat in
         let! activeController := getActiveController in
         let! now := Date_now in
         ret (Activation
                (bool_decide (cr_id <$> activeController = Some controllerId))
                (string_or_null (cr_id <$> activeController))
                changed now HEARTBEAT_TIMEOUT_MS))
        (ret ServerError)
  end.

Definition GET : M Response :=
  try_catch
    (let! activeController := getActiveController in
     let! now := Date_now in
     ret (StatusReport (string_or_null (cr_id <$> activeController)) now
            HEARTBEAT_TIMEOUT_MS))
    (ret ServerError).

Definition DELETE (auth : option string) : M Response :=
  match authenticated auth with
  | None => ret Unauthorized
  | Some controllerId =>
      try_catch
        (let! cleared := clearActiveController controllerId in
         ret (Deactivation cleared))
        (ret ServerError)
  end.

End Status.

(** ** controller/lock.ts *)
Module Lock.

Definition CONTROLLER_LOCK_KEY : KvKey := ["webrtc:controller:lock"].

Definition POST (fuel : nat) (auth : option string) (heartbeat : bool) : M Response :=
  match authenticated auth with
  | None => ret Unauthorized
  | Some controllerId =>
      try_catch
        (let! changed := Manager.setActiveController fuel controllerId heartbeat in
         let! lockTime := Date_now in
         do! Kv.set CONTROLLER_LOCK_KEY
               (VLock (mkLockRecord controllerId lockTime)) None in
         let! activeController := Manager.getActiveController fuel in
         let! now := Date_now in
         ret (Activation
                (bool_decide (cr_id <$> activeController = Some controllerId))
                (string_or_null (cr_id <$> activeController))
                changed now Manager.HEARTBEAT_TIMEOUT_MS))
        (ret ServerError)
  end.

(** [GET] with [?health=check]. *)
Definition GET_health (fuel : nat) : M Response :=
  try_catch
    (let! activeController := Manager.getActiveController fuel in
     let! lock := Kv.get CONTROLLER_LOCK_KEY in
     let isConsistent :=
       match Kv.as_lock lock, activeController with
       | Some l, Some a => bool_decide (lk_userId l = cr_id a)
       | _, _ => true
       end in
     match activeController with
     | Some a =>
         let! t1 := Date_now in
         let! t2 := Date_now in
         ret (HealthReport isConsistent (Some a) (Some (t1 - cr_timestamp a)) t2)
     | None =>
         let! t2 := Date_now in
         ret (HealthReport isConsistent None None t2)
     end)
    (let! _ := Date_now in ret ServerError).

Definition GET (fuel : nat) (auth : option string) : M Response :=
  match authenticated auth with
  | None => ret Unauthorized
  | Some controllerId =>
      try_catch
        (let! activeController := Manager.getActiveController fuel in
         let! _ := Kv.get CONTROLLER_LOCK_KEY in
         match activeController with
         | None => ret NotLocked
         | Some a =>
             let! now := Date_now in
             ret (Locked (bool_decide (cr_id a = controllerId)) (cr_id a)
                    (cr_timestamp a)
                    (Z.max 0 (Manager.HEARTBEAT_TIMEOUT_MS - (now - cr_timestamp a))))
         end)
        (ret ServerError)
  end.

Definition DELETE (fuel : nat) (auth : option string) : M Response :=
  match authenticated auth with
  | None => ret Unauthorized
  | Some controllerId =>
      try_catch
        (let! cleared := Manager.clearActiveController fuel controllerId in
         do! Kv.delete CONTROLLER_LOCK_KEY in
         ret (Deactivation cleared))
        (ret ServerError)
  end.

End Lock.

(** ** JavaScript [Map] and [Set] with insertion order *)

Fixpoint jsmap_set {V} (k : string) (v : V) (m : list (string * V)) : list (string * V) :=
  match m with
  | [] => [(k, v)]
  | (k', v') :: rest =>
      if decide (k' = k) then (k, v) :: rest else (k', v') :: jsmap_set k v rest
  end.

Fixpoint jsmap_get {V} (k : string) (m : list (string * V)) : option V :=
  match m with
  | [] => None
  | (k', v') :: rest => if decide (k' = k) then Some v' else jsmap_get k rest
  end.

Definition jsmap_delete {V} (k : string) (m : list (string * V)) : list (string * V) :=
  filter (λ p, p.1 ≠ k) m.

Definition jsset_has (x : string) (s : list string) : bool := bool_decide (x ∈ s).

Definition jsset_add (x : string) (s : list string) : list string :=
  if jsset_has x s then s else s ++ [x].

Definition jsset_delete (x : string) (s : list string) : list string :=
  filter (λ y, y ≠ x) s.

(** [a || b] on numbers without NaN: zero is the falsy number. *)
Definition num_or (a b : Z) : Z := if decide (a = 0) then b else a.

(** [a || null] on a number or null. *)
Definition num_or_null (a : option Z) : option Z :=
  match a with
  | Some x => if decide (x = 0) then None else Some x
  | None => None
  end.

(** Truthiness of the [clientId] variable. *)
Definition bound_id (clientId : option string) : option string :=
  string_or_null clientId.

(** *** Sockets and timers *)

Definition socket_readyState (socket : nat) : M ReadyState :=
  gets (λ w, match sockets w !! socket with
             | Some s => sk_readyState s
             | None => CLOSED
             end).

(** [socket.send(JSON.stringify(frame))]: the frame goes out on an open
    socket; the call throws while the socket is still connecting; on a socket
    that is closing or closed it returns without an error and the data is
    discarded. *)
Definition socket_send (socket : nat) (frame : Frame) : M unit :=
  λ w, match sockets w !! socket with
       | Some s =>
           match sk_readyState s with
           | OPEN => Done tt (set_sent (λ trace, trace ++ [(socket, frame)]) w)
           | CONNECTING => Threw w
           | CLOSING | CLOSED => Done tt w
           end
       | None => Threw w
       end.

(** [socket.close(code, reason)] starts the closing handshake; the [close]
    event is delivered later. *)
Definition socket_close (socket : nat) (code : Z) (reason : string) : M unit :=
  λ w, match sockets w !! socket with
       | Some s =>
           match sk_readyState s with
           | CLOSING | CLOSED => Done tt w
           | _ =>
               Done tt (set_sockets
                          (insert socket
                             (mkSocket CLOSING (Some (code, reason))
                                (sk_clientId s))) w)
           end
       | None => Threw w
       end.

(** The assignment to the [clientId] variable of the socket's closure. *)
Definition bind_clientId (socket : nat) (id : string) : M unit :=
  modify (λ w, match sockets w !! socket with
               | Some s =>
                   set_sockets
                     (insert socket
                        (mkSocket (sk_readyState s) (sk_closeInfo s) (Some id))) w
               | None => w
               end).

Definition clientId_of (socket : nat) : M (option string) :=
  gets (λ w, match sockets w !! socket with
             | Some s => sk_clientId s
             | None => None
             end).

(** [setTimeout] / [setInterval]: returns the timer id. *)
Definition set_timer (repeat : bool) (delay : Z) (task : Task) : M nat :=
  λ w, Done (nextTimer w)
         (set_timers (λ ts, ts ++ [mkTimer (nextTimer w) delay repeat task]) S w).

Definition setTimeout := set_timer false.
Definition setInterval := set_timer true.

Definition clearInterval (id : nat) : M unit :=
  modify (set_timers (filter (λ t, tm_id t ≠ id)) (λ n, n)).

(** [ulid()]: the n-th call returns the n-th identifier, 26 characters wide so
    that identifiers sort in the order they were drawn. *)
Fixpoint zeros (n : nat) : string :=
  match n with
  | O => ""
  | S n' => "0" +:+ zeros n'
  end.

Definition ulid_text (n : nat) : string :=
  zeros (26 - String.length (pretty n)) +:+ pretty n.

Definition ulid : M string :=
  λ w, Done (ulid_text (ulids w)) (set_ulids S w).

(** *** [kv.list({ prefix })] *)

(** The order of Deno KV keys made of strings: part by part. *)
Fixpoint key_leb (a b : KvKey) : bool :=
  match a, b with
  | [], _ => true
  | _ :: _, [] => false
  | x :: a', y :: b' =>
      match String.compare x y with
      | Lt => true
      | Gt => false
      | Eq => key_leb a' b'
      end
  end.

(** The keys selected by a prefix are its proper extensions. *)
Fixpoint has_prefix (prefix key : KvKey) : bool :=
  match prefix, key with
  | [], [] => false
  | [], _ :: _ => true
  | _ :: _, [] => false
  | x :: p', y :: k' => bool_decide (x = y) && has_prefix p' k'
  end.

Definition kv_list (prefix : KvKey) : M (list (KvKey * KvValue)) :=
  gets (λ w,
    merge_sort (λ a b, Is_true (key_leb a.1 b.1))
      ((λ p, (p.1, kv_value p.2)) <$>
         filter (λ p, Is_true (has_prefix prefix p.1)) (map_to_list (kv w)))).

(** [entry.key[entry.key.length - 1].toString()] *)
Definition last_part (key : KvKey) : string := default "" (last key).

(** ** signal.ts *)
Module Signal.

Definition QUEUE_TTL_MS : Z := 1000 * 60 * 5.
Definition CLIENT_TTL_MS : Z := 1000 * 60 * 10.
Definition CLIENT_GRACE_PERIOD_MS : Z := 15000.

Definition CONNECTION_KEY_PREFIX : KvKey := ["webrtc"; "connections"].
Definition MESSAGE_KEY_PREFIX : KvKey := ["webrtc"; "messages"].
Definition CONTROLLERS_KEY_PREFIX : KvKey := ["webrtc"; "controllers"].

Definition getConnectionKey (id : string) : KvKey := CONNECTION_KEY_PREFIX ++ [id].
Definition getMessagesKey (id : string) : KvKey := MESSAGE_KEY_PREFIX ++ [id].

Definition queueMessage (targetId : string) (message : Frame) : M unit :=
  let! messageId := ulid in
  let messagesKey := getMessagesKey targetId in
  Kv.set (messagesKey ++ [messageId]) (VMessage message) (Some QUEUE_TTL_MS).

Definition processMessages (clientId : string) (socket : nat) : M unit :=
  try_catch
    (let! messages := kv_list (getMessagesKey clientId) in
     for_each messages (λ entry,
       do! match entry.2 with
           | VMessage message => socket_send socket message
           | _ => throw
           end in
       Kv.delete entry.1))
    (ret tt).

Definition CONTROLLER_PREFIX : string := "controller-".

(** [id.startsWith(CONTROLLER_PREFIX)] *)
Definition isController (id : string) : bool := String.prefix CONTROLLER_PREFIX id.

Fixpoint broadcast_loop (entries : list (string * nat))
    (controllerId : option string) (notifiedCount : nat) : M nat :=
  match entries with
  | [] => ret notifiedCount
  | (clientId, socket) :: rest =>
      let! state := socket_readyState socket in
      if negb (isController clientId) && bool_decide (state = OPEN) then
        let! notified :=
          try_catch
            (let! now := Date_now in
             do! socket_send socket (FActiveController controllerId (Some now)) in
             ret true)
            (do! try_catch
                   (let! now := Date_now in
                    queueMessage clientId
                      (FActiveController controllerId (Some now)))
                   (ret tt) in
             ret false) in
        broadcast_loop rest controllerId
          (if notified : bool then S notifiedCount else notifiedCount)
      else broadcast_loop rest controllerId notifiedCount
  end.

Definition broadcastControllerChange (controllerId : option string) : M nat :=
  let! entries := gets activeConnections in
  broadcast_loop entries controllerId 0%nat.

Definition setActiveController (fuel : nat) (controllerId : option string) : M nat :=
  do! match string_or_null controllerId with
      | Some id =>
          let standardId := Manager.standardizeControllerId id in
          do! Manager.setActiveController fuel standardId false in ret tt
      | None =>
          do! Manager.forceResetControllerState fuel in ret tt
      end in
  broadcastControllerChange controllerId.

Definition getActiveController (fuel : nat) : M (option string) :=
  let! controller := Manager.getActiveController fuel in
  ret (cr_id <$> controller).

Definition hasActiveWebRTCConnection (w : World) (clientId : string) : bool :=
  existsb (λ p, jsset_has clientId p.2) (activeWebRTCConnections w).

(** The iterator made by [kv.list] before the first loop is read by the second
    loop; the listing is taken there. *)
Definition notifyControllers (message : Frame) : M unit :=
  try_catch
    (let! controllers := gets activeControllers in
     do! for_each controllers (λ controllerId,
           let! socket := gets (λ w, jsmap_get controllerId (activeConnections w)) in
           match socket with
           | Some sk =>
               let! state := socket_readyState sk in
               if decide (state = OPEN) then socket_send sk message
               else queueMessage controllerId message
           | None => queueMessage controllerId message
           end) in
     let! controllersData := kv_list CONTROLLERS_KEY_PREFIX in
     for_each controllersData (λ entry,
       let controllerId := last_part entry.1 in
       if jsset_has controllerId controllers then ret tt
       else queueMessage controllerId message))
    (ret tt).

(** The first loop of the sweep: which synth records to remove. *)
Fixpoint scan_connections (entries : list (KvKey * KvValue))
    (clientsWithActiveConnections : list string)
    (clientsToRemove : list (KvKey * string)) : M (list (KvKey * string)) :=
  match entries with
  | [] => ret clientsToRemove
  | (key, value) :: rest =>
      let clientId := last_part key in
      if isController clientId then
        scan_connections rest clientsWithActiveConnections clientsToRemove
      else
        let! now := Date_now in
        let connectionTimestamp := Kv.connectionTimestamp_or_0 value in
        let timeSinceConnection := now - connectionTimestamp in
        if decide (timeSinceConnection < CLIENT_GRACE_PERIOD_MS) then
          scan_connections rest clientsWithActiveConnections clientsToRemove
        else if negb (jsset_has clientId clientsWithActiveConnections) then
          scan_connections rest clientsWithActiveConnections
            (clientsToRemove ++ [(key, clientId)])
        else
          scan_connections rest clientsWithActiveConnections clientsToRemove
  end.

(** [notifyControllers] is started without [await] by the sweep; here it runs
    to completion at the call. *)
Definition cleanupBasedOnWebRTCConnections : M nat :=
  let! clientsWithActiveConnections :=
    gets (λ w, concat (snd <$> activeWebRTCConnections w)) in
  try_catch
    (let! connectionEntries := kv_list CONNECTION_KEY_PREFIX in
     let! clientsToRemove :=
       scan_connections connectionEntries clientsWithActiveConnections [] in
     if decide (0 < length clientsToRemove)%nat then
       do! for_each clientsToRemove (λ client,
             try_catch
               (do! Kv.delete client.1 in
                notifyControllers (FClientDisconnected client.2))
               (ret tt)) in
       ret (length clientsToRemove)
     else ret 0%nat)
    (ret 0%nat).

Definition cleanupInactiveClients : M nat := cleanupBasedOnWebRTCConnections.

Definition client_info (w : World) (now : Z) (entry : KvKey * KvValue)
    : option ClientInfo :=
  let clientId := last_part entry.1 in
  if isController clientId then None
  else
    let lastSeen := Kv.lastSeen_or_0 entry.2 in
    let connectionTimestamp :=
      num_or (Kv.connectionTimestamp_or_0 entry.2) lastSeen in
    let timeSinceConnection := now - connectionTimestamp in
    Some (mkClientInfo clientId false lastSeen connectionTimestamp
            (Kv.reconnectionCount_or_0 entry.2)
            (num_or_null (Kv.lastReconnectTime_of entry.2))
            (bool_decide (timeSinceConnection < CLIENT_GRACE_PERIOD_MS))
            (bool_decide (is_Some (jsmap_get clientId (activeConnections w))))
            (hasActiveWebRTCConnection w clientId)).

Definition getConnectedClients : M (list ClientInfo) :=
  let! now := Date_now in
  let! connectionEntries := kv_list CONNECTION_KEY_PREFIX in
  gets (λ w, omap (client_info w now) connectionEntries).

(** The 100 ms pause after closing a replaced socket is a sequencing point
    only. *)
Definition registerConnection (id : string) (socket : nat)
    (isReconnect : bool) (timestamp : Z) : M unit :=
  let connectionKey := getConnectionKey id in
  let isControllerClient := isController id in
  let! existingClient := try_catch (Kv.get connectionKey) (ret None) in
  let! existingConnection := gets (λ w, jsmap_get id (activeConnections w)) in
  do! match existingConnection with
      | Some previous =>
          if decide (previous ≠ socket) then
            try_catch (socket_close previous 1000 "Replaced by new connection")
              (ret tt)
          else ret tt
      | None => ret tt
      end in
  let! now := Date_now in
  let! instanceId := instanceId_or_local in
  let connectionTimestamp :=
    match existingClient with
    | Some value =>
        if isReconnect
        then num_or (Kv.connectionTimestamp_or_0 value) (num_or timestamp now)
        else num_or (Kv.connectionTimestamp_or_0 value) now
    | None => now
    end in
  let reconnectionCount :=
    match existingClient with
    | Some value => Kv.reconnectionCount_or_0 value + 1
    | None => 0
    end in
  do! Kv.set connectionKey
        (VClient (mkClientRecord instanceId now connectionTimestamp
                    reconnectionCount
                    (if isReconnect then Some now
                     else num_or_null (existingClient ≫= Kv.lastReconnectTime_of))
                    isControllerClient))
        (Some CLIENT_TTL_MS) in
  do! modify (set_activeConnections (jsmap_set id socket)) in
  do! (if isControllerClient then
         do! modify (set_activeControllers (jsset_add id)) in
         Kv.set (CONTROLLERS_KEY_PREFIX ++ [id])
           (VControllerDir (mkControllerDirRecord instanceId now
                              connectionTimestamp reconnectionCount))
           (Some CLIENT_TTL_MS)
       else
         let client :=
           mkClientSummary id now connectionTimestamp reconnectionCount
             isReconnect in
         notifyControllers
           (if isReconnect then FClientReconnected client
            else FClientConnected client)) in
  let! previousInterval := gets (λ w, jsmap_get id (pollingIntervals w)) in
  do! match previousInterval with
      | Some intervalId =>
          do! clearInterval intervalId in
          modify (set_pollingIntervals (jsmap_delete id))
      | None => ret tt
      end in
  let! intervalId := setInterval 500 (TProcessMessages id socket) in
  modify (set_pollingIntervals (jsmap_set id intervalId)).

Definition unregisterConnection (clientId : option string) : M unit :=
  match bound_id clientId with
  | None => ret tt
  | Some id =>
      try_catch
        (do! Kv.delete (getConnectionKey id) in
         do! modify (set_activeConnections (jsmap_delete id)) in
         do! (if isController id then
                do! modify (set_activeControllers (jsset_delete id)) in
                Kv.delete (CONTROLLERS_KEY_PREFIX ++ [id])
              else notifyControllers (FClientDisconnected id)) in
         let! interval := gets (λ w, jsmap_get id (pollingIntervals w)) in
         match interval with
         | Some intervalId =>
             if decide (intervalId = 0%nat) then ret tt
             else
               do! clearInterval intervalId in
               modify (set_pollingIntervals (jsmap_delete id))
         | None => ret tt
         end)
        (ret tt)
  end.

(** The refresh of [lastSeen] that keeps the connection timestamp. *)
Definition refresh_lastSeen (clientId : string) : M unit :=
  let connectionKey := getConnectionKey clientId in
  let! existingData := Kv.get connectionKey in
  match Kv.as_client existingData with
  | Some value =>
      let! connectionTimestamp :=
        if decide (cl_connectionTimestamp value = 0) then Date_now
        else ret (cl_connectionTimestamp value) in
      let! lastSeen := Date_now in
      Kv.set connectionKey
        (VClient (mkClientRecord (cl_instanceId value) lastSeen
                    connectionTimestamp (cl_reconnectionCount value)
                    (cl_lastReconnectTime value) (cl_isController value)))
        (Some CLIENT_TTL_MS)
  | None => ret tt
  end.

(** A parsed WebSocket frame from a client; [MMalformed] is a frame whose
    [JSON.parse] throws. *)
Inductive ClientMessage :=
| MMalformed
| MRegister (id : string) (isReconnect : bool) (timestamp : option Z)
| MControllerHeartbeat
| MControllerActivate
| MControllerDeactivate
| MControllerConnections (connections : list string)
| MRequestActiveController
| MHeartbeat
| MConnectionVerify (timestamp : option Z)
| MSignal (type : SignalType) (target : string) (data : string)
| MOther (type : string).

(** [clientId && isController(clientId)] *)
Definition bound_controller (clientId : option string) : option string :=
  match bound_id clientId with
  | Some id => if isController id then Some id else None
  | None => None
  end.

(** The callback of the [setTimeout] in [controller-activate], and the
    callback of the polling [setInterval]. *)
Definition run_task (task : Task) : M unit :=
  match task with
  | TDelayedCleanup socket =>
      let! removedCount := cleanupInactiveClients in
      let! state := socket_readyState socket in
      if decide (state = OPEN) then
        let! clients := getConnectedClients in
        socket_send socket (FClientList clients)
      else ret tt
  | TProcessMessages clientId socket => processMessages clientId socket
  end.

(** [socket.onmessage]; the [fetch] of [request-active-controller] is served
    by [Status.GET] of the same deployment. *)
Definition onmessage (fuel : nat) (socket : nat) (message : ClientMessage) : M unit :=
  try_catch
    (do! match message with MMalformed => throw | _ => ret tt end in
     let! clientId := clientId_of socket in
     do! match bound_id clientId with
         | Some id => refresh_lastSeen id
         | None => ret tt
         end in
     match message with
     | MMalformed => ret tt
     | MRegister id isReconnect timestamp =>
         do! bind_clientId socket id in
         let! connectionTimestamp :=
           match num_or_null timestamp with
           | Some t => ret t
           | None => Date_now
           end in
         do! registerConnection id socket isReconnect connectionTimestamp in
         do! processMessages id socket in
         let! clientData := Kv.get (getConnectionKey id) in
         let reconnectionCount :=
           match clientData with
           | Some value => Kv.reconnectionCount_or_0 value
           | None => 0
           end in
         let! now := Date_now in
         do! socket_send socket
               (FRegistrationConfirmed id reconnectionCount now isReconnect) in
         if isController id then
           let! clients := getConnectedClients in
           socket_send socket (FClientList clients)
         else
           let! activeControllerId := getActiveController fuel in
           match string_or_null activeControllerId with
           | Some active =>
               socket_send socket (FActiveController (Some active) None)
           | None => ret tt
           end
     | MControllerHeartbeat =>
         match bound_controller clientId with
         | Some _ =>
             do! cleanupInactiveClients in
             let! clients := getConnectedClients in
             socket_send socket (FClientList clients)
         | None => ret tt
         end
     | MControllerActivate =>
         match bound_controller clientId with
         | Some id =>
             do! broadcastControllerChange (Some id) in
             let! clients := getConnectedClients in
             do! socket_send socket (FClientList clients) in
             do! setTimeout CLIENT_GRACE_PERIOD_MS (TDelayedCleanup socket) in
             ret tt
         | None => ret tt
         end
     | MControllerDeactivate =>
         match bound_controller clientId with
         | Some id =>
             let! activeController := getActiveController fuel in
             if decide (activeController = Some id) then
               do! broadcastControllerChange None in ret tt
             else ret tt
         | None => ret tt
         end
     | MControllerConnections connections =>
         match bound_controller clientId with
         | Some id =>
             do! modify (set_activeWebRTCConnections (jsmap_set id connections)) in
             let! activeController := getActiveController fuel in
             if decide (activeController = Some id) then
               let controllerKey := ["webrtc"; "active"; "controller"] in
               let! controllerData := Kv.get controllerKey in
               match Kv.as_controller controllerData with
               | Some value =>
                   if decide (cr_timestamp value = 0) then
                     do! cleanupBasedOnWebRTCConnections in ret tt
                   else
                     let! now := Date_now in
                     let timeSinceActivation := now - cr_timestamp value in
                     if decide (timeSinceActivation > CLIENT_GRACE_PERIOD_MS / 2)
                     then do! cleanupBasedOnWebRTCConnections in ret tt
                     else ret tt
               | None => do! cleanupBasedOnWebRTCConnections in ret tt
               end
             else do! cleanupBasedOnWebRTCConnections in ret tt
         | None => ret tt
         end
     | MRequestActiveController =>
         match bound_id clientId with
         | Some _ =>
             try_catch
               (let! response := Status.GET in
                match response with
                | StatusReport activeController _ _ =>
                    let! now := Date_now in
                    socket_send socket
                      (FActiveControllerRequested activeController now)
                | _ =>
                    let! activeControllerId := getActiveController fuel in
                    let! now := Date_now in
                    socket_send socket
                      (FActiveControllerRequested activeControllerId now)
                end)
               (let! activeControllerId := getActiveController fuel in
                socket_send socket (FActiveControllerError activeControllerId))
         | None => ret tt
         end
     | MHeartbeat =>
         match bound_id clientId with
         | Some id =>
             do! refresh_lastSeen id in
             let! now := Date_now in
             socket_send socket (FHeartbeatAck now)
         | None => ret tt
         end
     | MConnectionVerify timestamp =>
         match bound_id clientId with
         | Some id =>
             try_catch
               (let! now := Date_now in
                socket_send socket (FConnectionConfirm timestamp now id))
               (ret tt)
         | None => ret tt
         end
     | MSignal type target data =>
         match bound_id clientId with
         | None => ret tt
         | Some id =>
             let! targetSocket := gets (λ w, jsmap_get target (activeConnections w)) in
             let! deliverable :=
               match targetSocket with
               | Some sk =>
                   let! state := socket_readyState sk in
                   ret (if decide (state = OPEN) then Some sk else None)
               | None => ret None
               end in
             match deliverable with
             | Some sk => socket_send sk (FSignal type data id)
             | None => queueMessage target (FSignal type data id)
             end
         end
     | MOther _ => ret tt
     end)
    (ret tt).

(** [socket.onclose] *)
Definition onclose (socket : nat) : M unit :=
  let! clientId := clientId_of socket in
  unregisterConnection clientId.

End Signal.

(** ** The requests an instance serves *)

Inductive Request :=
| LockPOST (auth : option string) (heartbeat : bool)
| LockGET (auth : option string)
| LockHealth
| LockDELETE (auth : option string)
| StatusPOST (auth : option string) (heartbeat : bool)
| StatusGET
| StatusDELETE (auth : option string)
| SocketMessage (socket : nat) (message : Signal.ClientMessage)
| SocketClose (socket : nat)
| TimerFires (task : Task).

(** One request handled to completion; the HTTP response is dropped. *)
Definition serve (fuel : nat) (r : Request) : M unit :=
  match r with
  | LockPOST auth heartbeat => do! Lock.POST fuel auth heartbeat in ret tt
  | LockGET auth => do! Lock.GET fuel auth in ret tt
  | LockHealth => do! Lock.GET_health fuel in ret tt
  | LockDELETE auth => do! Lock.DELETE fuel auth in ret tt
  | StatusPOST auth heartbeat => do! Status.POST auth heartbeat in ret tt
  | StatusGET => do! Status.GET in ret tt
  | StatusDELETE auth => do! Status.DELETE auth in ret tt
  | SocketMessage socket message => Signal.onmessage fuel socket message
  | SocketClose socket => Signal.onclose socket
  | TimerFires task => Signal.run_task task
  end.

(** A state is reachable from [w0] when some sequence of requests, each
    handled within some budget, leads from [w0] to it. *)
Definition reachable (w0 w : World) : Prop :=
  ∃ fuel requests, for_each requests (serve fuel) w0 = Done tt w.

(** ** Observations on a state *)

(** The clock never runs backwards. *)
Definition clock_monotone (w : World) : Prop :=
  ∀ i j : nat, (i ≤ j)%nat → clock w i ≤ clock w j.

(** The leadership record stored under a key, if any. *)
Definition controller_at (key : KvKey) (w : World) : option ControllerRecord :=
  Kv.as_controller (kv_value <$> kv w !! key).

Definition notification_at (key : KvKey) (w : World) : option ChangeNotification :=
  Kv.as_notification (kv_value <$> kv w !! key).

(** A record is expired for a reader whose clock shows [now]. *)
Definition expired (now : Z) (r : ControllerRecord) : Prop :=
  now - cr_timestamp r > Manager.HEARTBEAT_TIMEOUT_MS.


(** The live leadership records of the whole store, for a reader whose clock
    shows [now]. *)
Definition live_controller_records (now : Z) (w : World)
    : list (KvKey * ControllerRecord) :=
  omap (λ p, match kv_value p.2 with
             | VController r =>
                 if decide (now - cr_timestamp r > Manager.HEARTBEAT_TIMEOUT_MS)
                 then None else Some (p.1, r)
             | _ => None
             end)
    (map_to_list (kv w)).

Definition client_at (id : string) (w : World) : option ClientRecord :=
  Kv.as_client (kv_value <$> kv w !! Signal.getConnectionKey id).

Definition lock_at (w : World) : option LockRecord :=
  Kv.as_lock (kv_value <$> kv w !! Lock.CONTROLLER_LOCK_KEY).

(** [socket.readyState === WebSocket.OPEN] *)
Definition is_open (socks : gmap nat Socket) (socket : nat) : bool :=
  match socks !! socket with
  | Some s => bool_decide (sk_readyState s = OPEN)
  | None => false
  end.

(** The frames one leadership broadcast sends: one [active-controller] frame
    per attached non-controller client with an open socket, in the order of
    [activeConnections], the n-th stamped with the n-th clock reading from
    [tick] on. *)
Fixpoint broadcast_frames (entries : list (string * nat))
    (controllerId : option string) (socks : gmap nat Socket) (clk : nat → Z)
    (tick : nat) : list (nat * Frame) :=
  match entries with
  | [] => []
  | (clientId, socket) :: rest =>
      if negb (Signal.isController clientId) && is_open socks socket then
        (socket, FActiveController controllerId (Some (clk tick)))
          :: broadcast_frames rest controllerId socks clk (S tick)
      else broadcast_frames rest controllerId socks clk tick
  end.

(** The target of a signaling frame has an open socket on this instance. *)
Definition locally_open (target : string) (w : World) : bool :=
  match jsmap_get target (activeConnections w) with
  | Some sk =>
      match sockets w !! sk with
      | Some s => bool_decide (sk_readyState s = OPEN)
      | None => false
      end
  | None => false
  end.

(** The socket [socket] exists and its [clientId] variable holds [id]. *)
Definition bound_to (socket : nat) (id : string) (w : World) : Prop :=
  ∃ s, sockets w !! socket = Some s ∧ bound_id (sk_clientId s) = Some id.

(** Everything but the store and the clock reading is the same. *)
Definition same_instance (w w' : World) : Prop :=
  clock w' = clock w ∧ uuids w' = uuids w ∧ ulids w' = ulids w ∧
  deploymentId w' = deploymentId w ∧ sockets w' = sockets w ∧
  sent w' = sent w ∧ activeConnections w' = activeConnections w ∧
  pollingIntervals w' = pollingIntervals w ∧
  activeControllers w' = activeControllers w ∧
  activeWebRTCConnections w' = activeWebRTCConnections w ∧
  timers w' = timers w ∧ nextTimer w' = nextTimer w.

(** What the refresh of [lastSeen] for [id] may change: the value stored under
    the connection key of [id], and up to two clock readings. *)
Definition refreshed (id : string) (w w' : World) : Prop :=
  same_instance w w' ∧
  (ticks w ≤ ticks w' ≤ ticks w + 2)%nat ∧
  (∀ k, k ≠ Signal.getConnectionKey id → kv w' !! k = kv w !! k) ∧
  (∀ t, is_Some (client_at t w') ↔ is_Some (client_at t w)).

(** ** Sample states *)

(** A clock that starts at [start] and advances by [step] per reading. *)
Definition steady_clock (start step : Z) : nat → Z :=
  λ n, start + step * Z.of_nat n.

(** A freshly started instance on an empty store. *)
Definition idle_world (clock : nat → Z) : World :=
  mkWorld ∅ clock 0 0 0 None ∅ [] [] [] [] [] [] 1.

(** The store holds the manager's leadership record [r]. *)
Definition led_world (clock : nat → Z) (r : ControllerRecord) : World :=
  set_kv (insert Manager.ACTIVE_CONTROLLER_KEY (mkKvEntry (VController r) None))
    (idle_world clock).

(** Both leadership keys hold the record [r]. *)
Definition doubly_led_world (clock : nat → Z) (r : ControllerRecord) : World :=
  set_kv (insert Status.ACTIVE_CONTROLLER_KEY (mkKvEntry (VController r) None))
    (led_world clock r).

(** A controller on socket 1 and a synth on socket 2, both registered at time
    1000 and attached with open sockets. *)
Definition stage_world (clock : nat → Z) : World :=
  set_activeControllers (λ _, ["controller-abc"])
    (set_activeConnections (λ _, [("controller-abc", 1%nat); ("synth-1", 2%nat)])
       (set_sockets
          (λ _, {[ 1%nat := mkSocket OPEN None (Some "controller-abc");
                   2%nat := mkSocket OPEN None (Some "synth-1") ]})
          (set_kv
             (λ _, {[ Signal.getConnectionKey "controller-abc" :=
                        mkKvEntry
                          (VClient (mkClientRecord "local" 1000 1000 0 None true))
                          (Some Signal.CLIENT_TTL_MS);
                      Signal.getConnectionKey "synth-1" :=
                        mkKvEntry
                          (VClient (mkClientRecord "local" 1000 1000 0 None false))
                          (Some Signal.CLIENT_TTL_MS) ]})
             (idle_world clock)))).

(** The same stage with [r] as the manager's leadership record. *)
Definition led_stage_world (clock : nat → Z) (r : ControllerRecord) : World :=
  set_kv (insert Manager.ACTIVE_CONTROLLER_KEY (mkKvEntry (VController r) None))
    (stage_world clock).

(** A leads through the lock endpoint, then B activates through the status
    endpoint. *)
Definition two_endpoint_requests : list Request :=
  [LockPOST (Some "A") false; StatusPOST (Some "B") false].

Definition after_two_endpoint_requests : World :=
  match for_each two_endpoint_requests (serve 1)
          (idle_world (steady_clock 1000 1)) with
  | Done _ w => w
  | _ => idle_world (steady_clock 1000 1)
  end.

(** Leadership records used in the examples. *)
Definition leader_C1 : ControllerRecord :=
  mkControllerRecord "C1" 1000 (Some "local") (Some "controller").

Definition stale_leader_C1 : ControllerRecord :=
  mkControllerRecord "C1" 0 (Some "local") (Some "controller").

Definition leader_abc : ControllerRecord :=
  mkControllerRecord "controller-abc" 4000 (Some "local") (Some "controller").

Definition synth_z_prior : ClientRecord :=
  mkClientRecord "local" 5000 5000 0 None false.

(** ** Specifications of computations

    [wp m w Q E]: run from [w], the computation [m] returns within its budget,
    with a result and state satisfying [Q], or throws in a state satisfying
    [E]. *)
Definition wp {A} (m : M A) (w : World) (Q : A → World → Prop)
    (E : World → Prop) : Prop :=
  match m w with
  | Done a w' => Q a w'
  | Threw w' => E w'
  | Pending => False
  end.

(** Nothing outside the message queues differs between the two stores. *)
Definition off_queue_unchanged (w w' : World) : Prop :=
  ∀ k, has_prefix Signal.MESSAGE_KEY_PREFIX k = false → kv w' !! k = kv w !! k.

(** The registry holds the client record [c] for [id]; socket [socket], open
    and bound to [id], is attached to this instance. *)
Definition attached_world (clock : nat → Z) (id : string) (socket : nat)
    (c : ClientRecord) : World :=
  set_activeConnections (jsmap_set id socket)
    (set_sockets (insert socket (mkSocket OPEN None (Some id)))
       (set_kv (insert (Signal.getConnectionKey id)
                  (mkKvEntry (VClient c) (Some Signal.CLIENT_TTL_MS)))
          (idle_world clock))).

(** ** signal.ts: the notification poller

    The module variable [lastProcessedNotificationId] is passed in and the
    value it has when the call ends is returned. *)
Module SignalPoller.

Definition checkForControllerChangeNotifications
    (lastProcessedNotificationId : option nat) : M (option nat) :=
  try_catch
    (let! notification := Kv.get Manager.CONTROLLER_NOTIFICATION_KEY in
     match Kv.as_notification notification with
     | None => ret lastProcessedNotificationId
     | Some value =>
         if decide (lastProcessedNotificationId = Some (cn_notificationId value))
         then ret lastProcessedNotificationId
         else
           let! now := Date_now in
           let age := now - cn_timestamp value in
           if decide (age > 30000) then ret (Some (cn_notificationId value))
           else
             let standardizedId :=
               Manager.standardizeControllerId
                 <$> string_or_null (cn_controllerId value) in
             do! Signal.broadcastControllerChange standardizedId in
             ret (Some (cn_notificationId value))
     end)
    (ret lastProcessedNotificationId).

End SignalPoller.

(** ** controller/clear.ts *)
Module Clear.

Definition CONTROLLER_LOCK_KEY : KvKey := ["webrtc:controller:lock"].
Definition OLD_ACTIVE_CONTROLLER_KEY : KvKey := ["webrtc"; "active"; "controller"].
Definition OLD_ACTIVE_CONTROLLER_KEY2 : KvKey := ["webrtc"; "active_controller"].

(** The responses of the endpoint: 401, the report of the previous state, 500. *)
Inductive ClearResponse :=
| ClearUnauthorized
| ClearServerError
| ClearReport (success : bool) (activeController : option ControllerRecord)
    (lock oldActiveController1 oldActiveController2 : option KvValue).

(** [adminMode] is [url.searchParams.get("admin_mode")]. *)
Definition GET (fuel : nat) (adminMode : option string) : M ClearResponse :=
  if decide (adminMode ≠ Some "true") then ret ClearUnauthorized
  else
    try_catch
      (let! activeController := Manager.getActiveController fuel in
       let! lockResult := Kv.get CONTROLLER_LOCK_KEY in
       let! oldActiveResult1 := Kv.get OLD_ACTIVE_CONTROLLER_KEY in
       let! oldActiveResult2 := Kv.get OLD_ACTIVE_CONTROLLER_KEY2 in
       let! reset := Manager.forceResetControllerState fuel in
       do! Kv.delete CONTROLLER_LOCK_KEY in
       do! Kv.delete OLD_ACTIVE_CONTROLLER_KEY in
       do! Kv.delete OLD_ACTIVE_CONTROLLER_KEY2 in
       ret (ClearReport reset activeController lockResult oldActiveResult1
              oldActiveResult2))
      (ret ClearServerError).

End Clear.

(** ** routes/api/client-id.ts: the minted identifier *)
Module ClientId.

Definition CONTROLLER_CLIENT_PREFIX : string := "controller".
Definition SYNTH_CLIENT_PREFIX : string := "synth".

(** [uuid] is the text [crypto.randomUUID()] returned. *)
Definition generateUniqueId (clientType : string) (uuid : string) : string :=
  let randomPart := String.substring 0 8 uuid in
  clientType +:+ "-" +:+ randomPart.

End ClientId.

(** ** More sample states *)

(** The stage with a pending signaling frame for the synth. *)
Definition stage_with_mail (clock : nat → Z) : World :=
  set_kv (insert (Signal.getMessagesKey "synth-1" ++ [ulid_text 0])
            (mkKvEntry (VMessage (FSignal Offer "sdp" "controller-abc"))
               (Some Signal.QUEUE_TTL_MS)))
    (set_ulids (λ _, 1%nat) (stage_world clock)).

(** The manager's change notification [n] is in the store of the stage. *)
Definition notified_stage_world (clock : nat → Z) (n : ChangeNotification) : World :=
  set_kv (insert Manager.CONTROLLER_NOTIFICATION_KEY
            (mkKvEntry (VNotification n) None))
    (stage_world clock).

(** ** More observations *)

(** The outcome, if the call has ended, left the entry under [k] as it was. *)
Definition outcome_keeps {A} (k : KvKey) (w : World) (o : Outcome A) : Prop :=
  match o with
  | Done _ w' | Threw w' => kv w' !! k = kv w !! k
  | Pending => True
  end.

(** C1 leads and the legacy lock record names C1. *)
Definition locked_led_world (clock : nat → Z) : World :=
  set_kv (insert Lock.CONTROLLER_LOCK_KEY
            (mkKvEntry (VLock (mkLockRecord "C1" 1000)) None))
    (led_world clock leader_C1).

(** The entries [kv.list] yields for a prefix, in key order. *)
Definition entries_under (prefix : KvKey) (w : World) : list (KvKey * KvValue) :=
  match kv_list prefix w with
  | Done entries _ => entries
  | _ => []
  end.

(** The frames a socket is handed when the listed queue entries are
    delivered to it. *)
Definition frames_for (socket : nat) (entries : list (KvKey * KvValue))
    : list (nat * Frame) :=
  omap (λ entry, match entry.2 with
                 | VMessage f => Some (socket, f)
                 | _ => None
                 end) entries.

(** Messaging only: between the two states nothing differs but the message
    queues, the queue identifiers drawn and the trace of frames sent. *)
Definition only_messaging (w w' : World) : Prop :=
  off_queue_unchanged w w' ∧
  clock w' = clock w ∧ ticks w' = ticks w ∧ uuids w' = uuids w ∧
  deploymentId w' = deploymentId w ∧ sockets w' = sockets w ∧
  activeConnections w' = activeConnections w ∧
  pollingIntervals w' = pollingIntervals w ∧
  activeControllers w' = activeControllers w ∧
  activeWebRTCConnections w' = activeWebRTCConnections w ∧
  timers w' = timers w ∧ nextTimer w' = nextTimer w.

(** The stage after both clients' polling timers were started: timer 1 polls
    the controller's queue for socket 1, timer 2 the synth's for socket 2. *)
Definition polled_stage_world (clock : nat → Z) : World :=
  set_pollingIntervals (λ _, [("controller-abc", 1%nat); ("synth-1", 2%nat)])
    (set_timers
       (λ _, [mkTimer 1 500 true (TProcessMessages "controller-abc" 1);
              mkTimer 2 500 true (TProcessMessages "synth-1" 2)])
       (λ _, 3%nat)
       (stage_world clock)).

(** The synth of the polled stage has opened a second socket, 5, while its
    first socket is still attached. *)
Definition reconnecting_stage_world (clock : nat → Z) : World :=
  set_sockets (insert 5%nat (mkSocket OPEN None (Some "synth-1")))
    (polled_stage_world clock).

(** The stage with the pending frame, after the synth's socket has closed. *)
Definition stage_with_mail_closed (clock : nat → Z) : World :=
  set_sockets (insert 2%nat (mkSocket CLOSED None (Some "synth-1")))
    (stage_with_mail clock).

(** A socket that has been accepted but has not registered joins the stage. *)
Definition stage_with_guest (clock : nat → Z) : World :=
  set_sockets (insert 7%nat (mkSocket OPEN None None)) (stage_world clock).


(** * Properties *)

(** ** Stepping lemmas for the monad *)

Lemma bind_Done {A B} (m : M A) (k : A → M B) w a w' :
  m w = Done a w' → bind m k w = k a w'.
Proof. unfold bind. by intros ->. Qed.

Lemma bind_Pending {A B} (m : M A) (k : A → M B) w :
  m w = Pending → bind m k w = Pending.
Proof. unfold bind. by intros ->. Qed.

Lemma try_catch_Done {A} (m h : M A) w a w' :
  m w = Done a w' → try_catch m h w = Done a w'.
Proof. unfold try_catch. by intros ->. Qed.

Lemma try_catch_Pending {A} (m h : M A) w :
  m w = Pending → try_catch m h w = Pending.
Proof. unfold try_catch. by intros ->. Qed.

(** A run that returns, returns in the state read off from it. *)
Lemma returned_state (m : M unit) w0 :
  match m w0 with Done _ _ => True | _ => False end →
  m w0 = Done tt (match m w0 with Done _ w => w | _ => w0 end).
Proof. by destruct (m w0) as [[] w| |]. Qed.

(** ** Rules for specifications *)

Lemma wp_ret {A} (a : A) w (Q : A → World → Prop) E : Q a w → wp (ret a) w Q E.
Proof. done. Qed.

Lemma wp_bind {A B} (m : M A) (k : A → M B) w Q E :
  wp m w (λ a w', wp (k a) w' Q E) E → wp (bind m k) w Q E.
Proof. unfold wp, bind. by destruct (m w). Qed.

Lemma wp_try_catch {A} (m h : M A) w Q E :
  wp m w Q (λ w', wp h w' Q E) → wp (try_catch m h) w Q E.
Proof. unfold wp, try_catch. by destruct (m w). Qed.

Lemma wp_gets {A} (f : World → A) w (Q : A → World → Prop) E :
  Q (f w) w → wp (gets f) w Q E.
Proof. done. Qed.

Lemma wp_modify (f : World → World) w (Q : unit → World → Prop) E :
  Q tt (f w) → wp (modify f) w Q E.
Proof. done. Qed.

Lemma wp_throw {A} w (Q : A → World → Prop) (E : World → Prop) :
  E w → wp throw w Q E.
Proof. done. Qed.

Lemma wp_mono {A} (m : M A) w (Q Q' : A → World → Prop) (E E' : World → Prop) :
  wp m w Q E →
  (∀ a w', Q a w' → Q' a w') → (∀ w', E w' → E' w') →
  wp m w Q' E'.
Proof. unfold wp. destruct (m w); auto. Qed.

Lemma wp_returns {A} (m : M A) w (Q : A → World → Prop) :
  wp m w Q (λ _, False) → ∃ a w', m w = Done a w' ∧ Q a w'.
Proof. unfold wp. destruct (m w); [eauto|done..]. Qed.

Lemma wp_of_Done {A} (m : M A) w a w' (Q : A → World → Prop) E :
  m w = Done a w' → Q a w' → wp m w Q E.
Proof. unfold wp. by intros ->. Qed.

(** A loop keeps an invariant that every iteration keeps. *)
Lemma wp_for_each {A} (xs : list A) (body : A → M unit) (I : World → Prop) E w :
  I w →
  (∀ x w, x ∈ xs → I w → wp (body x) w (λ _ w', I w') E) →
  wp (for_each xs body) w (λ _ w', I w') E.
Proof.
  revert w. induction xs as [|x xs IH]; intros w Hw Hbody; [done|].
  cbn [for_each]. apply wp_bind.
  eapply wp_mono; [apply (Hbody x w); [left|done]| |done].
  intros [] w' Hw'. apply IH; [done|].
  intros y w'' Hy. apply Hbody. by right.
Qed.

(** ** manager.ts: reading the leadership record *)

Lemma manager_getActive_live fuel w value :
  controller_at Manager.ACTIVE_CONTROLLER_KEY w = Some value →
  ¬ expired (clock w (ticks w)) value →
  Manager.getActiveController (S fuel) w = Done (Some value) (set_ticks S w).
Proof.
  intros Hrec Hlive. cbn [Manager.getActiveController].
  apply try_catch_Done.
  unfold bind at 1, Kv.get, gets.
  unfold controller_at in Hrec. rewrite Hrec.
  unfold bind at 1, Date_now.
  destruct (decide _) as [He|_]; [by destruct Hlive|done].
Qed.

Lemma manager_getActive_absent fuel w :
  controller_at Manager.ACTIVE_CONTROLLER_KEY w = None →
  Manager.getActiveController (S fuel) w = Done None w.
Proof.
  intros Hrec. cbn [Manager.getActiveController].
  apply try_catch_Done.
  unfold bind at 1, Kv.get, gets.
  unfold controller_at in Hrec. by rewrite Hrec.
Qed.

Lemma manager_getActive_stuck fuel :
  ∀ w value,
    controller_at Manager.ACTIVE_CONTROLLER_KEY w = Some value →
    (∀ i, (ticks w ≤ i)%nat → expired (clock w i) value) →
    Manager.getActiveController fuel w = Pending.
Proof.
  induction fuel as [|fuel IH]; intros w value Hrec Hexp; [done|].
  cbn [Manager.getActiveController].
  apply try_catch_Pending.
  unfold bind at 1, Kv.get, gets.
  unfold controller_at in Hrec. rewrite Hrec.
  unfold bind at 1, Date_now.
  destruct (decide _) as [_|Hn].
  - apply bind_Pending. unfold Manager.clearActiveController_body.
    apply try_catch_Pending, bind_Pending.
    apply (IH _ value); [exact Hrec|].
    intros i Hi. apply Hexp. cbn in Hi. lia.
  - exfalso. apply Hn. apply (Hexp (ticks w)). lia.
Qed.

Lemma expired_from_now_on w value :
  clock_monotone w →
  expired (clock w (ticks w)) value →
  ∀ i, (ticks w ≤ i)%nat → expired (clock w i) value.
Proof.
  intros Hmono Hexp i Hi. unfold expired in *.
  specialize (Hmono (ticks w) i Hi). lia.
Qed.

(** C1 (manager.ts).  On a store whose leadership record is expired,
    [getActiveController] hands the record to [clearActiveController], which
    starts by calling [getActiveController] again: with a clock that does not
    run backwards the call has not returned after any number of nested calls,
    so the record is never deleted and no notification is published. *)
Theorem manager_getActive_expired_never_returns fuel w value :
  controller_at Manager.ACTIVE_CONTROLLER_KEY w = Some value →
  clock_monotone w →
  expired (clock w (ticks w)) value →
  Manager.getActiveController fuel w = Pending.
Proof.
  intros Hrec Hmono Hexp. apply (manager_getActive_stuck fuel w value Hrec).
  by apply expired_from_now_on.
Qed.

Lemma manager_getActive_expired_never_returns_witness :
  Manager.getActiveController 5
    (led_world (steady_clock 40000 1) stale_leader_C1) = Pending.
Proof.
  apply (manager_getActive_expired_never_returns 5 _ stale_leader_C1).
  - reflexivity.
  - intros i j Hij. unfold led_world, steady_clock. cbn. lia.
  - vm_compute. reflexivity.
Defined.

(** The same read in status.ts deletes the expired record itself, publishes the
    null notification and returns null. *)
Lemma status_getActive_expired w value :
  controller_at Status.ACTIVE_CONTROLLER_KEY w = Some value →
  expired (clock w (ticks w)) value →
  ∃ w', Status.getActiveController w = Done None w' ∧
        controller_at Status.ACTIVE_CONTROLLER_KEY w' = None ∧
        notification_at Status.CONTROLLER_CHANGE_NOTIFICATION_KEY w' =
          Some (mkChangeNotification None (clock w (S (ticks w))) (uuids w)).
Proof.
  intros Hrec Hexp. unfold Status.getActiveController.
  unfold bind at 1, Kv.get, gets.
  unfold controller_at in Hrec. rewrite Hrec.
  unfold bind at 1, Date_now.
  destruct (decide _) as [_|Hn]; [|by destruct Hn].
  eexists. split; [reflexivity|]. split.
  - unfold controller_at. cbn. by rewrite lookup_insert_ne, lookup_delete_eq.
  - unfold notification_at. cbn. by rewrite lookup_insert_eq.
Qed.

(** ** Heartbeats and repeated activation *)

(** C5.  A heartbeat [setActiveController id true] that finds a live record of
    another controller returns [false] and leaves the whole store as it was,
    leadership record and change notification included; no notification id is
    drawn.  This holds for the manager and for the status endpoint's copy. *)
Theorem heartbeat_of_non_leader_is_rejected fuel w cur id :
  cr_id cur ≠ id →
  ¬ expired (clock w (ticks w)) cur →
  (controller_at Manager.ACTIVE_CONTROLLER_KEY w = Some cur →
   ∃ w', Manager.setActiveController (S fuel) id true w = Done false w' ∧
         kv w' = kv w ∧ uuids w' = uuids w) ∧
  (controller_at Status.ACTIVE_CONTROLLER_KEY w = Some cur →
   ∃ w', Status.setActiveController id true w = Done false w' ∧
         kv w' = kv w ∧ uuids w' = uuids w).
Proof.
  intros Hne Hlive. split; intros Hrec.
  - unfold Manager.setActiveController.
    eexists. split.
    + apply try_catch_Done.
      rewrite (bind_Done _ _ _ _ _ (manager_getActive_live fuel w cur Hrec Hlive)).
      unfold bind, instanceId_or_local, gets, Date_now.
      destruct (decide (cr_id cur = id)) as [|_]; [contradiction|]. reflexivity.
    + done.
  - unfold Status.setActiveController, Status.getActiveController.
    unfold bind at 1 2, Kv.get, gets.
    unfold controller_at in Hrec. rewrite Hrec.
    unfold bind at 1, Date_now.
    destruct (decide (_ > _)) as [He|_]; [by destruct Hlive|].
    cbn. destruct (decide (cr_id cur = id)) as [|_]; [contradiction|].
    by eexists.
Qed.

Lemma heartbeat_of_non_leader_is_rejected_witness :
  (∃ w', Manager.setActiveController 1 "C2" true
           (doubly_led_world (steady_clock 2000 1) leader_C1) = Done false w' ∧
         kv w' = kv (doubly_led_world (steady_clock 2000 1) leader_C1) ∧
         uuids w' = 0%nat) ∧
  (∃ w', Status.setActiveController "C2" true
           (doubly_led_world (steady_clock 2000 1) leader_C1) = Done false w' ∧
         kv w' = kv (doubly_led_world (steady_clock 2000 1) leader_C1) ∧
         uuids w' = 0%nat).
Proof.
  assert (Hne : cr_id leader_C1 ≠ "C2") by (by vm_compute).
  assert (Hlive : ¬ expired
                    (clock (doubly_led_world (steady_clock 2000 1) leader_C1)
                       (ticks (doubly_led_world (steady_clock 2000 1) leader_C1)))
                    leader_C1) by (by vm_compute).
  destruct (heartbeat_of_non_leader_is_rejected 0 _ leader_C1 "C2" Hne Hlive)
    as [Hm Hs].
  split; [apply Hm | apply Hs]; reflexivity.
Defined.

(** C7.  [setActiveController] called with the id of the live leader rewrites
    the record with a new timestamp and all other fields kept, returns [false],
    and leaves the change notification alone. *)
Theorem setActive_by_leader_refreshes_timestamp fuel w cur isHeartbeat :
  controller_at Manager.ACTIVE_CONTROLLER_KEY w = Some cur →
  ¬ expired (clock w (ticks w)) cur →
  ∃ w', Manager.setActiveController (S fuel) (cr_id cur) isHeartbeat w
        = Done false w' ∧
        kv w' = <[Manager.ACTIVE_CONTROLLER_KEY :=
                    mkKvEntry
                      (VController
                         (mkControllerRecord (cr_id cur) (clock w (S (ticks w)))
                            (cr_instanceId cur) (cr_metadata cur)))
                      None]> (kv w) ∧
        kv w' !! Manager.CONTROLLER_NOTIFICATION_KEY
          = kv w !! Manager.CONTROLLER_NOTIFICATION_KEY ∧
        uuids w' = uuids w.
Proof.
  intros Hrec Hlive. unfold Manager.setActiveController.
  eexists. split.
  - apply try_catch_Done.
    rewrite (bind_Done _ _ _ _ _ (manager_getActive_live fuel w cur Hrec Hlive)).
    unfold bind, instanceId_or_local, gets, Date_now.
    destruct (decide (cr_id cur = cr_id cur)) as [_|]; [|contradiction]. reflexivity.
  - cbn. split; [done|]. split; [|done]. by rewrite lookup_insert_ne.
Qed.

Lemma setActive_by_leader_refreshes_timestamp_witness :
  ∃ w', Manager.setActiveController 1 "C1" false
          (led_world (steady_clock 2000 1) leader_C1) = Done false w' ∧
        kv w' = <[Manager.ACTIVE_CONTROLLER_KEY :=
                    mkKvEntry
                      (VController
                         (mkControllerRecord "C1" 2001 (Some "local")
                            (Some "controller")))
                      None]> (kv (led_world (steady_clock 2000 1) leader_C1)) ∧
        kv w' !! Manager.CONTROLLER_NOTIFICATION_KEY = None ∧
        uuids w' = 0%nat.
Proof.
  apply (setActive_by_leader_refreshes_timestamp 0
           (led_world (steady_clock 2000 1) leader_C1) leader_C1 false).
  - reflexivity.
  - by vm_compute.
Defined.

(** ** lock.ts: the legacy lock record *)

(** C10.  An authenticated POST to the lock endpoint that meets an expired
    leadership record never gets past its call of [setActiveController], the
    same loop as in [getActiveController]: it writes no lock record and sends
    no response. *)
Theorem lock_POST_on_expired_record_never_returns fuel w value id heartbeat :
  id ≠ "" →
  controller_at Manager.ACTIVE_CONTROLLER_KEY w = Some value →
  clock_monotone w →
  expired (clock w (ticks w)) value →
  Lock.POST fuel (Some id) heartbeat w = Pending.
Proof.
  intros Hid Hrec Hmono Hexp. unfold Lock.POST, authenticated, string_or_null.
  destruct (decide (id = "")) as [|_]; [contradiction|].
  apply try_catch_Pending, bind_Pending.
  unfold Manager.setActiveController.
  apply try_catch_Pending, bind_Pending.
  apply (manager_getActive_stuck fuel w value Hrec).
  by apply expired_from_now_on.
Qed.

Lemma lock_POST_on_expired_record_never_returns_witness :
  Lock.POST 7 (Some "C2") true
    (led_world (steady_clock 40000 1) stale_leader_C1) = Pending.
Proof.
  apply (lock_POST_on_expired_record_never_returns 7 _ stale_leader_C1).
  - done.
  - reflexivity.
  - intros i j Hij. unfold led_world, steady_clock. cbn. lia.
  - vm_compute. reflexivity.
Defined.

(** On the rejected path, a heartbeat of [id] while [cur] leads, the response says so,
    the store changes at the lock key only, and the lock record names the
    rejected caller. *)
Lemma lock_POST_rejected_heartbeat_writes_lock fuel w cur id :
  id ≠ "" →
  controller_at Manager.ACTIVE_CONTROLLER_KEY w = Some cur →
  cr_id cur ≠ id →
  ¬ expired (clock w (ticks w)) cur →
  ¬ expired (clock w (3 + ticks w)) cur →
  ∃ w', Lock.POST (S fuel) (Some id) true w
        = Done (Activation false (string_or_null (Some (cr_id cur))) false
                  (clock w (4 + ticks w)) Manager.HEARTBEAT_TIMEOUT_MS) w' ∧
        kv w' = <[Lock.CONTROLLER_LOCK_KEY :=
                    mkKvEntry (VLock (mkLockRecord id (clock w (2 + ticks w))))
                      None]> (kv w) ∧
        controller_at Manager.ACTIVE_CONTROLLER_KEY w' = Some cur ∧
        lock_at w' = Some (mkLockRecord id (clock w (2 + ticks w))).
Proof.
  intros Hid Hrec Hne Hlive Hlive'.
  unfold Lock.POST, authenticated, string_or_null at 1.
  destruct (decide (id = "")) as [|_]; [contradiction|].
  assert (Hset : Manager.setActiveController (S fuel) id true w
                 = Done false (set_ticks S (set_ticks S w))).
  { unfold Manager.setActiveController. apply try_catch_Done.
    rewrite (bind_Done _ _ _ _ _ (manager_getActive_live fuel w cur Hrec Hlive)).
    unfold bind, instanceId_or_local, gets, Date_now.
    destruct (decide (cr_id cur = id)) as [|_]; [contradiction|]. reflexivity. }
  eexists. split; [|split; [|split]].
  - apply try_catch_Done.
    rewrite (bind_Done _ _ _ _ _ Hset).
    unfold bind at 1, Date_now. unfold bind at 1, Kv.set, modify.
    erewrite bind_Done; cycle 1.
    { apply (manager_getActive_live fuel _ cur).
      - unfold controller_at. cbn. by rewrite lookup_insert_ne.
      - exact Hlive'. }
    unfold bind, Date_now, ret. cbn.
    rewrite bool_decide_eq_false_2 by congruence. reflexivity.
  - reflexivity.
  - unfold controller_at. cbn. by rewrite lookup_insert_ne.
  - unfold lock_at. cbn. by rewrite lookup_insert_eq.
Qed.

(** [setActiveController] on a store whose record is absent or live returns;
    afterwards a record is in place, either the one found (a rejected
    heartbeat) or one stamped with a clock reading of this call, and the lock
    record is as before. *)
Lemma manager_setActive_returns fuel w id isHeartbeat :
  (∀ cur, controller_at Manager.ACTIVE_CONTROLLER_KEY w = Some cur →
          ¬ expired (clock w (ticks w)) cur) →
  ∃ changed w1 rec,
    Manager.setActiveController (S fuel) id isHeartbeat w = Done changed w1 ∧
    clock w1 = clock w ∧ (ticks w ≤ ticks w1 ≤ ticks w + 3)%nat ∧
    controller_at Manager.ACTIVE_CONTROLLER_KEY w1 = Some rec ∧
    (controller_at Manager.ACTIVE_CONTROLLER_KEY w = Some rec ∨
     ∃ i, (ticks w ≤ i < ticks w1)%nat ∧ cr_timestamp rec = clock w i) ∧
    lock_at w1 = lock_at w.
Proof.
  intros Hlive. unfold Manager.setActiveController.
  destruct (controller_at Manager.ACTIVE_CONTROLLER_KEY w) as [cur|] eqn:Hrec.
  - specialize (Hlive cur eq_refl).
    pose proof (manager_getActive_live fuel w cur Hrec Hlive) as Hget.
    destruct (decide (cr_id cur = id)) as [Hsame|Hother];
      [|destruct isHeartbeat].
    + eexists _, _, _. split.
      { apply try_catch_Done. rewrite (bind_Done _ _ _ _ _ Hget).
        unfold bind, instanceId_or_local, gets, Date_now.
        destruct (decide (cr_id cur = id)); [|contradiction]. reflexivity. }
      cbn. split; [done|]. split; [lia|]. split.
      { unfold controller_at. cbn. by rewrite lookup_insert_eq. }
      split; [|unfold lock_at; cbn; by rewrite ?lookup_insert_ne].
      right. exists (S (ticks w)). split; [lia|done].
    + exists false, (set_ticks S (set_ticks S w)), cur. split.
      { apply try_catch_Done. rewrite (bind_Done _ _ _ _ _ Hget).
        unfold bind, instanceId_or_local, gets, Date_now.
        destruct (decide (cr_id cur = id)); [contradiction|]. reflexivity. }
      cbn. split; [done|]. split; [lia|]. split; [exact Hrec|].
      split; [by left|done].
    + eexists _, _, _. split.
      { apply try_catch_Done. rewrite (bind_Done _ _ _ _ _ Hget).
        unfold bind, instanceId_or_local, gets, Date_now.
        destruct (decide (cr_id cur = id)); [contradiction|]. reflexivity. }
      cbn. split; [done|]. split; [lia|]. split.
      { unfold controller_at. cbn. by rewrite lookup_insert_ne, lookup_insert_eq. }
      split; [|unfold lock_at; cbn; by rewrite ?lookup_insert_ne].
      right. exists (S (ticks w)). split; [lia|done].
  - pose proof (manager_getActive_absent fuel w Hrec) as Hget.
    eexists _, _, _. split.
    { apply try_catch_Done. rewrite (bind_Done _ _ _ _ _ Hget). reflexivity. }
    cbn. split; [done|]. split; [lia|]. split.
    { unfold controller_at. cbn. by rewrite lookup_insert_ne, lookup_insert_eq. }
    split; [|unfold lock_at; cbn; by rewrite ?lookup_insert_ne].
    right. exists (ticks w). split; [lia|done].
Qed.

(** Away from the expired record every authenticated POST returns and has
    written the lock record with the caller's id and a clock reading of the
    request.  The leadership record must stay live for the five clock readings
    a request can make. *)
Lemma lock_POST_writes_lock fuel w id heartbeat :
  id ≠ "" →
  clock_monotone w →
  clock w (4 + ticks w) - clock w (ticks w) ≤ Manager.HEARTBEAT_TIMEOUT_MS →
  (∀ cur, controller_at Manager.ACTIVE_CONTROLLER_KEY w = Some cur →
          ¬ expired (clock w (4 + ticks w)) cur) →
  ∃ response w' i,
    Lock.POST (S fuel) (Some id) heartbeat w = Done response w' ∧
    lock_at w' = Some (mkLockRecord id (clock w i)) ∧ (ticks w ≤ i < ticks w')%nat.
Proof.
  intros Hid Hmono Hspan Hlive.
  assert (Hle : ∀ i j, (i ≤ j)%nat → clock w i ≤ clock w j) by exact Hmono.
  destruct (manager_setActive_returns fuel w id heartbeat)
    as (changed & w1 & rec & Hset & Hclock & Hticks & Hrec & Hstamp & _).
  { intros cur Hcur Hexp. apply (Hlive cur Hcur). unfold expired in *.
    specialize (Hle (ticks w) (4 + ticks w)%nat). lia. }
  unfold Lock.POST, authenticated, string_or_null at 1.
  destruct (decide (id = "")) as [|_]; [contradiction|].
  set (w2 := set_kv (insert Lock.CONTROLLER_LOCK_KEY
                       (mkKvEntry (VLock (mkLockRecord id (clock w1 (ticks w1))))
                          None)) (set_ticks S w1)).
  assert (Hget : Manager.getActiveController (S fuel) w2
                 = Done (Some rec) (set_ticks S w2)).
  { apply manager_getActive_live.
    - unfold controller_at, w2. cbn. by rewrite lookup_insert_ne.
    - unfold w2. cbn. rewrite Hclock. unfold expired in *.
      destruct Hstamp as [Hold|(i & Hi & ->)].
      + specialize (Hlive rec Hold).
        specialize (Hle (S (ticks w1)) (4 + ticks w)%nat). lia.
      + pose proof (Hle (ticks w) i). pose proof (Hle (S (ticks w1)) (4 + ticks w)%nat).
        lia. }
  eexists _, _, (ticks w1). split; [|split].
  - apply try_catch_Done. rewrite (bind_Done _ _ _ _ _ Hset).
    unfold bind at 1, Date_now. unfold bind at 1, Kv.set, modify.
    fold w2. rewrite (bind_Done _ _ _ _ _ Hget). reflexivity.
  - unfold lock_at. cbn. by rewrite lookup_insert_eq, Hclock.
  - cbn. lia.
Qed.

(** ** The two leadership stores *)

(** C3 fails on the code.  A POST to the lock endpoint by A followed by a POST
    to the status endpoint by B reaches a state with two live leadership
    records in the store, one per key, naming different controllers. *)
Theorem two_endpoints_two_live_leaders :
  reachable (idle_world (steady_clock 1000 1)) after_two_endpoint_requests ∧
  live_controller_records
    (clock after_two_endpoint_requests (ticks after_two_endpoint_requests))
    after_two_endpoint_requests =
    [(Status.ACTIVE_CONTROLLER_KEY, mkControllerRecord "B" 1005 None None);
     (Manager.ACTIVE_CONTROLLER_KEY,
      mkControllerRecord "A" 1000 (Some "local") (Some "controller"))].
Proof.
  split.
  - exists 1%nat, two_endpoint_requests. apply returned_state.
    vm_compute. exact I.
  - vm_compute. reflexivity.
Qed.

(** The status endpoint's [setActiveController] always returns and never
    touches the manager's record: the two stores evolve independently. *)
Lemma status_setActive_leaves_manager_record id isHeartbeat w :
  ∃ changed w',
    Status.setActiveController id isHeartbeat w = Done changed w' ∧
    kv w' !! Manager.ACTIVE_CONTROLLER_KEY = kv w !! Manager.ACTIVE_CONTROLLER_KEY.
Proof.
  unfold Status.setActiveController, Status.getActiveController.
  unfold bind at 1 2, Kv.get, gets.
  destruct (Kv.as_controller _) as [value|].
  - unfold bind at 1, Date_now.
    destruct (decide (_ > _)).
    + eexists _, _. split; [reflexivity|]. cbn.
      by rewrite !lookup_insert_ne, lookup_delete_ne.
    + cbn. destruct (decide (cr_id value = id)).
      * eexists _, _. split; [reflexivity|]. cbn. by rewrite lookup_insert_ne.
      * destruct isHeartbeat.
        -- by eexists _, _.
        -- eexists _, _. split; [reflexivity|]. cbn.
           by rewrite !lookup_insert_ne.
  - eexists _, _. split; [reflexivity|]. cbn. by rewrite !lookup_insert_ne.
Qed.

(** ** signal.ts: what the helpers leave alone *)

Lemma world_eq w w' :
  kv w = kv w' → clock w = clock w' → ticks w = ticks w' → uuids w = uuids w' →
  ulids w = ulids w' → deploymentId w = deploymentId w' →
  sockets w = sockets w' → sent w = sent w' →
  activeConnections w = activeConnections w' →
  pollingIntervals w = pollingIntervals w' →
  activeControllers w = activeControllers w' →
  activeWebRTCConnections w = activeWebRTCConnections w' →
  timers w = timers w' → nextTimer w = nextTimer w' →
  w = w'.
Proof. destruct w, w'. cbn. by intros; subst. Qed.

Lemma off_queue_unchanged_refl w : off_queue_unchanged w w.
Proof. by intros k _. Qed.

Lemma off_queue_unchanged_kv w0 w w' :
  off_queue_unchanged w0 w → kv w' = kv w → off_queue_unchanged w0 w'.
Proof. intros H Hkv k Hk. rewrite Hkv. by apply H. Qed.

Lemma off_queue_unchanged_trans w0 w w' :
  off_queue_unchanged w0 w → off_queue_unchanged w w' →
  off_queue_unchanged w0 w'.
Proof. intros H1 H2 k Hk. rewrite H2, H1; done. Qed.

Lemma queueMessage_Done target message w :
  Signal.queueMessage target message w
  = Done tt (set_kv (insert (Signal.getMessagesKey target ++ [ulid_text (ulids w)])
                       (mkKvEntry (VMessage message) (Some Signal.QUEUE_TTL_MS)))
               (set_ulids S w)).
Proof. reflexivity. Qed.

Lemma queueMessage_frame target message w0 w E :
  off_queue_unchanged w0 w →
  wp (Signal.queueMessage target message) w
    (λ _ w', off_queue_unchanged w0 w') E.
Proof.
  intros H. eapply wp_of_Done; [apply queueMessage_Done|].
  intros k Hk. cbn. rewrite lookup_insert_ne; [by apply H|].
  intros <-. by vm_compute in Hk.
Qed.

Lemma socket_send_frame socket frame w0 w :
  off_queue_unchanged w0 w →
  wp (socket_send socket frame) w
    (λ _ w', off_queue_unchanged w0 w') (λ w', off_queue_unchanged w0 w').
Proof.
  intros H. unfold wp, socket_send.
  destruct (sockets w !! socket) as [s|]; [|done].
  by destruct (sk_readyState s).
Qed.

Lemma notifyControllers_frame message w0 w :
  off_queue_unchanged w0 w →
  wp (Signal.notifyControllers message) w
    (λ _ w', off_queue_unchanged w0 w') (λ _, False).
Proof.
  intros H. unfold Signal.notifyControllers.
  apply wp_try_catch.
  apply wp_bind, wp_gets, wp_bind.
  eapply wp_mono;
    [apply (wp_for_each _ _ (off_queue_unchanged w0)
              (off_queue_unchanged w0)); [done|] | | ].
  - intros controllerId w1 _ H1.
    apply wp_bind, wp_gets.
    destruct (jsmap_get _ _) as [sk|]; [|by apply queueMessage_frame].
    apply wp_bind, wp_gets.
    destruct (decide _); [by apply socket_send_frame|by apply queueMessage_frame].
  - intros [] w1 H1. cbn beta. apply wp_bind, wp_gets.
    eapply wp_mono;
      [apply (wp_for_each _ _ (off_queue_unchanged w0)
                (off_queue_unchanged w0)); [done|] | | ]; [|done..].
    intros entry w2 _ H2.
    destruct (jsset_has _ _); [done|by apply queueMessage_frame].
  - done.
Qed.

(** ** Registration *)

Lemma num_or_nonzero a b : a ≠ 0 → num_or a b = a.
Proof. intros H. unfold num_or. by destruct (decide (a = 0)). Qed.

Lemma client_at_entry id w c :
  client_at id w = Some c →
  ∃ e, kv w !! Signal.getConnectionKey id = Some e ∧ kv_value e = VClient c.
Proof.
  unfold client_at. destruct (kv w !! _) as [e|]; [|done].
  cbn. destruct (kv_value e) eqn:He; try done.
  intros [= ->]. eauto.
Qed.

(** C6, as the code has it.  Registering [id] over a prior record (with a
    non-zero connection timestamp) writes a record that inherits the prior
    connection timestamp and counts one more reconnection.  Its
    [lastReconnectTime] is the current time only when the client set the
    reconnect flag; without the flag it is the prior record's value. *)
Theorem register_over_prior_record id socket isReconnect timestamp w prior :
  client_at id w = Some prior →
  cl_connectionTimestamp prior ≠ 0 →
  ∃ w', Signal.registerConnection id socket isReconnect timestamp w = Done tt w' ∧
        kv w' !! Signal.getConnectionKey id =
          Some (mkKvEntry
                  (VClient
                     (mkClientRecord (instance_name w) (clock w (ticks w))
                        (cl_connectionTimestamp prior)
                        (cl_reconnectionCount prior + 1)
                        (if isReconnect then Some (clock w (ticks w))
                         else num_or_null (cl_lastReconnectTime prior))
                        (Signal.isController id)))
                  (Some Signal.CLIENT_TTL_MS)).
Proof.
  intros Hprior Hct.
  destruct (client_at_entry _ _ _ Hprior) as (e & He & Hv).
  cut (wp (Signal.registerConnection id socket isReconnect timestamp) w
         (λ _ w', kv w' !! Signal.getConnectionKey id =
            Some (mkKvEntry
                  (VClient
                     (mkClientRecord (instance_name w) (clock w (ticks w))
                        (cl_connectionTimestamp prior)
                        (cl_reconnectionCount prior + 1)
                        (if isReconnect then Some (clock w (ticks w))
                         else num_or_null (cl_lastReconnectTime prior))
                        (Signal.isController id)))
                  (Some Signal.CLIENT_TTL_MS)))
         (λ _, False)).
  { intros H. apply wp_returns in H as ([] & w' & ? & ?). eauto. }
  unfold Signal.registerConnection.
  apply wp_bind, wp_try_catch. unfold Kv.get. apply wp_gets.
  rewrite He. cbn [fmap option_fmap option_map]. rewrite Hv.
  apply wp_bind, wp_gets, wp_bind.
  apply (wp_mono _ _
           (λ _ w1, kv w1 = kv w ∧ ticks w1 = ticks w ∧ clock w1 = clock w ∧
                    instance_name w1 = instance_name w) _ (λ _, False)).
  { destruct (jsmap_get id (activeConnections w)) as [previous|]; [|done].
    destruct (decide (previous ≠ socket)); [|done].
    apply wp_try_catch. unfold wp, socket_close.
    destruct (sockets w !! previous) as [s|]; [|done].
    by destruct (sk_readyState s). }
  2: done.
  intros [] w1 (Hkv & Hticks & Hclock & Hinst). cbn beta.
  apply wp_bind. unfold wp at 1, Date_now.
  apply wp_bind, wp_gets. apply wp_bind, wp_modify, wp_bind, wp_modify.
  change (instance_name (set_ticks S w1)) with (instance_name w1).
  rewrite Hticks, Hclock, Hinst.
  cbn [Kv.connectionTimestamp_or_0 Kv.reconnectionCount_or_0 mbind option_bind
       Kv.lastReconnectTime_of].
  rewrite !(num_or_nonzero _ _ Hct).
  replace (if isReconnect
           then cl_connectionTimestamp prior else cl_connectionTimestamp prior)
    with (cl_connectionTimestamp prior) by (by destruct isReconnect).
  match goal with
  | |- context [mkKvEntry ?v ?t] => set (rec := mkKvEntry v t)
  end.
  set (w3 := set_activeConnections _ _).
  assert (H3 : kv w3 !! Signal.getConnectionKey id = Some rec).
  { subst w3. cbn. by rewrite lookup_insert_eq. }
  clearbody w3.
  apply wp_bind.
  apply (wp_mono _ _
           (λ _ w4, kv w4 !! Signal.getConnectionKey id = Some rec) _ (λ _, False)).
  { destruct (Signal.isController id).
    - apply wp_bind, wp_modify, wp_modify. cbn.
      rewrite lookup_insert_ne; [done|]. by vm_compute.
    - eapply wp_mono;
        [apply (notifyControllers_frame _ w3), off_queue_unchanged_refl| |done].
      intros [] w4 H4. cbn beta. rewrite H4; [done|]. by vm_compute. }
  2: done.
  intros [] w4 H4. cbn beta.
  apply wp_bind, wp_gets, wp_bind.
  apply (wp_mono _ _
           (λ _ w5, kv w5 !! Signal.getConnectionKey id = Some rec) _ (λ _, False)).
  { destruct (jsmap_get id (pollingIntervals w4)); exact H4. }
  2: done.
  intros [] w5 H5. cbn beta.
  exact H5.
Qed.

Lemma register_over_prior_record_witness :
  ∃ w', Signal.registerConnection "synth-z" 2 true 8000
          (attached_world (steady_clock 9000 1) "synth-z" 1 synth_z_prior)
        = Done tt w' ∧
        kv w' !! Signal.getConnectionKey "synth-z" =
          Some (mkKvEntry
                  (VClient (mkClientRecord "local" 9000 5000 1 (Some 9000) false))
                  (Some Signal.CLIENT_TTL_MS)).
Proof.
  apply (register_over_prior_record "synth-z" 2 true 8000
           (attached_world (steady_clock 9000 1) "synth-z" 1 synth_z_prior)
           synth_z_prior).
  - reflexivity.
  - by vm_compute.
Defined.

(** C6 as stated fails: a client that re-registers without the reconnect flag
    at time 9000 over a prior record gets [lastReconnectTime = null], not the
    current time, while the timestamp is inherited and the count incremented. *)
Lemma register_without_flag_keeps_lastReconnectTime :
  match Signal.registerConnection "synth-z" 2 false 8000
          (attached_world (steady_clock 9000 1) "synth-z" 1 synth_z_prior) with
  | Done _ w' =>
      client_at "synth-z" w' = Some (mkClientRecord "local" 9000 5000 1 None false)
      ∧ cl_lastReconnectTime <$> client_at "synth-z" w' ≠ Some (Some 9000)
  | _ => False
  end.
Proof. vm_compute. split; [reflexivity|discriminate]. Qed.

(** ** The message handler *)

Lemma same_instance_refl w : same_instance w w.
Proof. by repeat split. Qed.

Lemma refreshed_refl id w : refreshed id w w.
Proof. split; [apply same_instance_refl|]. split; [lia|done]. Qed.

Lemma refresh_lastSeen_spec id w :
  wp (Signal.refresh_lastSeen id) w (λ _ w', refreshed id w w') (λ _, False).
Proof.
  unfold Signal.refresh_lastSeen. apply wp_bind, wp_gets.
  destruct (Kv.as_client _) as [value|] eqn:Hvalue; [|apply refreshed_refl].
  assert (Hex : ∀ v ttl w1 t,
             kv w1 = <[Signal.getConnectionKey id := mkKvEntry (VClient v) ttl]> (kv w) →
             is_Some (client_at t w1) ↔ is_Some (client_at t w)).
  { intros v ttl w1 t Hkv. unfold client_at. rewrite Hkv.
    destruct (decide (Signal.getConnectionKey t = Signal.getConnectionKey id))
      as [->|Hne].
    - rewrite lookup_insert_eq, Hvalue. cbn. split; eauto.
    - by rewrite lookup_insert_ne. }
  destruct (decide (cl_connectionTimestamp value = 0)).
  - unfold wp, refreshed. cbn. split; [by repeat split|].
    split; [lia|]. split; [|intros t; by eapply (Hex _ _ _ t)].
    intros k Hk. by rewrite lookup_insert_ne.
  - unfold wp, refreshed. cbn. split; [by repeat split|].
    split; [lia|]. split; [|intros t; by eapply (Hex _ _ _ t)].
    intros k Hk. by rewrite lookup_insert_ne.
Qed.

(** Every frame but a malformed one first reads the socket's [clientId] and
    refreshes the [lastSeen] stamp of that client; [Hs] and [Hid] say which
    client the socket is bound to. *)
Ltac enter_onmessage Hs Hid :=
  unfold Signal.onmessage; apply wp_try_catch;
  apply wp_bind, wp_ret, wp_bind, wp_gets;
  rewrite Hs, Hid; apply wp_bind;
  (eapply wp_mono; [apply refresh_lastSeen_spec| |done]).

Lemma bound_controller_of clientId id :
  bound_id clientId = Some id → Signal.isController id = true →
  Signal.bound_controller clientId = Some id.
Proof. unfold Signal.bound_controller. by intros -> ->. Qed.

(** C8, as the code has it.  A signaling frame from a bound sender whose target
    has no open socket on this instance is queued under the target's message
    key with the queue TTL.  The registry is not consulted: the entry is
    written whether or not a client record for the target exists, and none is
    created. *)
Theorem signal_to_unreachable_target_is_queued
    fuel socket id type target data w :
  bound_to socket id w →
  locally_open target w = false →
  ∃ w', Signal.onmessage fuel socket (Signal.MSignal type target data) w
        = Done tt w' ∧
        kv w' !! (Signal.getMessagesKey target ++ [ulid_text (ulids w)]) =
          Some (mkKvEntry (VMessage (FSignal type data id))
                  (Some Signal.QUEUE_TTL_MS)) ∧
        (is_Some (client_at target w') ↔ is_Some (client_at target w)).
Proof.
  intros (s & Hs & Hid) Hclosed.
  cut (wp (Signal.onmessage fuel socket (Signal.MSignal type target data)) w
         (λ _ w',
            kv w' !! (Signal.getMessagesKey target ++ [ulid_text (ulids w)]) =
              Some (mkKvEntry (VMessage (FSignal type data id))
                      (Some Signal.QUEUE_TTL_MS)) ∧
            (is_Some (client_at target w') ↔ is_Some (client_at target w)))
         (λ _, False)).
  { intros H. apply wp_returns in H as ([] & w' & ? & ?). eauto. }
  enter_onmessage Hs Hid.
  intros [] w1 (Hsame & _ & Hkv & Hex). cbn beta.
  destruct Hsame as (_ & _ & Hulids & _ & Hsockets & _ & Hconns & _).
  apply wp_bind, wp_gets. rewrite Hconns.
  unfold locally_open in Hclosed.
  apply wp_bind.
  apply (wp_mono _ _ (λ d w2, d = None ∧ w2 = w1) _ (λ _, False)).
  { destruct (jsmap_get target (activeConnections w)) as [sk|]; [|done].
    apply wp_bind, wp_gets. unfold socket_readyState. rewrite Hsockets.
    destruct (sockets w !! sk) as [s'|]; [|done].
    destruct (decide (sk_readyState s' = OPEN)) as [Hopen|]; [|done].
    by rewrite bool_decide_eq_true_2 in Hclosed. }
  2: done.
  intros d w2 [-> ->].
  eapply wp_of_Done; [apply queueMessage_Done|].
  cbn. rewrite Hulids. split; [by rewrite lookup_insert_eq|].
  rewrite <- Hex. unfold client_at. cbn.
  rewrite lookup_insert_ne; [done|]. by vm_compute.
Qed.

Lemma signal_to_unreachable_target_is_queued_witness :
  ∃ w', Signal.onmessage 1 2 (Signal.MSignal Offer "controller-xyz" "sdp")
          (stage_world (steady_clock 5000 1)) = Done tt w' ∧
        kv w' !! (Signal.getMessagesKey "controller-xyz" ++ [ulid_text 0]) =
          Some (mkKvEntry (VMessage (FSignal Offer "sdp" "synth-1"))
                  (Some Signal.QUEUE_TTL_MS)) ∧
        (is_Some (client_at "controller-xyz" w') ↔
         is_Some (client_at "controller-xyz" (stage_world (steady_clock 5000 1)))).
Proof.
  apply (signal_to_unreachable_target_is_queued 1 2 "synth-1" Offer
           "controller-xyz" "sdp" (stage_world (steady_clock 5000 1))).
  - eexists. split; reflexivity.
  - reflexivity.
Defined.

(** C8 as stated fails: an offer addressed to an id that was never registered
    is queued all the same. *)
Lemma message_queued_for_unknown_recipient :
  match Signal.onmessage 1 2 (Signal.MSignal Offer "ghost" "sdp")
          (stage_world (steady_clock 5000 1)) with
  | Done _ w' =>
      kv w' !! (Signal.getMessagesKey "ghost" ++ [ulid_text 0]) =
        Some (mkKvEntry (VMessage (FSignal Offer "sdp" "synth-1"))
                (Some Signal.QUEUE_TTL_MS)) ∧
      client_at "ghost" (stage_world (steady_clock 5000 1)) = None ∧
      client_at "ghost" w' = None
  | _ => False
  end.
Proof. vm_compute. done. Qed.

(** ** Leadership verbs on the socket *)

(** One broadcast: it returns the number of frames sent, reads the clock once
    per frame, appends the frames to the trace and changes nothing else. *)
Lemma broadcast_loop_Done entries controllerId :
  ∀ n w,
    let frames :=
      broadcast_frames entries controllerId (sockets w) (clock w) (ticks w) in
    Signal.broadcast_loop entries controllerId n w
    = Done (n + length frames)%nat
        (set_sent (λ trace, trace ++ frames)
           (set_ticks (λ t, t + length frames)%nat w)).
Proof.
  induction entries as [|[clientId socket] rest IH]; intros n w frames.
  - cbn. f_equal; [lia|].
    apply world_eq; cbn; first [done | lia | by rewrite app_nil_r].
  - subst frames. cbn [Signal.broadcast_loop broadcast_frames].
    unfold bind at 1, socket_readyState, gets.
    unfold is_open.
    destruct (sockets w !! socket) as [s|] eqn:Hs; cycle 1.
    { rewrite bool_decide_eq_false_2 by done. rewrite andb_false_r. apply IH. }
    destruct (decide (sk_readyState s = OPEN)) as [Hopen|Hclosed]; cycle 1.
    { rewrite !bool_decide_eq_false_2 by done. rewrite andb_false_r. apply IH. }
    rewrite !bool_decide_eq_true_2 by done.
    destruct (negb (Signal.isController clientId)); cbn [andb]; [|apply IH].
    unfold bind at 1, try_catch at 1, bind at 1, Date_now, bind at 1, socket_send.
    cbn [sockets set_ticks]. rewrite Hs, Hopen.
    cbv beta iota delta [ret].
    rewrite IH. cbn. f_equal; [lia|].
    apply world_eq; cbn; first [done | lia | by rewrite <- app_assoc].
Qed.

Lemma broadcastControllerChange_Done controllerId w :
  let frames :=
    broadcast_frames (activeConnections w) controllerId (sockets w) (clock w)
      (ticks w) in
  Signal.broadcastControllerChange controllerId w
  = Done (length frames)
      (set_sent (λ trace, trace ++ frames)
         (set_ticks (λ t, t + length frames)%nat w)).
Proof.
  intros frames. unfold Signal.broadcastControllerChange, bind, gets.
  apply (broadcast_loop_Done (activeConnections w) controllerId 0 w).
Qed.

(** Every attached synth with an open socket is among the recipients. *)
Lemma broadcast_frames_reach entries controllerId socks clk :
  ∀ tick clientId socket,
    (clientId, socket) ∈ entries →
    Signal.isController clientId = false →
    is_open socks socket = true →
    ∃ t, (socket, FActiveController controllerId (Some t))
           ∈ broadcast_frames entries controllerId socks clk tick.
Proof.
  induction entries as [|[c sk] rest IH]; intros tick clientId socket Hin Hc Ho.
  - by apply elem_of_nil in Hin.
  - cbn [broadcast_frames]. apply elem_of_cons in Hin as [[= <- <-]|Hin].
    + rewrite Hc, Ho. cbn. eexists. left.
    + destruct (negb _ && _).
      * destruct (IH (S tick) _ _ Hin Hc Ho) as [t Ht]. exists t. by right.
      * by apply (IH _ clientId).
Qed.

(** An element of the client list depends on the instance through its
    attachments and the reported peer connections only. *)
Lemma client_list_ext w w' now (entries : list (KvKey * KvValue)) :
  activeConnections w' = activeConnections w →
  activeWebRTCConnections w' = activeWebRTCConnections w →
  omap (Signal.client_info w' now) entries
  = omap (Signal.client_info w now) entries.
Proof.
  intros Hconns Hrtc. induction entries as [|entry rest IH]; [done|].
  cbn [omap list_omap]. rewrite IH.
  unfold Signal.client_info, Signal.hasActiveWebRTCConnection.
  by rewrite Hconns, Hrtc.
Qed.

(** C2, as the code has it.  On [controller-activate] from a registered
    controller the handler broadcasts [active-controller] with the sender's id
    to every attached synth with an open socket, then sends the sender its
    client list, then schedules the delayed sweep after the grace period.  It
    does not enter [setActiveController]: apart from the refresh of the
    sender's own client record the store is untouched, the leadership record
    included. *)
Theorem controller_activate_broadcasts_only fuel socket id w :
  bound_to socket id w →
  Signal.isController id = true →
  is_open (sockets w) socket = true →
  ∃ w' t0,
    Signal.onmessage fuel socket Signal.MControllerActivate w = Done tt w' ∧
    (ticks w ≤ t0 ≤ ticks w + 2)%nat ∧
    (∀ k, k ≠ Signal.getConnectionKey id → kv w' !! k = kv w !! k) ∧
    controller_at Manager.ACTIVE_CONTROLLER_KEY w'
      = controller_at Manager.ACTIVE_CONTROLLER_KEY w ∧
    sent w' = sent w
              ++ broadcast_frames (activeConnections w) (Some id) (sockets w)
                   (clock w) t0
              ++ [(socket,
                   FClientList
                     (omap (Signal.client_info w
                              (clock w
                                 (t0 + length
                                         (broadcast_frames (activeConnections w)
                                            (Some id) (sockets w) (clock w) t0))))
                        (entries_under Signal.CONNECTION_KEY_PREFIX w')))] ∧
    timers w' = timers w
                ++ [mkTimer (nextTimer w) Signal.CLIENT_GRACE_PERIOD_MS false
                      (TDelayedCleanup socket)].
Proof.
  intros (s & Hs & Hid) Hctl Hopen.
  cut (wp (Signal.onmessage fuel socket Signal.MControllerActivate) w
         (λ _ w', ∃ t0,
            (ticks w ≤ t0 ≤ ticks w + 2)%nat ∧
            (∀ k, k ≠ Signal.getConnectionKey id → kv w' !! k = kv w !! k) ∧
            sent w' = sent w
              ++ broadcast_frames (activeConnections w) (Some id) (sockets w)
                   (clock w) t0
              ++ [(socket,
                   FClientList
                     (omap (Signal.client_info w
                              (clock w
                                 (t0 + length
                                         (broadcast_frames (activeConnections w)
                                            (Some id) (sockets w) (clock w) t0))))
                        (entries_under Signal.CONNECTION_KEY_PREFIX w')))] ∧
            timers w' = timers w
                ++ [mkTimer (nextTimer w) Signal.CLIENT_GRACE_PERIOD_MS false
                      (TDelayedCleanup socket)])
         (λ _, False)).
  { intros H. apply wp_returns in H as ([] & w' & ? & t0 & ? & Hkv & ? & ?).
    exists w', t0. repeat split; try done; try lia.
    unfold controller_at. by rewrite Hkv. }
  enter_onmessage Hs Hid.
  intros [] w1 (Hsame & Hticks & Hkv & _). cbn beta.
  destruct Hsame as (Hclock & _ & _ & _ & Hsockets & Hsent & Hconns & _ & _ & Hrtc
                     & Htimers & Hnext).
  rewrite (bound_controller_of _ _ Hid Hctl).
  apply wp_bind. eapply wp_of_Done; [apply broadcastControllerChange_Done|].
  apply wp_bind. eapply wp_of_Done; [reflexivity|].
  apply wp_bind. unfold wp at 1, socket_send. cbn [sockets set_ticks set_sent].
  rewrite Hsockets, Hs. unfold is_open in Hopen. rewrite Hs in Hopen.
  apply bool_decide_eq_true in Hopen. rewrite Hopen.
  unfold wp. cbv beta iota delta [bind setTimeout set_timer ret].
  exists (ticks w1). split; [lia|]. split; [exact Hkv|]. split.
  - cbn [sent set_timers set_sent set_ticks clock ticks activeConnections].
    rewrite Hsent, Hconns, Hclock, <- app_assoc. do 5 f_equal.
    etrans; [apply (client_list_ext w); [exact Hconns|exact Hrtc]|].
    reflexivity.
  - cbn [timers nextTimer set_timers set_sent set_ticks].
    by rewrite Htimers, Hnext.
Qed.

Lemma controller_activate_broadcasts_only_witness :
  ∃ w', Signal.onmessage 0 1 Signal.MControllerActivate
          (stage_world (steady_clock 5000 1)) = Done tt w' ∧
        controller_at Manager.ACTIVE_CONTROLLER_KEY w' = None ∧
        sent w' = [(2%nat, FActiveController (Some "controller-abc") (Some 5001));
                   (1%nat,
                    FClientList
                      [mkClientInfo "synth-1" false 1000 1000 0 None true true
                         false])] ∧
        timers w' = [mkTimer 1 15000 false (TDelayedCleanup 1)].
Proof.
  destruct (controller_activate_broadcasts_only 0 1 "controller-abc"
              (stage_world (steady_clock 5000 1)))
    as (w' & t0 & Hrun & _ & _ & Hrec & _ & Htimers).
  - eexists. split; reflexivity.
  - reflexivity.
  - reflexivity.
  - exists w'. split; [exact Hrun|]. split; [exact Hrec|]. split; [|exact Htimers].
    vm_compute in Hrun. injection Hrun as <-. reflexivity.
Defined.

(** C2 as stated fails: after [controller-activate] from a registered
    controller the store holds no leadership record for it, although the
    synth was told that controller leads. *)
Lemma controller_activate_writes_no_leadership_record :
  match Signal.onmessage 1 1 Signal.MControllerActivate
          (stage_world (steady_clock 5000 1)) with
  | Done _ w' =>
      controller_at Manager.ACTIVE_CONTROLLER_KEY w' = None ∧
      live_controller_records 5003 w' = [] ∧
      (2%nat, FActiveController (Some "controller-abc") (Some 5001)) ∈ sent w'
  | _ => False
  end.
Proof. vm_compute. split; [done|]. split; [done|]. left. Qed.

(** C4, as the code has it.  On [controller-deactivate] from a registered
    controller the handler reads the leader; if the sender leads it broadcasts
    [active-controller] with a null id to the attached synths, otherwise it
    sends nothing.  In both cases the leadership record and the change
    notification stay as they were: the record is not deleted and no null
    notification is published. *)
Theorem controller_deactivate_broadcasts_only fuel socket id w :
  bound_to socket id w →
  Signal.isController id = true →
  (∀ cur i, controller_at Manager.ACTIVE_CONTROLLER_KEY w = Some cur →
            (ticks w ≤ i ≤ ticks w + 2)%nat → ¬ expired (clock w i) cur) →
  ∃ w' t0,
    Signal.onmessage (S fuel) socket Signal.MControllerDeactivate w = Done tt w' ∧
    (∀ k, k ≠ Signal.getConnectionKey id → kv w' !! k = kv w !! k) ∧
    controller_at Manager.ACTIVE_CONTROLLER_KEY w'
      = controller_at Manager.ACTIVE_CONTROLLER_KEY w ∧
    notification_at Manager.CONTROLLER_NOTIFICATION_KEY w'
      = notification_at Manager.CONTROLLER_NOTIFICATION_KEY w ∧
    sent w' = sent w
              ++ (if decide (cr_id <$> controller_at Manager.ACTIVE_CONTROLLER_KEY w
                             = Some id)
                  then broadcast_frames (activeConnections w) None (sockets w)
                         (clock w) t0
                  else []).
Proof.
  intros (s & Hs & Hid) Hctl Hlive.
  cut (wp (Signal.onmessage (S fuel) socket Signal.MControllerDeactivate) w
         (λ _ w', ∃ t0,
            (∀ k, k ≠ Signal.getConnectionKey id → kv w' !! k = kv w !! k) ∧
            sent w' = sent w
              ++ (if decide (cr_id <$> controller_at Manager.ACTIVE_CONTROLLER_KEY w
                             = Some id)
                  then broadcast_frames (activeConnections w) None (sockets w)
                         (clock w) t0
                  else []))
         (λ _, False)).
  { intros H. apply wp_returns in H as ([] & w' & ? & t0 & Hkv & ?).
    exists w', t0. repeat split; try done.
    - unfold controller_at. by rewrite Hkv.
    - unfold notification_at. by rewrite Hkv. }
  enter_onmessage Hs Hid.
  intros [] w1 (Hsame & Hticks & Hkv & _). cbn beta.
  destruct Hsame as (Hclock & _ & _ & _ & Hsockets & Hsent & Hconns & _).
  rewrite (bound_controller_of _ _ Hid Hctl).
  assert (Hrec : controller_at Manager.ACTIVE_CONTROLLER_KEY w1
                 = controller_at Manager.ACTIVE_CONTROLLER_KEY w).
  { unfold controller_at. by rewrite Hkv. }
  unfold Signal.getActiveController.
  destruct (controller_at Manager.ACTIVE_CONTROLLER_KEY w) as [cur|] eqn:Hcur.
  - assert (Hnow : ¬ expired (clock w1 (ticks w1)) cur).
    { rewrite Hclock. apply Hlive; [done|lia]. }
    apply wp_bind, wp_bind.
    eapply wp_of_Done; [by apply manager_getActive_live|].
    apply wp_ret. cbn [fmap option_fmap option_map].
    destruct (decide (Some (cr_id cur) = Some id)) as [_|_].
    + apply wp_bind.
      eapply wp_of_Done; [apply broadcastControllerChange_Done|].
      apply wp_ret. eexists. split; [exact Hkv|]. cbn.
      by rewrite Hsent, Hconns, Hsockets, Hclock.
    + apply wp_ret. exists 0%nat. split; [exact Hkv|]. by rewrite app_nil_r.
  - apply wp_bind, wp_bind.
    eapply wp_of_Done; [by apply manager_getActive_absent|].
    apply wp_ret. cbn [fmap option_fmap option_map].
    destruct (decide (None = Some id)) as [|_]; [done|].
    apply wp_ret. exists 0%nat. split; [exact Hkv|]. by rewrite app_nil_r.
Qed.

Lemma controller_deactivate_broadcasts_only_witness :
  ∃ w' t0,
    Signal.onmessage 1 1 Signal.MControllerDeactivate
      (led_stage_world (steady_clock 5000 1) leader_abc) = Done tt w' ∧
    controller_at Manager.ACTIVE_CONTROLLER_KEY w' = Some leader_abc ∧
    notification_at Manager.CONTROLLER_NOTIFICATION_KEY w' = None ∧
    sent w' = [(2%nat, FActiveController None (Some t0))].
Proof.
  destruct (controller_deactivate_broadcasts_only 0 1 "controller-abc"
              (led_stage_world (steady_clock 5000 1) leader_abc))
    as (w' & t0 & Hrun & _ & Hrec & Hnote & Hsent).
  - eexists. split; reflexivity.
  - reflexivity.
  - intros cur i Hcur Hi. vm_compute in Hcur. injection Hcur as <-.
    unfold expired, led_stage_world, steady_clock, Manager.HEARTBEAT_TIMEOUT_MS.
    cbn. cbn in Hi. lia.
  - exists w'. eexists. split; [exact Hrun|]. split; [exact Hrec|].
    split; [exact Hnote|]. exact Hsent.
Defined.

(** C4 as stated fails: after [controller-deactivate] from the active
    controller the leadership record is still in the store and no null
    notification has been published; only the broadcast went out. *)
Lemma controller_deactivate_keeps_leadership_record :
  match Signal.onmessage 1 1 Signal.MControllerDeactivate
          (led_stage_world (steady_clock 5000 1) leader_abc) with
  | Done _ w' =>
      controller_at Manager.ACTIVE_CONTROLLER_KEY w' = Some leader_abc ∧
      notification_at Manager.CONTROLLER_NOTIFICATION_KEY w' = None ∧
      sent w' = [(2%nat, FActiveController None (Some 5002))]
  | _ => False
  end.
Proof. vm_compute. done. Qed.

(** ** The reaper *)

Lemma kv_list_elem prefix w k v :
  (k, v) ∈ match kv_list prefix w with Done l _ => l | _ => [] end →
  ∃ e, kv w !! k = Some e ∧ kv_value e = v.
Proof.
  unfold kv_list, gets. rewrite merge_sort_Permutation.
  intros ([k' e] & [= -> ->] & Hin)%list_elem_of_fmap.
  apply list_elem_of_filter in Hin as [_ Hin].
  apply elem_of_map_to_list in Hin. eauto.
Qed.

Lemma kv_list_length prefix w :
  (length (match kv_list prefix w with Done l _ => l | _ => [] end)
   ≤ size (kv w))%nat.
Proof.
  unfold kv_list, gets. rewrite merge_sort_Permutation, length_fmap.
  rewrite <- length_map_to_list. apply length_filter.
Qed.

(** The scan never lists a record whose connection is within the grace period
    at every clock reading the scan can make. *)
Lemma scan_connections_spares active key c :
  ∀ entries acc w,
    (∀ v, (key, v) ∈ entries → v = VClient c) →
    (key ∉ acc.*1) →
    (∀ i, (ticks w ≤ i < ticks w + length entries)%nat →
          clock w i - cl_connectionTimestamp c < Signal.CLIENT_GRACE_PERIOD_MS) →
    wp (Signal.scan_connections entries active acc) w
      (λ res w', (key ∉ res.*1) ∧ kv w' = kv w) (λ _, False).
Proof.
  induction entries as [|[k v] rest IH]; intros acc w Hval Hacc Hgrace; [done|].
  cbn [Signal.scan_connections].
  assert (Hrest : ∀ v', (key, v') ∈ rest → v' = VClient c).
  { intros v' Hin. apply Hval. by right. }
  destruct (Signal.isController (last_part k)).
  { apply IH; [done..|]. intros i Hi. apply Hgrace. cbn [length]. lia. }
  apply wp_bind. unfold wp at 1, Date_now.
  assert (Hnext : wp (Signal.scan_connections rest active acc) (set_ticks S w)
                    (λ res w', (key ∉ res.*1) ∧ kv w' = kv w) (λ _, False)).
  { apply (IH acc (set_ticks S w)); [done..|].
    intros i Hi. apply Hgrace. cbn in Hi. cbn [length]. lia. }
  destruct (decide (_ < _)) as [_|Hout]; [exact Hnext|].
  destruct (negb _); [|exact Hnext].
  apply (IH _ (set_ticks S w)); [done| |].
  - rewrite fmap_app. cbn. intros [Hin|Hin%list_elem_of_singleton]%elem_of_app;
      [done|]. subst k.
    rewrite (Hval v) in Hout by left. cbn in Hout.
    apply Hout, Hgrace. cbn [length]. lia.
  - intros i Hi. apply Hgrace. cbn in Hi. cbn [length]. lia.
Qed.

(** C9.  A sweep returns, and it leaves the client record of [s] in place when
    [s] is within the grace period at the clock readings of the sweep (there
    are at most as many as the store has entries). *)
Theorem reaper_spares_synth_in_grace w s c :
  client_at s w = Some c →
  (∀ i, (ticks w ≤ i < ticks w + size (kv w))%nat →
        clock w i - cl_connectionTimestamp c < Signal.CLIENT_GRACE_PERIOD_MS) →
  ∃ n w', Signal.cleanupBasedOnWebRTCConnections w = Done n w' ∧
          kv w' !! Signal.getConnectionKey s = kv w !! Signal.getConnectionKey s.
Proof.
  intros Hc Hgrace.
  destruct (client_at_entry _ _ _ Hc) as (e & He & Hv).
  apply wp_returns.
  unfold Signal.cleanupBasedOnWebRTCConnections.
  apply wp_bind, wp_gets, wp_try_catch, wp_bind.
  pose proof (kv_list_elem Signal.CONNECTION_KEY_PREFIX w) as Helem.
  pose proof (kv_list_length Signal.CONNECTION_KEY_PREFIX w) as Hlen.
  unfold wp at 1. destruct (kv_list _ w) as [entries w0| |] eqn:Hlist; try done.
  assert (w0 = w) as -> by (unfold kv_list, gets in Hlist; congruence).
  apply wp_bind.
  eapply wp_mono;
    [apply (scan_connections_spares _ (Signal.getConnectionKey s) c)| |done].
  - intros v Hin. destruct (Helem _ _ Hin) as (e' & He' & <-). congruence.
  - cbn. apply not_elem_of_nil.
  - intros i Hi. apply Hgrace. lia.
  - intros clientsToRemove w1 [Hout Hkv]. cbn beta.
    destruct (decide _); [|by rewrite <- Hkv].
    apply wp_bind.
    eapply wp_mono;
      [apply (wp_for_each _ _
                (λ w2, kv w2 !! Signal.getConnectionKey s
                       = kv w !! Signal.getConnectionKey s) (λ _, False));
       [by rewrite Hkv|] | |done].
    + intros client w2 Hin Hw2. apply wp_try_catch, wp_bind, wp_modify.
      eapply wp_mono;
        [apply notifyControllers_frame, off_queue_unchanged_refl| |done].
      intros [] w3 Hw3. cbn beta. rewrite Hw3 by done. cbn.
      rewrite lookup_delete_ne; [done|].
      intros Heq. apply Hout, list_elem_of_fmap.
      exists client. split; [by symmetry|done].
    + by intros [] w2 Hw2.
Qed.

Lemma reaper_spares_synth_in_grace_witness :
  ∃ n w', Signal.cleanupBasedOnWebRTCConnections (stage_world (steady_clock 5000 1))
          = Done n w' ∧
          kv w' !! Signal.getConnectionKey "synth-1" =
            kv (stage_world (steady_clock 5000 1))
              !! Signal.getConnectionKey "synth-1".
Proof.
  apply (reaper_spares_synth_in_grace (stage_world (steady_clock 5000 1))
           "synth-1" (mkClientRecord "local" 1000 1000 0 None false)).
  - reflexivity.
  - intros i Hi. change (size (kv (stage_world (steady_clock 5000 1))))
      with 2%nat in Hi.
    unfold stage_world, steady_clock, Signal.CLIENT_GRACE_PERIOD_MS. cbn. cbn in Hi.
    lia.
Defined.

(** Past the grace period a synth that no controller reports is removed, and
    the attached controller is told. *)
Example reaper_removes_unclaimed_synth_after_grace :
  match Signal.cleanupBasedOnWebRTCConnections (stage_world (steady_clock 21000 1)) with
  | Done n w' =>
      n = 1%nat ∧ client_at "synth-1" w' = None ∧
      sent w' = [(1%nat, FClientDisconnected "synth-1")]
  | _ => False
  end.
Proof. vm_compute. done. Qed.

(** * Further properties of the modules *)

(** ** manager.ts: acquiring, clearing and resetting leadership *)

(** X1.  On a store without a leadership record [setActiveController] installs the
    caller, heartbeat or not: it writes the record with the caller's id, the
    current time and the instance name, publishes a change notification naming
    the caller under a fresh notification id, and returns [true]. *)
Theorem manager_setActive_on_vacant_store fuel w id isHeartbeat :
  controller_at Manager.ACTIVE_CONTROLLER_KEY w = None →
  ∃ w', Manager.setActiveController (S fuel) id isHeartbeat w = Done true w' ∧
        controller_at Manager.ACTIVE_CONTROLLER_KEY w'
          = Some (mkControllerRecord id (clock w (ticks w))
                    (Some (instance_name w)) (Some "controller")) ∧
        notification_at Manager.CONTROLLER_NOTIFICATION_KEY w'
          = Some (mkChangeNotification (Some id) (clock w (S (ticks w)))
                    (uuids w)) ∧
        (∀ k, k ≠ Manager.ACTIVE_CONTROLLER_KEY →
              k ≠ Manager.CONTROLLER_NOTIFICATION_KEY →
              kv w' !! k = kv w !! k).
Proof.
  intros Hrec. unfold Manager.setActiveController.
  eexists. split.
  - apply try_catch_Done.
    rewrite (bind_Done _ _ _ _ _ (manager_getActive_absent fuel w Hrec)).
    reflexivity.
  - cbn. split; [|split].
    + unfold controller_at. cbn. by rewrite lookup_insert_ne, lookup_insert_eq.
    + unfold notification_at. cbn. by rewrite lookup_insert_eq.
    + intros k Hk1 Hk2. by rewrite !lookup_insert_ne.
Qed.

Lemma manager_setActive_on_vacant_store_witness :
  ∃ w', Manager.setActiveController 1 "C2" true (idle_world (steady_clock 1000 1))
        = Done true w' ∧
        controller_at Manager.ACTIVE_CONTROLLER_KEY w'
          = Some (mkControllerRecord "C2" 1000 (Some "local") (Some "controller")) ∧
        notification_at Manager.CONTROLLER_NOTIFICATION_KEY w'
          = Some (mkChangeNotification (Some "C2") 1001 0) ∧
        (∀ k, k ≠ Manager.ACTIVE_CONTROLLER_KEY →
              k ≠ Manager.CONTROLLER_NOTIFICATION_KEY →
              kv w' !! k = kv (idle_world (steady_clock 1000 1)) !! k).
Proof.
  apply (manager_setActive_on_vacant_store 0 (idle_world (steady_clock 1000 1))
           "C2" true).
  reflexivity.
Defined.

(** X2.  An activation that is not a heartbeat takes leadership from a live leader
    of another id: the record is overwritten with the caller's id, a change
    notification naming the caller is published, and the call returns
    [true]. *)
Theorem manager_setActive_preempts_leader fuel w cur id :
  controller_at Manager.ACTIVE_CONTROLLER_KEY w = Some cur →
  ¬ expired (clock w (ticks w)) cur →
  cr_id cur ≠ id →
  ∃ w', Manager.setActiveController (S fuel) id false w = Done true w' ∧
        controller_at Manager.ACTIVE_CONTROLLER_KEY w'
          = Some (mkControllerRecord id (clock w (S (ticks w)))
                    (Some (instance_name w)) (Some "controller")) ∧
        notification_at Manager.CONTROLLER_NOTIFICATION_KEY w'
          = Some (mkChangeNotification (Some id) (clock w (S (S (ticks w))))
                    (uuids w)) ∧
        (∀ k, k ≠ Manager.ACTIVE_CONTROLLER_KEY →
              k ≠ Manager.CONTROLLER_NOTIFICATION_KEY →
              kv w' !! k = kv w !! k).
Proof.
  intros Hrec Hlive Hne. unfold Manager.setActiveController.
  eexists. split.
  - apply try_catch_Done.
    rewrite (bind_Done _ _ _ _ _ (manager_getActive_live fuel w cur Hrec Hlive)).
    unfold bind at 1 2, instanceId_or_local, gets, Date_now.
    destruct (decide (cr_id cur = id)); [contradiction|]. reflexivity.
  - cbn. split; [|split].
    + unfold controller_at. cbn. by rewrite lookup_insert_ne, lookup_insert_eq.
    + unfold notification_at. cbn. by rewrite lookup_insert_eq.
    + intros k Hk1 Hk2. by rewrite !lookup_insert_ne.
Qed.

Lemma manager_setActive_preempts_leader_witness :
  ∃ w', Manager.setActiveController 1 "C2" false
          (led_world (steady_clock 2000 1) leader_C1) = Done true w' ∧
        controller_at Manager.ACTIVE_CONTROLLER_KEY w'
          = Some (mkControllerRecord "C2" 2001 (Some "local") (Some "controller")) ∧
        notification_at Manager.CONTROLLER_NOTIFICATION_KEY w'
          = Some (mkChangeNotification (Some "C2") 2002 0) ∧
        (∀ k, k ≠ Manager.ACTIVE_CONTROLLER_KEY →
              k ≠ Manager.CONTROLLER_NOTIFICATION_KEY →
              kv w' !! k = kv (led_world (steady_clock 2000 1) leader_C1) !! k).
Proof.
  apply (manager_setActive_preempts_leader 0
           (led_world (steady_clock 2000 1) leader_C1) leader_C1 "C2").
  - reflexivity.
  - by vm_compute.
  - by vm_compute.
Defined.

(** X3.  [clearActiveController] called by the live leader deletes the record,
    publishes a change notification with a null controller and returns
    [true]; nothing else in the store changes. *)
Theorem manager_clear_by_leader fuel w cur :
  controller_at Manager.ACTIVE_CONTROLLER_KEY w = Some cur →
  ¬ expired (clock w (ticks w)) cur →
  ∃ w', Manager.clearActiveController (S fuel) (cr_id cur) w = Done true w' ∧
        kv w' !! Manager.ACTIVE_CONTROLLER_KEY = None ∧
        notification_at Manager.CONTROLLER_NOTIFICATION_KEY w'
          = Some (mkChangeNotification None (clock w (S (ticks w))) (uuids w)) ∧
        (∀ k, k ≠ Manager.ACTIVE_CONTROLLER_KEY →
              k ≠ Manager.CONTROLLER_NOTIFICATION_KEY →
              kv w' !! k = kv w !! k).
Proof.
  intros Hrec Hlive.
  unfold Manager.clearActiveController, Manager.clearActiveController_body.
  eexists. split.
  - apply try_catch_Done.
    rewrite (bind_Done _ _ _ _ _ (manager_getActive_live fuel w cur Hrec Hlive)).
    destruct (decide (cr_id cur ≠ cr_id cur)); [contradiction|]. reflexivity.
  - cbn. split; [|split].
    + by rewrite lookup_insert_ne, lookup_delete_eq.
    + unfold notification_at. cbn. by rewrite lookup_insert_eq.
    + intros k Hk1 Hk2. by rewrite lookup_insert_ne, lookup_delete_ne.
Qed.

Lemma manager_clear_by_leader_witness :
  ∃ w', Manager.clearActiveController 1 "C1"
          (led_world (steady_clock 2000 1) leader_C1) = Done true w' ∧
        kv w' !! Manager.ACTIVE_CONTROLLER_KEY = None ∧
        notification_at Manager.CONTROLLER_NOTIFICATION_KEY w'
          = Some (mkChangeNotification None 2001 0) ∧
        (∀ k, k ≠ Manager.ACTIVE_CONTROLLER_KEY →
              k ≠ Manager.CONTROLLER_NOTIFICATION_KEY →
              kv w' !! k = kv (led_world (steady_clock 2000 1) leader_C1) !! k).
Proof.
  apply (manager_clear_by_leader 0 (led_world (steady_clock 2000 1) leader_C1)
           leader_C1).
  - reflexivity.
  - by vm_compute.
Defined.

(** X4.  [clearActiveController] called by anyone but the live leader, on a store
    whose record is absent or live, returns [false] and leaves the store as it
    was. *)
Theorem manager_clear_by_other_is_rejected fuel w id :
  (∀ cur, controller_at Manager.ACTIVE_CONTROLLER_KEY w = Some cur →
          ¬ expired (clock w (ticks w)) cur ∧ cr_id cur ≠ id) →
  ∃ w', Manager.clearActiveController (S fuel) id w = Done false w' ∧
        kv w' = kv w ∧ uuids w' = uuids w.
Proof.
  intros Hother.
  unfold Manager.clearActiveController, Manager.clearActiveController_body.
  destruct (controller_at Manager.ACTIVE_CONTROLLER_KEY w) as [cur|] eqn:Hrec.
  - destruct (Hother cur eq_refl) as [Hlive Hne].
    exists (set_ticks S w). split; [|done].
    apply try_catch_Done.
    rewrite (bind_Done _ _ _ _ _ (manager_getActive_live fuel w cur Hrec Hlive)).
    by destruct (decide (cr_id cur ≠ id)).
  - exists w. split; [|done].
    apply try_catch_Done.
    by rewrite (bind_Done _ _ _ _ _ (manager_getActive_absent fuel w Hrec)).
Qed.

Lemma manager_clear_by_other_is_rejected_witness :
  ∃ w', Manager.clearActiveController 1 "C2"
          (led_world (steady_clock 2000 1) leader_C1) = Done false w' ∧
        kv w' = kv (led_world (steady_clock 2000 1) leader_C1) ∧
        uuids w' = 0%nat.
Proof.
  apply (manager_clear_by_other_is_rejected 0
           (led_world (steady_clock 2000 1) leader_C1) "C2").
  intros cur Hcur. vm_compute in Hcur. injection Hcur as <-.
  split; by vm_compute.
Defined.

(** X5.  [forceResetControllerState] on a store whose record is absent or live
    removes the record whoever leads, publishes a change notification with a
    null controller and returns [true]. *)
Theorem manager_forceReset_clears fuel w :
  (∀ cur, controller_at Manager.ACTIVE_CONTROLLER_KEY w = Some cur →
          ¬ expired (clock w (ticks w)) cur) →
  ∃ w' i, Manager.forceResetControllerState (S fuel) w = Done true w' ∧
          kv w' !! Manager.ACTIVE_CONTROLLER_KEY = None ∧
          notification_at Manager.CONTROLLER_NOTIFICATION_KEY w'
            = Some (mkChangeNotification None (clock w i) (uuids w)) ∧
          (ticks w ≤ i < ticks w')%nat ∧
          (∀ k, k ≠ Manager.ACTIVE_CONTROLLER_KEY →
                k ≠ Manager.CONTROLLER_NOTIFICATION_KEY →
                kv w' !! k = kv w !! k).
Proof.
  intros Hlive. unfold Manager.forceResetControllerState.
  destruct (controller_at Manager.ACTIVE_CONTROLLER_KEY w) as [cur|] eqn:Hrec.
  - specialize (Hlive cur eq_refl).
    eexists _, (S (ticks w)). split.
    + apply try_catch_Done.
      rewrite (bind_Done _ _ _ _ _ (manager_getActive_live fuel w cur Hrec Hlive)).
      reflexivity.
    + cbn. split; [by rewrite lookup_insert_ne, lookup_delete_eq|].
      split; [unfold notification_at; cbn; by rewrite lookup_insert_eq|].
      split; [lia|]. intros k Hk1 Hk2.
      by rewrite lookup_insert_ne, lookup_delete_ne.
  - eexists _, (ticks w). split.
    + apply try_catch_Done.
      rewrite (bind_Done _ _ _ _ _ (manager_getActive_absent fuel w Hrec)).
      reflexivity.
    + cbn. split; [by rewrite lookup_insert_ne, lookup_delete_eq|].
      split; [unfold notification_at; cbn; by rewrite lookup_insert_eq|].
      split; [lia|]. intros k Hk1 Hk2.
      by rewrite lookup_insert_ne, lookup_delete_ne.
Qed.

Lemma manager_forceReset_clears_witness :
  ∃ w' i, Manager.forceResetControllerState 1
            (led_world (steady_clock 2000 1) leader_C1) = Done true w' ∧
          kv w' !! Manager.ACTIVE_CONTROLLER_KEY = None ∧
          notification_at Manager.CONTROLLER_NOTIFICATION_KEY w'
            = Some (mkChangeNotification None
                      (clock (led_world (steady_clock 2000 1) leader_C1) i) 0) ∧
          (0 ≤ i < ticks w')%nat ∧
          (∀ k, k ≠ Manager.ACTIVE_CONTROLLER_KEY →
                k ≠ Manager.CONTROLLER_NOTIFICATION_KEY →
                kv w' !! k = kv (led_world (steady_clock 2000 1) leader_C1) !! k).
Proof.
  apply (manager_forceReset_clears 0 (led_world (steady_clock 2000 1) leader_C1)).
  intros cur Hcur. vm_compute in Hcur. injection Hcur as <-. by vm_compute.
Defined.

(** X6.  Once the leadership record has expired no operation of the manager gets
    past its first read of the record: activation, heartbeat, clearing, the
    forced reset, the signal server's read and the admin clear endpoint all
    stay pending, so nothing ever removes the expired record. *)
Theorem manager_operations_stuck_on_expired_record fuel w value id isHeartbeat :
  controller_at Manager.ACTIVE_CONTROLLER_KEY w = Some value →
  clock_monotone w →
  expired (clock w (ticks w)) value →
  Manager.setActiveController fuel id isHeartbeat w = Pending ∧
  Manager.clearActiveController fuel id w = Pending ∧
  Manager.forceResetControllerState fuel w = Pending ∧
  Signal.getActiveController fuel w = Pending ∧
  Clear.GET fuel (Some "true") w = Pending.
Proof.
  intros Hrec Hmono Hexp.
  pose proof (manager_getActive_stuck fuel w value Hrec
                (expired_from_now_on w value Hmono Hexp)) as Hstuck.
  repeat split.
  - unfold Manager.setActiveController. by apply try_catch_Pending, bind_Pending.
  - unfold Manager.clearActiveController, Manager.clearActiveController_body.
    by apply try_catch_Pending, bind_Pending.
  - unfold Manager.forceResetControllerState.
    by apply try_catch_Pending, bind_Pending.
  - unfold Signal.getActiveController. by apply bind_Pending.
  - unfold Clear.GET. destruct (decide _) as [Hn|_]; [by destruct Hn|].
    by apply try_catch_Pending, bind_Pending.
Qed.

Lemma manager_operations_stuck_on_expired_record_witness :
  Manager.setActiveController 9 "C1" true
    (led_world (steady_clock 40000 1) stale_leader_C1) = Pending ∧
  Manager.clearActiveController 9 "C1"
    (led_world (steady_clock 40000 1) stale_leader_C1) = Pending ∧
  Manager.forceResetControllerState 9
    (led_world (steady_clock 40000 1) stale_leader_C1) = Pending ∧
  Signal.getActiveController 9
    (led_world (steady_clock 40000 1) stale_leader_C1) = Pending ∧
  Clear.GET 9 (Some "true")
    (led_world (steady_clock 40000 1) stale_leader_C1) = Pending.
Proof.
  apply (manager_operations_stuck_on_expired_record 9 _ stale_leader_C1 "C1" true).
  - reflexivity.
  - intros i j Hij. unfold led_world, steady_clock. cbn. lia.
  - vm_compute. reflexivity.
Defined.

(** ** Identifiers *)

Lemma substring_whole s : String.substring 0 (String.length s) s = s.
Proof. induction s as [|a s IH]; [done|]. cbn. by rewrite IH. Qed.

Lemma prefix_empty s : String.prefix "" s = true.
Proof. by destruct s. Qed.

Lemma standardize_prefixed s :
  Manager.standardizeControllerId ("controller-" +:+ s) = s.
Proof.
  unfold Manager.standardizeControllerId, Manager.startsWith_controller.
  cbv beta iota delta [String.append]. cbn.
  rewrite prefix_empty, Nat.sub_0_r. apply substring_whole.
Qed.

(** [standardizeControllerId] removes one leading ["controller-"] and returns
    any id without that prefix as it is. *)
Theorem standardizeControllerId_strips_prefix s :
  Manager.standardizeControllerId ("controller-" +:+ s) = s ∧
  (Manager.startsWith_controller s = false →
   Manager.standardizeControllerId s = s).
Proof.
  split; [apply standardize_prefixed|].
  unfold Manager.standardizeControllerId. by intros ->.
Qed.

(** X15.  The identifiers minted by the client-id endpoint carry the prefix the
    signal server classifies by: an id minted for a controller is a controller
    to the signal server and to the manager, an id minted for a synth is not a
    controller to the signal server, and standardizing a controller id leaves
    its random part. *)
Theorem minted_ids_are_classified_by_prefix uuid :
  Signal.isController
    (ClientId.generateUniqueId ClientId.CONTROLLER_CLIENT_PREFIX uuid) = true ∧
  Manager.isController
    (ClientId.generateUniqueId ClientId.CONTROLLER_CLIENT_PREFIX uuid) = true ∧
  Signal.isController
    (ClientId.generateUniqueId ClientId.SYNTH_CLIENT_PREFIX uuid) = false ∧
  Manager.standardizeControllerId
    (ClientId.generateUniqueId ClientId.CONTROLLER_CLIENT_PREFIX uuid)
  = String.substring 0 8 uuid.
Proof.
  unfold ClientId.generateUniqueId, ClientId.CONTROLLER_CLIENT_PREFIX,
    ClientId.SYNTH_CLIENT_PREFIX.
  split; [|split; [|split]].
  - unfold Signal.isController. cbv beta iota delta [String.append]. cbn.
    apply prefix_empty.
  - unfold Manager.isController, Manager.startsWith_controller.
    cbv beta iota delta [String.append]. cbn. by rewrite prefix_empty.
  - unfold Signal.isController. cbv beta iota delta [String.append].
    reflexivity.
  - apply (standardize_prefixed (String.substring 0 8 uuid)).
Qed.

(** ** The keys each leadership module writes *)

Lemma manager_getActive_keeps k fuel :
  k ≠ Manager.ACTIVE_CONTROLLER_KEY →
  k ≠ Manager.CONTROLLER_NOTIFICATION_KEY →
  ∀ w, outcome_keeps k w (Manager.getActiveController fuel w).
Proof.
  intros Hk1 Hk2. induction fuel as [|fuel IH]; intros w; [done|].
  cbn [Manager.getActiveController]. unfold try_catch, bind at 1, Kv.get, gets.
  destruct (Kv.as_controller _) as [value|]; [|done].
  unfold bind at 1, Date_now. destruct (decide _); [|done].
  unfold bind at 1, Manager.clearActiveController_body, try_catch, bind at 1.
  specialize (IH (set_ticks S w)).
  destruct (Manager.getActiveController fuel (set_ticks S w))
    as [[cur|] w1|w1|]; try done.
  destruct (decide (cr_id cur ≠ cr_id value)); [done|].
  cbn in *. by rewrite lookup_insert_ne, lookup_delete_ne.
Qed.

Lemma manager_clear_keeps k fuel id w :
  k ≠ Manager.ACTIVE_CONTROLLER_KEY →
  k ≠ Manager.CONTROLLER_NOTIFICATION_KEY →
  outcome_keeps k w (Manager.clearActiveController fuel id w).
Proof.
  intros Hk1 Hk2.
  pose proof (manager_getActive_keeps k fuel Hk1 Hk2 w) as Hget.
  unfold Manager.clearActiveController, Manager.clearActiveController_body,
    try_catch, bind at 1.
  destruct (Manager.getActiveController fuel w) as [[cur|] w1|w1|]; try done.
  destruct (decide (cr_id cur ≠ id)); [done|].
  cbn in *. by rewrite lookup_insert_ne, lookup_delete_ne.
Qed.

Lemma manager_setActive_keeps k fuel id isHeartbeat w :
  k ≠ Manager.ACTIVE_CONTROLLER_KEY →
  k ≠ Manager.CONTROLLER_NOTIFICATION_KEY →
  outcome_keeps k w (Manager.setActiveController fuel id isHeartbeat w).
Proof.
  intros Hk1 Hk2.
  pose proof (manager_getActive_keeps k fuel Hk1 Hk2 w) as Hget.
  unfold Manager.setActiveController, try_catch, bind at 1.
  destruct (Manager.getActiveController fuel w) as [[cur|] w1|w1|]; try done.
  - unfold bind at 1 2, instanceId_or_local, gets, Date_now.
    destruct (decide (cr_id cur = id)).
    + cbn in *. by rewrite lookup_insert_ne.
    + destruct isHeartbeat; [done|]. cbn in *. by rewrite !lookup_insert_ne.
  - cbn in *. by rewrite !lookup_insert_ne.
Qed.

Lemma manager_forceReset_keeps k fuel w :
  k ≠ Manager.ACTIVE_CONTROLLER_KEY →
  k ≠ Manager.CONTROLLER_NOTIFICATION_KEY →
  outcome_keeps k w (Manager.forceResetControllerState fuel w).
Proof.
  intros Hk1 Hk2.
  pose proof (manager_getActive_keeps k fuel Hk1 Hk2 w) as Hget.
  unfold Manager.forceResetControllerState, try_catch, bind at 1.
  destruct (Manager.getActiveController fuel w) as [r w1|w1|]; try done.
  cbn in *. by rewrite lookup_insert_ne, lookup_delete_ne.
Qed.

(** X7.  Whatever the budget, the clock and the record, the operations of the
    manager write under their two keys only: when a call has ended, every
    other entry of the store, the status endpoint's leadership record
    included, is as before. *)
Theorem manager_writes_only_its_keys k fuel id isHeartbeat w :
  k ≠ Manager.ACTIVE_CONTROLLER_KEY →
  k ≠ Manager.CONTROLLER_NOTIFICATION_KEY →
  outcome_keeps k w (Manager.getActiveController fuel w) ∧
  outcome_keeps k w (Manager.setActiveController fuel id isHeartbeat w) ∧
  outcome_keeps k w (Manager.clearActiveController fuel id w) ∧
  outcome_keeps k w (Manager.forceResetControllerState fuel w).
Proof.
  intros Hk1 Hk2. split; [|split; [|split]].
  - by apply manager_getActive_keeps.
  - by apply manager_setActive_keeps.
  - by apply manager_clear_keeps.
  - by apply manager_forceReset_keeps.
Qed.

Lemma manager_writes_only_its_keys_witness :
  outcome_keeps Status.ACTIVE_CONTROLLER_KEY
    (doubly_led_world (steady_clock 2000 1) leader_C1)
    (Manager.getActiveController 3
       (doubly_led_world (steady_clock 2000 1) leader_C1)) ∧
  outcome_keeps Status.ACTIVE_CONTROLLER_KEY
    (doubly_led_world (steady_clock 2000 1) leader_C1)
    (Manager.setActiveController 3 "C2" false
       (doubly_led_world (steady_clock 2000 1) leader_C1)) ∧
  outcome_keeps Status.ACTIVE_CONTROLLER_KEY
    (doubly_led_world (steady_clock 2000 1) leader_C1)
    (Manager.clearActiveController 3 "C2"
       (doubly_led_world (steady_clock 2000 1) leader_C1)) ∧
  outcome_keeps Status.ACTIVE_CONTROLLER_KEY
    (doubly_led_world (steady_clock 2000 1) leader_C1)
    (Manager.forceResetControllerState 3
       (doubly_led_world (steady_clock 2000 1) leader_C1)).
Proof.
  apply (manager_writes_only_its_keys Status.ACTIVE_CONTROLLER_KEY 3 "C2" false
           (doubly_led_world (steady_clock 2000 1) leader_C1)); done.
Defined.

(** X8.  The operations of the status endpoint always return and write under their
    own two keys only: the manager's record and notification are never
    touched. *)
Theorem status_writes_only_its_keys k id isHeartbeat w :
  k ≠ Status.ACTIVE_CONTROLLER_KEY →
  k ≠ Status.CONTROLLER_CHANGE_NOTIFICATION_KEY →
  (∃ r w', Status.getActiveController w = Done r w' ∧ kv w' !! k = kv w !! k) ∧
  (∃ r w', Status.setActiveController id isHeartbeat w = Done r w' ∧
           kv w' !! k = kv w !! k) ∧
  (∃ r w', Status.clearActiveController id w = Done r w' ∧
           kv w' !! k = kv w !! k).
Proof.
  intros Hk1 Hk2.
  assert (Hget : ∃ r w', Status.getActiveController w = Done r w' ∧
                         kv w' !! k = kv w !! k).
  { unfold Status.getActiveController. unfold bind at 1, Kv.get, gets.
    destruct (Kv.as_controller _) as [value|]; [|by eexists _, _].
    unfold bind at 1, Date_now. destruct (decide _); [|by eexists _, _].
    eexists _, _. split; [reflexivity|]. cbn.
    by rewrite lookup_insert_ne, lookup_delete_ne. }
  split; [exact Hget|]. destruct Hget as (r & w1 & Hget & Hkv). split.
  - unfold Status.setActiveController. rewrite (bind_Done _ _ _ _ _ Hget).
    destruct r as [cur|].
    + destruct (decide (cr_id cur = id)); [|destruct isHeartbeat].
      * eexists _, _. split; [reflexivity|]. cbn. by rewrite lookup_insert_ne.
      * by eexists _, _.
      * eexists _, _. split; [reflexivity|]. cbn. by rewrite !lookup_insert_ne.
    + eexists _, _. split; [reflexivity|]. cbn. by rewrite !lookup_insert_ne.
  - unfold Status.clearActiveController. rewrite (bind_Done _ _ _ _ _ Hget).
    destruct r as [cur|]; [|by eexists _, _].
    destruct (decide (cr_id cur ≠ id)); [by eexists _, _|].
    eexists _, _. split; [reflexivity|]. cbn. by rewrite lookup_delete_ne.
Qed.

Lemma status_writes_only_its_keys_witness :
  (∃ r w', Status.getActiveController
             (doubly_led_world (steady_clock 2000 1) leader_C1) = Done r w' ∧
           kv w' !! Manager.ACTIVE_CONTROLLER_KEY
           = kv (doubly_led_world (steady_clock 2000 1) leader_C1)
               !! Manager.ACTIVE_CONTROLLER_KEY) ∧
  (∃ r w', Status.setActiveController "C2" false
             (doubly_led_world (steady_clock 2000 1) leader_C1) = Done r w' ∧
           kv w' !! Manager.ACTIVE_CONTROLLER_KEY
           = kv (doubly_led_world (steady_clock 2000 1) leader_C1)
               !! Manager.ACTIVE_CONTROLLER_KEY) ∧
  (∃ r w', Status.clearActiveController "C2"
             (doubly_led_world (steady_clock 2000 1) leader_C1) = Done r w' ∧
           kv w' !! Manager.ACTIVE_CONTROLLER_KEY
           = kv (doubly_led_world (steady_clock 2000 1) leader_C1)
               !! Manager.ACTIVE_CONTROLLER_KEY).
Proof.
  apply (status_writes_only_its_keys Manager.ACTIVE_CONTROLLER_KEY "C2" false
           (doubly_led_world (steady_clock 2000 1) leader_C1)); done.
Defined.

(** ** status.ts *)

(** X9.  A run of [status_getActive_expired]. *)
Lemma status_getActive_expired_witness :
  ∃ w', Status.getActiveController
          (doubly_led_world (steady_clock 40000 1) stale_leader_C1) = Done None w' ∧
        controller_at Status.ACTIVE_CONTROLLER_KEY w' = None ∧
        notification_at Status.CONTROLLER_CHANGE_NOTIFICATION_KEY w' =
          Some (mkChangeNotification None 40001 0).
Proof.
  apply (status_getActive_expired
           (doubly_led_world (steady_clock 40000 1) stale_leader_C1)
           stale_leader_C1).
  - reflexivity.
  - vm_compute. reflexivity.
Defined.

(** X10.  [clearActiveController] of the status endpoint, called by the live leader,
    deletes the record and returns [true] but, unlike the manager's, publishes
    no change notification: the store loses the record and nothing else
    changes. *)
Theorem status_clear_by_leader_publishes_nothing w cur :
  controller_at Status.ACTIVE_CONTROLLER_KEY w = Some cur →
  ¬ expired (clock w (ticks w)) cur →
  ∃ w', Status.clearActiveController (cr_id cur) w = Done true w' ∧
        kv w' = base.delete Status.ACTIVE_CONTROLLER_KEY (kv w) ∧
        uuids w' = uuids w.
Proof.
  intros Hrec Hlive.
  unfold Status.clearActiveController, Status.getActiveController.
  unfold bind at 1 2, Kv.get, gets.
  unfold controller_at in Hrec. rewrite Hrec.
  unfold bind at 1, Date_now.
  destruct (decide (_ > _)) as [He|_]; [by destruct Hlive|].
  cbn. destruct (decide (cr_id cur ≠ cr_id cur)); [contradiction|].
  by eexists.
Qed.

Lemma status_clear_by_leader_publishes_nothing_witness :
  ∃ w', Status.clearActiveController "C1"
          (doubly_led_world (steady_clock 2000 1) leader_C1) = Done true w' ∧
        kv w' = base.delete Status.ACTIVE_CONTROLLER_KEY
                  (kv (doubly_led_world (steady_clock 2000 1) leader_C1)) ∧
        uuids w' = 0%nat.
Proof.
  apply (status_clear_by_leader_publishes_nothing
           (doubly_led_world (steady_clock 2000 1) leader_C1) leader_C1).
  - reflexivity.
  - by vm_compute.
Defined.

(** ** lock.ts *)

Lemma lock_POST_writes_lock_witness :
  ∃ response w' i,
    Lock.POST 1 (Some "C2") false (led_world (steady_clock 2000 1) leader_C1)
    = Done response w' ∧
    lock_at w' = Some (mkLockRecord "C2"
                         (clock (led_world (steady_clock 2000 1) leader_C1) i)) ∧
    (0 ≤ i < ticks w')%nat.
Proof.
  apply (lock_POST_writes_lock 0 (led_world (steady_clock 2000 1) leader_C1)
           "C2" false).
  - done.
  - intros i j Hij. unfold led_world, steady_clock. cbn. lia.
  - by vm_compute.
  - intros cur Hcur. vm_compute in Hcur. injection Hcur as <-. by vm_compute.
Defined.

(** X11.  A run of [lock_POST_rejected_heartbeat_writes_lock]. *)
Lemma lock_POST_rejected_heartbeat_writes_lock_witness :
  ∃ w', Lock.POST 1 (Some "C2") true (led_world (steady_clock 2000 1) leader_C1)
        = Done (Activation false (Some "C1") false 2004 30000) w' ∧
        kv w' = <[Lock.CONTROLLER_LOCK_KEY :=
                    mkKvEntry (VLock (mkLockRecord "C2" 2002)) None]>
                  (kv (led_world (steady_clock 2000 1) leader_C1)) ∧
        controller_at Manager.ACTIVE_CONTROLLER_KEY w' = Some leader_C1 ∧
        lock_at w' = Some (mkLockRecord "C2" 2002).
Proof.
  apply (lock_POST_rejected_heartbeat_writes_lock 0
           (led_world (steady_clock 2000 1) leader_C1) leader_C1 "C2").
  - done.
  - reflexivity.
  - by vm_compute.
  - by vm_compute.
  - by vm_compute.
Defined.

(** [clearActiveController] on a store whose record is absent or live: it
    returns whether the caller is the leader and changes the store only when
    it is. *)
Lemma manager_clear_returns fuel w id :
  (∀ cur, controller_at Manager.ACTIVE_CONTROLLER_KEY w = Some cur →
          ¬ expired (clock w (ticks w)) cur) →
  ∃ w1,
    Manager.clearActiveController (S fuel) id w
    = Done (bool_decide (cr_id <$> controller_at Manager.ACTIVE_CONTROLLER_KEY w
                         = Some id)) w1 ∧
    clock w1 = clock w ∧ (ticks w ≤ ticks w1 ≤ ticks w + 2)%nat ∧
    kv w1 !! Manager.ACTIVE_CONTROLLER_KEY
    = (if bool_decide (cr_id <$> controller_at Manager.ACTIVE_CONTROLLER_KEY w
                       = Some id)
       then None else kv w !! Manager.ACTIVE_CONTROLLER_KEY) ∧
    (∀ k, k ≠ Manager.ACTIVE_CONTROLLER_KEY →
          k ≠ Manager.CONTROLLER_NOTIFICATION_KEY → kv w1 !! k = kv w !! k).
Proof.
  intros Hlive.
  unfold Manager.clearActiveController, Manager.clearActiveController_body.
  destruct (controller_at Manager.ACTIVE_CONTROLLER_KEY w) as [cur|] eqn:Hrec.
  - specialize (Hlive cur eq_refl).
    pose proof (manager_getActive_live fuel w cur Hrec Hlive) as Hget.
    cbn [fmap option_fmap option_map].
    destruct (decide (cr_id cur ≠ id)) as [Hne|Heq].
    + rewrite bool_decide_eq_false_2 by congruence.
      exists (set_ticks S w). split.
      { apply try_catch_Done. rewrite (bind_Done _ _ _ _ _ Hget).
        by destruct (decide (cr_id cur ≠ id)). }
      cbn. repeat split; try done; lia.
    + assert (cr_id cur = id) as Hid by (by destruct (decide (cr_id cur = id))).
      rewrite bool_decide_eq_true_2 by congruence.
      eexists. split.
      { apply try_catch_Done. rewrite (bind_Done _ _ _ _ _ Hget).
        destruct (decide (cr_id cur ≠ id)); [contradiction|]. reflexivity. }
      cbn. split; [done|]. split; [lia|]. split.
      * by rewrite lookup_insert_ne, lookup_delete_eq.
      * intros k Hk1 Hk2. by rewrite lookup_insert_ne, lookup_delete_ne.
  - cbn [fmap option_fmap option_map].
    rewrite bool_decide_eq_false_2 by done.
    exists w. split.
    { apply try_catch_Done.
      by rewrite (bind_Done _ _ _ _ _ (manager_getActive_absent fuel w Hrec)). }
    repeat split; try done; lia.
Qed.

(** X12.  An authenticated DELETE on the lock endpoint removes the legacy lock record
    whoever calls: the response says whether the caller was the leader, the
    leadership record is removed only in that case, and the lock record is
    gone in both. *)
Theorem lock_DELETE_always_drops_lock fuel w id :
  id ≠ "" →
  (∀ cur, controller_at Manager.ACTIVE_CONTROLLER_KEY w = Some cur →
          ¬ expired (clock w (ticks w)) cur) →
  ∃ w',
    Lock.DELETE (S fuel) (Some id) w
    = Done (Deactivation
              (bool_decide (cr_id <$> controller_at Manager.ACTIVE_CONTROLLER_KEY w
                            = Some id))) w' ∧
    lock_at w' = None ∧
    controller_at Manager.ACTIVE_CONTROLLER_KEY w'
    = (if bool_decide (cr_id <$> controller_at Manager.ACTIVE_CONTROLLER_KEY w
                       = Some id)
       then None else controller_at Manager.ACTIVE_CONTROLLER_KEY w).
Proof.
  intros Hid Hlive.
  destruct (manager_clear_returns fuel w id Hlive)
    as (w1 & Hclear & _ & _ & Hrec & _).
  unfold Lock.DELETE, authenticated, string_or_null.
  destruct (decide (id = "")) as [|_]; [contradiction|].
  eexists. split; [|split].
  - apply try_catch_Done. rewrite (bind_Done _ _ _ _ _ Hclear). reflexivity.
  - unfold lock_at. cbn. by rewrite lookup_delete_eq.
  - unfold controller_at. cbn. rewrite lookup_delete_ne by done. rewrite Hrec.
    by destruct (bool_decide _).
Qed.

Lemma lock_DELETE_always_drops_lock_witness :
  ∃ w',
    Lock.DELETE 1 (Some "C2") (locked_led_world (steady_clock 2000 1))
    = Done (Deactivation
              (bool_decide
                 (cr_id <$> controller_at Manager.ACTIVE_CONTROLLER_KEY
                              (locked_led_world (steady_clock 2000 1))
                  = Some "C2"))) w' ∧
    lock_at w' = None ∧
    controller_at Manager.ACTIVE_CONTROLLER_KEY w'
    = (if bool_decide
            (cr_id <$> controller_at Manager.ACTIVE_CONTROLLER_KEY
                         (locked_led_world (steady_clock 2000 1))
             = Some "C2")
       then None
       else controller_at Manager.ACTIVE_CONTROLLER_KEY
              (locked_led_world (steady_clock 2000 1))).
Proof.
  apply (lock_DELETE_always_drops_lock 0
           (locked_led_world (steady_clock 2000 1)) "C2").
  - done.
  - intros cur Hcur. vm_compute in Hcur. injection Hcur as <-. by vm_compute.
Defined.

Lemma lock_GET_health_run fuel w cur :
  controller_at Manager.ACTIVE_CONTROLLER_KEY w = Some cur →
  ¬ expired (clock w (ticks w)) cur →
  ∃ w', Lock.GET_health (S fuel) w
        = Done (HealthReport
                  (match lock_at w with
                   | Some l => bool_decide (lk_userId l = cr_id cur)
                   | None => true
                   end)
                  (Some cur) (Some (clock w (S (ticks w)) - cr_timestamp cur))
                  (clock w (S (S (ticks w))))) w' ∧
        kv w' = kv w.
Proof.
  intros Hrec Hlive. unfold Lock.GET_health.
  eexists. split.
  - apply try_catch_Done.
    rewrite (bind_Done _ _ _ _ _ (manager_getActive_live fuel w cur Hrec Hlive)).
    unfold bind, Kv.get, gets, Date_now, ret. cbn. unfold lock_at.
    by destruct (Kv.as_lock _).
  - reflexivity.
Qed.

(** X13.  After a heartbeat POST by [id] was rejected because [cur] leads, the
    health check of the lock endpoint reports the state as inconsistent: the
    lock record names the rejected caller, the leadership record the leader. *)
Theorem rejected_heartbeat_shows_in_health_check fuel w cur id :
  id ≠ "" →
  controller_at Manager.ACTIVE_CONTROLLER_KEY w = Some cur →
  cr_id cur ≠ id →
  (∀ i, (ticks w ≤ i ≤ ticks w + 5)%nat → ¬ expired (clock w i) cur) →
  ∃ response w1 w2 age now,
    Lock.POST (S fuel) (Some id) true w = Done response w1 ∧
    Lock.GET_health (S fuel) w1
    = Done (HealthReport false (Some cur) age now) w2.
Proof.
  intros Hid Hrec Hne Hlive.
  unfold Lock.POST, authenticated, string_or_null at 1.
  destruct (decide (id = "")) as [|_]; [contradiction|].
  assert (Hset : Manager.setActiveController (S fuel) id true w
                 = Done false (set_ticks S (set_ticks S w))).
  { unfold Manager.setActiveController. apply try_catch_Done.
    rewrite (bind_Done _ _ _ _ _
               (manager_getActive_live fuel w cur Hrec
                  (Hlive (ticks w) ltac:(lia)))).
    unfold bind, instanceId_or_local, gets, Date_now.
    destruct (decide (cr_id cur = id)) as [|_]; [contradiction|]. reflexivity. }
  set (w3 := set_kv (insert Lock.CONTROLLER_LOCK_KEY
                       (mkKvEntry
                          (VLock (mkLockRecord id (clock w (S (S (ticks w))))))
                          None))
               (set_ticks S (set_ticks S (set_ticks S w)))).
  assert (Hrec3 : controller_at Manager.ACTIVE_CONTROLLER_KEY w3 = Some cur).
  { unfold controller_at, w3. cbn. by rewrite lookup_insert_ne. }
  assert (Hget : Manager.getActiveController (S fuel) w3
                 = Done (Some cur) (set_ticks S w3)).
  { apply manager_getActive_live; [exact Hrec3|].
    unfold w3. cbn. apply Hlive. lia. }
  destruct (lock_GET_health_run fuel (set_ticks S (set_ticks S w3)) cur)
    as (w2 & Hhealth & _).
  { exact Hrec3. }
  { unfold w3. cbn. apply Hlive. lia. }
  eexists _, (set_ticks S (set_ticks S w3)), w2, _, _. split.
  - apply try_catch_Done. rewrite (bind_Done _ _ _ _ _ Hset).
    unfold bind at 1, Date_now. unfold bind at 1, Kv.set, modify.
    fold w3. rewrite (bind_Done _ _ _ _ _ Hget). reflexivity.
  - rewrite Hhealth. unfold lock_at, w3. cbn. rewrite lookup_insert_eq. cbn.
    rewrite bool_decide_eq_false_2 by congruence. reflexivity.
Qed.

Lemma rejected_heartbeat_shows_in_health_check_witness :
  ∃ response w1 w2 age now,
    Lock.POST 1 (Some "C2") true (locked_led_world (steady_clock 2000 1))
    = Done response w1 ∧
    Lock.GET_health 1 w1 = Done (HealthReport false (Some leader_C1) age now) w2.
Proof.
  apply (rejected_heartbeat_shows_in_health_check 0
           (locked_led_world (steady_clock 2000 1)) leader_C1 "C2").
  - done.
  - reflexivity.
  - by vm_compute.
  - intros i Hi. unfold expired, locked_led_world, led_world, steady_clock,
      leader_C1, Manager.HEARTBEAT_TIMEOUT_MS. cbn. cbn in Hi. lia.
Defined.

(** ** clear.ts *)

Lemma manager_forceReset_returns fuel w :
  (∀ cur, controller_at Manager.ACTIVE_CONTROLLER_KEY w = Some cur →
          ¬ expired (clock w (ticks w)) cur) →
  ∃ w1 t,
    Manager.forceResetControllerState (S fuel) w = Done true w1 ∧
    kv w1 = <[Manager.CONTROLLER_NOTIFICATION_KEY :=
                mkKvEntry
                  (VNotification (mkChangeNotification None t (uuids w))) None]>
              (base.delete Manager.ACTIVE_CONTROLLER_KEY (kv w)).
Proof.
  intros Hlive. unfold Manager.forceResetControllerState.
  destruct (controller_at Manager.ACTIVE_CONTROLLER_KEY w) as [cur|] eqn:Hrec.
  - eexists _, _. split.
    + apply try_catch_Done.
      rewrite (bind_Done _ _ _ _ _
                 (manager_getActive_live fuel w cur Hrec (Hlive cur eq_refl))).
      reflexivity.
    + reflexivity.
  - eexists _, _. split.
    + apply try_catch_Done.
      rewrite (bind_Done _ _ _ _ _ (manager_getActive_absent fuel w Hrec)).
      reflexivity.
    + reflexivity.
Qed.

(** X14.  The admin clear endpoint, on a store whose manager record is absent or
    live, removes the leadership records under every key the modules use
    (the manager's, the status endpoint's, the old signal key and the legacy
    lock), publishes a null change notification and reports the state it
    found; without [admin_mode=true] it answers 401 and changes nothing. *)
Theorem clear_endpoint_resets_every_leadership_key fuel w adminMode :
  (∀ cur i, controller_at Manager.ACTIVE_CONTROLLER_KEY w = Some cur →
            (ticks w ≤ i ≤ ticks w + 1)%nat → ¬ expired (clock w i) cur) →
  (adminMode ≠ Some "true" →
   Clear.GET (S fuel) adminMode w = Done Clear.ClearUnauthorized w) ∧
  ∃ w' t,
    Clear.GET (S fuel) (Some "true") w
    = Done (Clear.ClearReport true
              (controller_at Manager.ACTIVE_CONTROLLER_KEY w)
              (kv_value <$> kv w !! Clear.CONTROLLER_LOCK_KEY)
              (kv_value <$> kv w !! Clear.OLD_ACTIVE_CONTROLLER_KEY)
              (kv_value <$> kv w !! Clear.OLD_ACTIVE_CONTROLLER_KEY2)) w' ∧
    kv w' !! Manager.ACTIVE_CONTROLLER_KEY = None ∧
    kv w' !! Status.ACTIVE_CONTROLLER_KEY = None ∧
    kv w' !! Clear.OLD_ACTIVE_CONTROLLER_KEY = None ∧
    kv w' !! Lock.CONTROLLER_LOCK_KEY = None ∧
    notification_at Manager.CONTROLLER_NOTIFICATION_KEY w'
    = Some (mkChangeNotification None t (uuids w)).
Proof.
  intros Hlive. split.
  { intros Hn. unfold Clear.GET. by destruct (decide _). }
  unfold Clear.GET. destruct (decide _) as [Hn|_]; [by destruct Hn|].
  assert (Hget : ∃ w1, Manager.getActiveController (S fuel) w
                       = Done (controller_at Manager.ACTIVE_CONTROLLER_KEY w) w1 ∧
                       kv w1 = kv w ∧ clock w1 = clock w ∧ uuids w1 = uuids w ∧
                       (ticks w ≤ ticks w1 ≤ ticks w + 1)%nat).
  { destruct (controller_at Manager.ACTIVE_CONTROLLER_KEY w) as [cur|] eqn:Hrec.
    - exists (set_ticks S w). split; [|cbn; repeat split; try done; lia].
      apply manager_getActive_live; [done|]. apply (Hlive cur); [done|lia].
    - exists w. split; [|repeat split; try done; lia].
      by apply manager_getActive_absent. }
  destruct Hget as (w1 & Hget & Hkv1 & Hclock1 & Huuids1 & Hticks1).
  destruct (manager_forceReset_returns fuel w1) as (w2 & t & Hreset & Hkv2).
  { intros cur Hcur. rewrite Hclock1. apply Hlive; [|lia].
    unfold controller_at in *. by rewrite <- Hkv1. }
  eexists _, t. split; [|split; [|split; [|split; [|split]]]].
  - apply try_catch_Done. rewrite (bind_Done _ _ _ _ _ Hget).
    unfold bind at 1 2 3, Kv.get, gets. rewrite Hkv1.
    rewrite (bind_Done _ _ _ _ _ Hreset). reflexivity.
  - cbn. rewrite !lookup_delete_ne by done. rewrite Hkv2.
    by rewrite lookup_insert_ne, lookup_delete_eq.
  - cbn. apply lookup_delete_eq.
  - cbn. rewrite lookup_delete_ne by done. apply lookup_delete_eq.
  - cbn. rewrite !lookup_delete_ne by done. apply lookup_delete_eq.
  - unfold notification_at. cbn. rewrite !lookup_delete_ne by done.
    rewrite Hkv2, lookup_insert_eq. cbn. by rewrite Huuids1.
Qed.

Lemma clear_endpoint_resets_every_leadership_key_witness :
  (None ≠ Some "true" →
   Clear.GET 1 None after_two_endpoint_requests
   = Done Clear.ClearUnauthorized after_two_endpoint_requests) ∧
  ∃ w' t,
    Clear.GET 1 (Some "true") after_two_endpoint_requests
    = Done (Clear.ClearReport true
              (controller_at Manager.ACTIVE_CONTROLLER_KEY
                 after_two_endpoint_requests)
              (kv_value <$> kv after_two_endpoint_requests
                              !! Clear.CONTROLLER_LOCK_KEY)
              (kv_value <$> kv after_two_endpoint_requests
                              !! Clear.OLD_ACTIVE_CONTROLLER_KEY)
              (kv_value <$> kv after_two_endpoint_requests
                              !! Clear.OLD_ACTIVE_CONTROLLER_KEY2)) w' ∧
    kv w' !! Manager.ACTIVE_CONTROLLER_KEY = None ∧
    kv w' !! Status.ACTIVE_CONTROLLER_KEY = None ∧
    kv w' !! Clear.OLD_ACTIVE_CONTROLLER_KEY = None ∧
    kv w' !! Lock.CONTROLLER_LOCK_KEY = None ∧
    notification_at Manager.CONTROLLER_NOTIFICATION_KEY w'
    = Some (mkChangeNotification None t (uuids after_two_endpoint_requests)).
Proof.
  apply (clear_endpoint_resets_every_leadership_key 0
           after_two_endpoint_requests None).
  intros cur i Hcur Hi. vm_compute in Hcur. injection Hcur as <-.
  assert (i = 9 ∨ i = 10)%nat as [-> | ->] by (vm_compute in Hi; lia);
    by vm_compute.
Defined.

(** ** signal.ts: frames that change nothing *)

(** X16.  A frame that is not valid JSON is dropped without a trace, whatever the
    socket; and a socket that has not registered can do one thing only: until
    its [register] frame, every frame it sends leaves the whole state as it
    was. *)
Theorem frames_before_registration_are_dropped fuel socket message w :
  Signal.onmessage fuel socket Signal.MMalformed w = Done tt w ∧
  ((∀ s, sockets w !! socket = Some s → bound_id (sk_clientId s) = None) →
   (∀ id isReconnect timestamp,
      message ≠ Signal.MRegister id isReconnect timestamp) →
   Signal.onmessage fuel socket message w = Done tt w).
Proof.
  split; [reflexivity|].
  intros Hunbound Hmsg.
  assert (Hid : bound_id (match sockets w !! socket with
                          | Some s => sk_clientId s
                          | None => None
                          end) = None).
  { destruct (sockets w !! socket) as [s|] eqn:Hs; [by apply Hunbound|done]. }
  unfold Signal.onmessage, try_catch, bind at 1.
  destruct message; try reflexivity;
    try (by exfalso; eapply Hmsg);
    unfold ret at 1, bind at 1, clientId_of, gets;
    unfold Signal.bound_controller; rewrite Hid; reflexivity.
Qed.

Lemma frames_before_registration_are_dropped_witness :
  Signal.onmessage 1 7 Signal.MMalformed (stage_with_guest (steady_clock 5000 1))
  = Done tt (stage_with_guest (steady_clock 5000 1)) ∧
  Signal.onmessage 1 7 (Signal.MSignal Offer "synth-1" "sdp")
    (stage_with_guest (steady_clock 5000 1))
  = Done tt (stage_with_guest (steady_clock 5000 1)).
Proof.
  destruct (frames_before_registration_are_dropped 1 7
              (Signal.MSignal Offer "synth-1" "sdp")
              (stage_with_guest (steady_clock 5000 1))) as [Hbad Hunbound].
  split; [exact Hbad|]. apply Hunbound.
  - intros s Hs. vm_compute in Hs. by injection Hs as <-.
  - intros id isReconnect timestamp. discriminate.
Defined.

(** ** signal.ts: the message handler *)

Lemma refresh_lastSeen_Done id w c :
  client_at id w = Some c →
  cl_connectionTimestamp c ≠ 0 →
  Signal.refresh_lastSeen id w
  = Done tt
      (set_kv (insert (Signal.getConnectionKey id)
                 (mkKvEntry
                    (VClient (mkClientRecord (cl_instanceId c) (clock w (ticks w))
                                (cl_connectionTimestamp c) (cl_reconnectionCount c)
                                (cl_lastReconnectTime c) (cl_isController c)))
                    (Some Signal.CLIENT_TTL_MS)))
         (set_ticks S w)).
Proof.
  intros Hc Hct. unfold Signal.refresh_lastSeen, client_at in *.
  unfold bind at 1, Kv.get, gets. rewrite Hc.
  by destruct (decide (cl_connectionTimestamp c = 0)).
Qed.

(** X17.  A [heartbeat] frame of a registered client on an open socket writes the
    client's record twice and changes nothing in it but [lastSeen]: the
    connection timestamp, the reconnection count and the other fields stay.
    No other key of the store is touched, and the only frame sent is the
    acknowledgement to the sender. *)
Theorem heartbeat_frame_touches_lastSeen_only fuel socket id w c :
  bound_to socket id w →
  is_open (sockets w) socket = true →
  client_at id w = Some c →
  cl_connectionTimestamp c ≠ 0 →
  ∃ w', Signal.onmessage fuel socket Signal.MHeartbeat w = Done tt w' ∧
        client_at id w' =
          Some (mkClientRecord (cl_instanceId c) (clock w (1 + ticks w))
                  (cl_connectionTimestamp c) (cl_reconnectionCount c)
                  (cl_lastReconnectTime c) (cl_isController c)) ∧
        (∀ k, k ≠ Signal.getConnectionKey id → kv w' !! k = kv w !! k) ∧
        sent w' = sent w ++ [(socket, FHeartbeatAck (clock w (2 + ticks w)))].
Proof.
  intros (s & Hs & Hid) Hopen Hc Hct.
  unfold is_open in Hopen. rewrite Hs in Hopen.
  apply bool_decide_eq_true_1 in Hopen.
  pose proof (refresh_lastSeen_Done id w c Hc Hct) as Hr1.
  set (w1 := set_kv _ (set_ticks S w)) in Hr1.
  assert (Hc1 : client_at id w1 = Some
            (mkClientRecord (cl_instanceId c) (clock w (ticks w))
               (cl_connectionTimestamp c) (cl_reconnectionCount c)
               (cl_lastReconnectTime c) (cl_isController c))).
  { unfold client_at, w1. cbn. by rewrite lookup_insert_eq. }
  pose proof (refresh_lastSeen_Done id w1 _ Hc1 Hct) as Hr2.
  cbn [cl_instanceId cl_connectionTimestamp cl_reconnectionCount
       cl_lastReconnectTime cl_isController] in Hr2.
  set (w2 := set_kv _ (set_ticks S w1)) in Hr2.
  eexists. split.
  - unfold Signal.onmessage.
    apply try_catch_Done.
    rewrite (bind_Done _ _ w tt w) by done.
    rewrite (bind_Done _ _ w (sk_clientId s) w)
      by (unfold clientId_of, gets; by rewrite Hs).
    rewrite Hid.
    rewrite (bind_Done _ _ w tt w1) by exact Hr1.
    rewrite (bind_Done _ _ w1 tt w2) by exact Hr2.
    rewrite (bind_Done _ _ w2 (clock w2 (ticks w2)) (set_ticks S w2)) by done.
    unfold socket_send.
    change (sockets (set_ticks S w2)) with (sockets w). rewrite Hs, Hopen.
    reflexivity.
  - unfold client_at, w2, w1. cbn.
    split; [by rewrite lookup_insert_eq|]. split; [|done].
    intros k Hk. by rewrite !lookup_insert_ne.
Qed.

Lemma heartbeat_frame_touches_lastSeen_only_witness :
  ∃ w', Signal.onmessage 1 2 Signal.MHeartbeat (stage_world (steady_clock 5000 1))
        = Done tt w' ∧
        client_at "synth-1" w' = Some (mkClientRecord "local" 5001 1000 0 None false) ∧
        (∀ k, k ≠ Signal.getConnectionKey "synth-1" →
              kv w' !! k = kv (stage_world (steady_clock 5000 1)) !! k) ∧
        sent w' = [(2%nat, FHeartbeatAck 5002)].
Proof.
  apply (heartbeat_frame_touches_lastSeen_only 1 2 "synth-1"
           (stage_world (steady_clock 5000 1))
           (mkClientRecord "local" 1000 1000 0 None false)).
  - eexists. split; reflexivity.
  - reflexivity.
  - reflexivity.
  - cbn. lia.
Defined.

(** X18.  A signaling frame whose target has an open socket on this instance is
    handed to that socket at once, with [source] set to the sender's bound
    id.  Nothing is queued: no queue identifier is drawn, and the only key of
    the store that may change is the sender's own connection record. *)
Theorem signal_to_open_target_is_delivered
    fuel socket id type target data sk w :
  bound_to socket id w →
  jsmap_get target (activeConnections w) = Some sk →
  is_open (sockets w) sk = true →
  ∃ w', Signal.onmessage fuel socket (Signal.MSignal type target data) w
        = Done tt w' ∧
        sent w' = sent w ++ [(sk, FSignal type data id)] ∧
        ulids w' = ulids w ∧
        (∀ k, k ≠ Signal.getConnectionKey id → kv w' !! k = kv w !! k).
Proof.
  intros (s & Hs & Hid) Htarget Hopen.
  cut (wp (Signal.onmessage fuel socket (Signal.MSignal type target data)) w
         (λ _ w',
            sent w' = sent w ++ [(sk, FSignal type data id)] ∧
            ulids w' = ulids w ∧
            (∀ k, k ≠ Signal.getConnectionKey id → kv w' !! k = kv w !! k))
         (λ _, False)).
  { intros H. apply wp_returns in H as ([] & w' & ? & ?). eauto. }
  enter_onmessage Hs Hid.
  intros [] w1 (Hsame & _ & Hkv & _). cbn beta.
  destruct Hsame as (_ & _ & Hulids & _ & Hsockets & Hsent & Hconns & _).
  apply wp_bind, wp_gets. rewrite Hconns, Htarget.
  apply wp_bind, wp_bind, wp_gets, wp_ret.
  unfold is_open in Hopen. rewrite Hsockets.
  destruct (sockets w !! sk) as [s'|] eqn:Hsk; [|done].
  apply bool_decide_eq_true_1 in Hopen.
  rewrite decide_True by done.
  unfold wp, socket_send. rewrite Hsockets, Hsk, Hopen.
  cbn. rewrite Hsent, Hulids. by split.
Qed.

Lemma signal_to_open_target_is_delivered_witness :
  ∃ w', Signal.onmessage 1 1 (Signal.MSignal Offer "synth-1" "sdp")
          (stage_world (steady_clock 5000 1)) = Done tt w' ∧
        sent w' = [(2%nat, FSignal Offer "sdp" "controller-abc")] ∧
        ulids w' = 0%nat ∧
        (∀ k, k ≠ Signal.getConnectionKey "controller-abc" →
              kv w' !! k = kv (stage_world (steady_clock 5000 1)) !! k).
Proof.
  apply (signal_to_open_target_is_delivered 1 1 "controller-abc" Offer
           "synth-1" "sdp" 2 (stage_world (steady_clock 5000 1))).
  - eexists. split; reflexivity.
  - reflexivity.
  - reflexivity.
Defined.

(** ** signal.ts: the message queue *)

Lemma entries_under_elem prefix w k v :
  (k, v) ∈ entries_under prefix w ↔
  has_prefix prefix k = true ∧ ∃ e, kv w !! k = Some e ∧ kv_value e = v.
Proof.
  unfold entries_under, kv_list, gets.
  rewrite merge_sort_Permutation, list_elem_of_fmap. split.
  - intros ([k' e] & [= -> ->] & Hin).
    apply list_elem_of_filter in Hin as [Hp Hin]. cbn in Hp.
    apply elem_of_map_to_list in Hin. split; [by apply Is_true_true|eauto].
  - intros (Hp & e & Hk & <-). exists (k, e). split; [done|].
    apply list_elem_of_filter. split; [by apply Is_true_true|].
    by apply elem_of_map_to_list.
Qed.

Lemma kv_set_kv f w : kv (set_kv f w) = f (kv w).
Proof. done. Qed.

Lemma kv_set_sent f w : kv (set_sent f w) = kv w.
Proof. done. Qed.

Lemma lookup_foldl_delete (entries : list (KvKey * KvValue)) :
  ∀ (m : gmap KvKey KvEntry) k,
    foldl (λ m entry, delete entry.1 m) m entries !! k
    = if decide (k ∈ entries.*1) then None else m !! k.
Proof.
  induction entries as [|[k0 v0] rest IH]; intros m k; [done|].
  cbn [foldl fst]. rewrite IH, fmap_cons. cbn [fst].
  destruct (decide (k ∈ rest.*1)) as [Hin|Hnin].
  - rewrite decide_True; [done|]. by apply list_elem_of_further.
  - destruct (decide (k = k0)) as [->|Hne].
    + rewrite decide_True by apply list_elem_of_here. apply lookup_delete_eq.
    + rewrite decide_False.
      * by apply lookup_delete_ne.
      * intros [?|?]%elem_of_cons; done.
Qed.

(** The delivery loop on an open socket: every listed message is sent, then
    deleted. *)
Lemma deliver_all socket :
  ∀ entries w,
    is_open (sockets w) socket = true →
    (∀ k v, (k, v) ∈ entries → ∃ f, v = VMessage f) →
    for_each entries (λ entry,
      do! match entry.2 with
          | VMessage message => socket_send socket message
          | _ => throw
          end in
      Kv.delete entry.1) w
    = Done tt
        (set_kv (λ m, foldl (λ m entry, delete entry.1 m) m entries)
           (set_sent (λ trace, trace ++ frames_for socket entries) w)).
Proof.
  induction entries as [|[k v] rest IH]; intros w Hopen Hmsg.
  - cbn. unfold ret. f_equal. apply world_eq; cbn; try done.
    by rewrite app_nil_r.
  - destruct (Hmsg k v) as [f ->]; [apply list_elem_of_here|].
    cbn [for_each].
    assert (Hstep : (do! socket_send socket f in Kv.delete k) w
                    = Done tt (set_kv (delete k)
                                 (set_sent (λ trace, trace ++ [(socket, f)]) w))).
    { unfold bind, socket_send. unfold is_open in Hopen.
      destruct (sockets w !! socket) as [s|]; [|done].
      apply bool_decide_eq_true_1 in Hopen. by rewrite Hopen. }
    rewrite (bind_Done _ _ w tt _ Hstep).
    rewrite IH; [|done|intros k' v' Hin; apply (Hmsg k' v'); by right].
    f_equal. apply world_eq; cbn; try done.
    by rewrite <- app_assoc.
Qed.

Lemma processMessages_run clientId socket w :
  is_open (sockets w) socket = true →
  (∀ k v, (k, v) ∈ entries_under (Signal.getMessagesKey clientId) w →
          ∃ f, v = VMessage f) →
  Signal.processMessages clientId socket w
  = Done tt
      (set_kv (λ m, foldl (λ m entry, delete entry.1 m) m
                      (entries_under (Signal.getMessagesKey clientId) w))
         (set_sent (λ trace,
                      trace ++ frames_for socket
                                 (entries_under (Signal.getMessagesKey clientId) w))
            w)).
Proof.
  intros Hopen Hmsg. unfold Signal.processMessages.
  apply try_catch_Done.
  rewrite (bind_Done _ _ w (entries_under (Signal.getMessagesKey clientId) w) w)
    by done.
  by apply deliver_all.
Qed.

(** X19.  On an open socket the poll of a client's queue sends every queued frame to
    the socket in key order and deletes each
    entry after sending it: the queue is empty afterwards, and no key outside
    the client's queue is touched. *)
Theorem processMessages_delivers_then_deletes clientId socket w :
  is_open (sockets w) socket = true →
  (∀ k v, (k, v) ∈ entries_under (Signal.getMessagesKey clientId) w →
          ∃ f, v = VMessage f) →
  ∃ w', Signal.processMessages clientId socket w = Done tt w' ∧
        sent w' = sent w ++ frames_for socket
                              (entries_under (Signal.getMessagesKey clientId) w) ∧
        entries_under (Signal.getMessagesKey clientId) w' = [] ∧
        (∀ k, has_prefix (Signal.getMessagesKey clientId) k = false →
              kv w' !! k = kv w !! k).
Proof.
  intros Hopen Hmsg. eexists. split; [by apply processMessages_run|].
  split; [done|]. split.
  - destruct (entries_under _ (set_kv _ _)) as [|[k v] rest] eqn:Hlist; [done|].
    assert (Hin : (k, v) ∈ entries_under (Signal.getMessagesKey clientId)
                    (set_kv (λ m, foldl (λ m entry, delete entry.1 m) m
                               (entries_under (Signal.getMessagesKey clientId) w))
                       (set_sent (λ trace,
                          trace ++ frames_for socket
                            (entries_under (Signal.getMessagesKey clientId) w)) w)))
      by (rewrite Hlist; apply list_elem_of_here).
    apply entries_under_elem in Hin as (Hp & e & Hk & _).
    rewrite kv_set_kv, kv_set_sent, lookup_foldl_delete in Hk.
    destruct (decide (k ∈ _)) as [|Hnin]; [done|].
    destruct Hnin. apply list_elem_of_fmap. exists (k, kv_value e).
    split; [done|]. apply entries_under_elem. eauto.
  - intros k Hk. rewrite kv_set_kv, kv_set_sent, lookup_foldl_delete.
    destruct (decide (k ∈ _)) as [Hin|]; [|done].
    apply list_elem_of_fmap in Hin as ([k' v'] & -> & Hin).
    apply entries_under_elem in Hin as [Hp _]. cbn [fst] in Hk. congruence.
Qed.

Lemma processMessages_delivers_then_deletes_witness :
  ∃ w', Signal.processMessages "synth-1" 2 (stage_with_mail (steady_clock 5000 1))
        = Done tt w' ∧
        sent w' = [(2%nat, FSignal Offer "sdp" "controller-abc")] ∧
        entries_under (Signal.getMessagesKey "synth-1") w' = [] ∧
        (∀ k, has_prefix (Signal.getMessagesKey "synth-1") k = false →
              kv w' !! k = kv (stage_with_mail (steady_clock 5000 1)) !! k).
Proof.
  apply (processMessages_delivers_then_deletes "synth-1" 2
           (stage_with_mail (steady_clock 5000 1))).
  - reflexivity.
  - intros k v Hin. vm_compute in Hin.
    apply list_elem_of_singleton in Hin. injection Hin as _ ->. eauto.
Defined.

(** The loop on a socket that is closing or closed: nothing is sent, every
    listed message is deleted. *)
Lemma discard_all socket s :
  sk_readyState s = CLOSING ∨ sk_readyState s = CLOSED →
  ∀ entries w,
    sockets w !! socket = Some s →
    (∀ k v, (k, v) ∈ entries → ∃ f, v = VMessage f) →
    for_each entries (λ entry,
      do! match entry.2 with
          | VMessage message => socket_send socket message
          | _ => throw
          end in
      Kv.delete entry.1) w
    = Done tt (set_kv (λ m, foldl (λ m entry, delete entry.1 m) m entries) w).
Proof.
  intros Hstate.
  induction entries as [|[k v] rest IH]; intros w Hs Hmsg.
  - cbn. unfold ret. f_equal. by apply world_eq.
  - destruct (Hmsg k v) as [f ->]; [apply list_elem_of_here|].
    cbn [for_each].
    assert (Hstep : (do! socket_send socket f in Kv.delete k) w
                    = Done tt (set_kv (delete k) w)).
    { unfold bind, socket_send. rewrite Hs. by destruct Hstate as [-> | ->]. }
    rewrite (bind_Done _ _ w tt _ Hstep).
    rewrite IH; [|done|intros k' v' Hin; apply (Hmsg k' v'); by right].
    reflexivity.
Qed.

(** X20.  Once the client's socket is closing or closed, a poll of its queue
    loses the queued frames: on such a socket [send] returns without an error
    and without sending, so each entry is deleted after it.  No frame reaches
    the socket, the queue is empty afterwards, and no key outside the
    client's queue is touched. *)
Theorem processMessages_on_closed_socket_discards_queue clientId socket s w :
  sockets w !! socket = Some s →
  sk_readyState s = CLOSING ∨ sk_readyState s = CLOSED →
  (∀ k v, (k, v) ∈ entries_under (Signal.getMessagesKey clientId) w →
          ∃ f, v = VMessage f) →
  ∃ w', Signal.processMessages clientId socket w = Done tt w' ∧
        sent w' = sent w ∧
        entries_under (Signal.getMessagesKey clientId) w' = [] ∧
        (∀ k, has_prefix (Signal.getMessagesKey clientId) k = false →
              kv w' !! k = kv w !! k).
Proof.
  intros Hs Hstate Hmsg.
  exists (set_kv (λ m, foldl (λ m entry, delete entry.1 m) m
                         (entries_under (Signal.getMessagesKey clientId) w)) w).
  split; [|split; [done|split]].
  - unfold Signal.processMessages. apply try_catch_Done.
    rewrite (bind_Done _ _ w (entries_under (Signal.getMessagesKey clientId) w) w)
      by done.
    by apply (discard_all socket s).
  - destruct (entries_under _ (set_kv _ _)) as [|[k v] rest] eqn:Hlist; [done|].
    assert (Hin : (k, v) ∈ entries_under (Signal.getMessagesKey clientId)
                    (set_kv (λ m, foldl (λ m entry, delete entry.1 m) m
                               (entries_under (Signal.getMessagesKey clientId) w))
                       w))
      by (rewrite Hlist; apply list_elem_of_here).
    apply entries_under_elem in Hin as (Hp & e & Hk & _).
    rewrite kv_set_kv, lookup_foldl_delete in Hk.
    destruct (decide (k ∈ _)) as [|Hnin]; [done|].
    destruct Hnin. apply list_elem_of_fmap. exists (k, kv_value e).
    split; [done|]. apply entries_under_elem. eauto.
  - intros k Hk. rewrite kv_set_kv, lookup_foldl_delete.
    destruct (decide (k ∈ _)) as [Hin|]; [|done].
    apply list_elem_of_fmap in Hin as ([k' v'] & -> & Hin).
    apply entries_under_elem in Hin as [Hp _]. cbn [fst] in Hk. congruence.
Qed.

Lemma processMessages_on_closed_socket_discards_queue_witness :
  ∃ w', Signal.processMessages "synth-1" 2
          (stage_with_mail_closed (steady_clock 5000 1)) = Done tt w' ∧
        sent w' = [] ∧
        entries_under (Signal.getMessagesKey "synth-1") w' = [] ∧
        (∀ k, has_prefix (Signal.getMessagesKey "synth-1") k = false →
              kv w' !! k = kv (stage_with_mail_closed (steady_clock 5000 1)) !! k).
Proof.
  apply (processMessages_on_closed_socket_discards_queue "synth-1" 2
           (mkSocket CLOSED None (Some "synth-1"))
           (stage_with_mail_closed (steady_clock 5000 1))).
  - reflexivity.
  - by right.
  - intros k v Hin. vm_compute in Hin.
    apply list_elem_of_singleton in Hin. injection Hin as _ ->. eauto.
Defined.

Lemma entries_under_kv prefix w w' :
  kv w' = kv w → entries_under prefix w' = entries_under prefix w.
Proof. intros Hkv. unfold entries_under, kv_list, gets. by rewrite Hkv. Qed.

Lemma entries_under_nil_lookup prefix w k :
  entries_under prefix w = [] → has_prefix prefix k = true → kv w !! k = None.
Proof.
  intros Hnil Hp. destruct (kv w !! k) as [e|] eqn:Hk; [|done].
  assert (Hin : (k, kv_value e) ∈ entries_under prefix w)
    by (apply entries_under_elem; eauto).
  rewrite Hnil in Hin. by apply elem_of_nil in Hin.
Qed.

Lemma entries_under_first_insert prefix w w' k v ttl :
  entries_under prefix w = [] →
  has_prefix prefix k = true →
  kv w' = <[k := mkKvEntry v ttl]> (kv w) →
  entries_under prefix w' = [(k, v)].
Proof.
  intros Hnil Hp Hkv.
  pose proof (entries_under_nil_lookup _ _ _ Hnil Hp) as Hk.
  unfold entries_under, kv_list, gets in *.
  apply Permutation_singleton_r.
  rewrite merge_sort_Permutation, Hkv, map_to_list_insert by done.
  rewrite filter_cons_True by (by apply Is_true_true).
  rewrite fmap_cons. cbn [fst snd kv_value].
  apply Permutation_skip.
  rewrite <- (merge_sort_Permutation (λ a b, Is_true (key_leb a.1 b.1))).
  by rewrite Hnil.
Qed.

Lemma messages_key_has_prefix target messageId :
  has_prefix (Signal.getMessagesKey target)
    (Signal.getMessagesKey target ++ [messageId]) = true.
Proof. cbn. by rewrite !bool_decide_eq_true_2. Qed.

(** X21.  Queueing and polling compose to exactly-once delivery on one instance: a
    frame queued for a client whose queue was empty is sent by the next poll
    on the client's open socket and removed from the store, so the store is
    as before the frame was queued, and the poll after that sends nothing. *)
Theorem queued_frame_is_delivered_once target socket frame w :
  is_open (sockets w) socket = true →
  entries_under (Signal.getMessagesKey target) w = [] →
  ∃ w1 w2 w3,
    Signal.queueMessage target frame w = Done tt w1 ∧
    Signal.processMessages target socket w1 = Done tt w2 ∧
    Signal.processMessages target socket w2 = Done tt w3 ∧
    sent w1 = sent w ∧
    sent w2 = sent w ++ [(socket, frame)] ∧
    sent w3 = sent w2 ∧
    kv w2 = kv w ∧ kv w3 = kv w.
Proof.
  intros Hopen Hnil.
  set (k := Signal.getMessagesKey target ++ [ulid_text (ulids w)]).
  set (w1 := set_kv (insert k (mkKvEntry (VMessage frame)
                                 (Some Signal.QUEUE_TTL_MS)))
               (set_ulids S w)).
  assert (Hk : kv w !! k = None).
  { eapply entries_under_nil_lookup; [done|apply messages_key_has_prefix]. }
  assert (H1 : entries_under (Signal.getMessagesKey target) w1
               = [(k, VMessage frame)]).
  { eapply (entries_under_first_insert _ w);
      [done|apply messages_key_has_prefix|done]. }
  assert (Hrun1 : ∃ w2, Signal.processMessages target socket w1 = Done tt w2 ∧
                        sent w2 = sent w ++ [(socket, frame)] ∧
                        kv w2 = kv w ∧ sockets w2 = sockets w).
  { eexists. split.
    - apply processMessages_run; [done|].
      intros k' v'. rewrite H1. intros [= _ ->]%list_elem_of_singleton. eauto.
    - rewrite H1. cbn. split; [done|]. split; [|done].
      by apply delete_insert_id. }
  destruct Hrun1 as (w2 & Hrun1 & Hsent2 & Hkv2 & Hsock2).
  assert (H2 : entries_under (Signal.getMessagesKey target) w2 = []).
  { by rewrite (entries_under_kv _ w w2). }
  exists w1, w2. eexists. split; [apply queueMessage_Done|].
  split; [done|]. split.
  - apply processMessages_run; [by rewrite Hsock2|].
    intros k' v'. rewrite H2. by intros ?%elem_of_nil.
  - rewrite H2. cbn. rewrite app_nil_r. done.
Qed.

Lemma queued_frame_is_delivered_once_witness :
  ∃ w1 w2 w3,
    Signal.queueMessage "synth-1" (FClientDisconnected "synth-9")
      (stage_world (steady_clock 5000 1)) = Done tt w1 ∧
    Signal.processMessages "synth-1" 2 w1 = Done tt w2 ∧
    Signal.processMessages "synth-1" 2 w2 = Done tt w3 ∧
    sent w1 = [] ∧
    sent w2 = [(2%nat, FClientDisconnected "synth-9")] ∧
    sent w3 = sent w2 ∧
    kv w2 = kv (stage_world (steady_clock 5000 1)) ∧
    kv w3 = kv (stage_world (steady_clock 5000 1)).
Proof.
  apply (queued_frame_is_delivered_once "synth-1" 2 (FClientDisconnected "synth-9")
           (stage_world (steady_clock 5000 1))).
  - reflexivity.
  - by vm_compute.
Defined.

(** ** signal.ts: what notifying the controllers leaves alone *)

Lemma only_messaging_refl w : only_messaging w w.
Proof. split; [apply off_queue_unchanged_refl|by repeat split]. Qed.

Lemma only_messaging_trans w0 w w' :
  only_messaging w0 w → only_messaging w w' → only_messaging w0 w'.
Proof.
  intros (Hq & H) (Hq' & H'). split; [by eapply off_queue_unchanged_trans|].
  destruct H as (?&?&?&?&?&?&?&?&?&?&?), H' as (?&?&?&?&?&?&?&?&?&?&?).
  repeat split; congruence.
Qed.

Lemma queueMessage_messaging target message w0 w E :
  only_messaging w0 w →
  wp (Signal.queueMessage target message) w (λ _ w', only_messaging w0 w') E.
Proof.
  intros H. eapply wp_of_Done; [apply queueMessage_Done|].
  eapply only_messaging_trans; [exact H|].
  split; [|by repeat split].
  intros k Hk. cbn. rewrite lookup_insert_ne; [done|].
  intros <-. by vm_compute in Hk.
Qed.

Lemma socket_send_messaging socket frame w0 w :
  only_messaging w0 w →
  wp (socket_send socket frame) w
    (λ _ w', only_messaging w0 w') (λ w', only_messaging w0 w').
Proof.
  intros H. unfold wp, socket_send.
  destruct (sockets w !! socket) as [s|]; [|done].
  by destruct (sk_readyState s).
Qed.

Lemma notifyControllers_messaging message w0 w :
  only_messaging w0 w →
  wp (Signal.notifyControllers message) w
    (λ _ w', only_messaging w0 w') (λ _, False).
Proof.
  intros H. unfold Signal.notifyControllers.
  apply wp_try_catch.
  apply wp_bind, wp_gets, wp_bind.
  eapply wp_mono;
    [apply (wp_for_each _ _ (only_messaging w0) (only_messaging w0)); [done|] | | ].
  - intros controllerId w1 _ H1.
    apply wp_bind, wp_gets.
    destruct (jsmap_get _ _) as [sk|]; [|by apply queueMessage_messaging].
    apply wp_bind, wp_gets.
    destruct (decide _);
      [by apply socket_send_messaging|by apply queueMessage_messaging].
  - intros [] w1 H1. cbn beta. apply wp_bind, wp_gets.
    eapply wp_mono;
      [apply (wp_for_each _ _ (only_messaging w0) (only_messaging w0)); [done|]
      | | ]; [|done..].
    intros entry w2 _ H2.
    destruct (jsset_has _ _); [done|by apply queueMessage_messaging].
  - done.
Qed.

Lemma jsmap_get_delete {V} k (m : list (string * V)) :
  jsmap_get k (jsmap_delete k m) = None.
Proof.
  unfold jsmap_delete. induction m as [|[k' v'] rest IH]; [done|].
  rewrite filter_cons. cbn [fst].
  destruct (decide (k' ≠ k)) as [Hne|Heq]; [|done].
  cbn. by rewrite decide_False.
Qed.

Lemma jsset_delete_not_elem x s : x ∉ jsset_delete x s.
Proof. unfold jsset_delete. intros [? _]%list_elem_of_filter. done. Qed.

(** ** signal.ts: closing a socket *)

Lemma onclose_spec socket id w :
  bound_to socket id w →
  (∀ n, jsmap_get id (pollingIntervals w) = Some n → n ≠ 0%nat) →
  wp (Signal.onclose socket) w
    (λ _ w',
       sockets w' = sockets w ∧
       kv w' !! Signal.getConnectionKey id = None ∧
       jsmap_get id (activeConnections w') = None ∧
       jsmap_get id (pollingIntervals w') = None ∧
       (∀ n t, jsmap_get id (pollingIntervals w) = Some n →
               t ∈ timers w' → tm_id t ≠ n) ∧
       (Signal.isController id = true →
        kv w' !! (Signal.CONTROLLERS_KEY_PREFIX ++ [id]) = None ∧
        id ∉ activeControllers w') ∧
       (∀ k, k ≠ Signal.getConnectionKey id →
             k ≠ Signal.CONTROLLERS_KEY_PREFIX ++ [id] →
             has_prefix Signal.MESSAGE_KEY_PREFIX k = false →
             kv w' !! k = kv w !! k))
    (λ _, False).
Proof.
  intros (s & Hs & Hid) Hinterval.
  unfold Signal.onclose. apply wp_bind, wp_gets. rewrite Hs.
  unfold Signal.unregisterConnection. rewrite Hid.
  apply wp_try_catch, wp_bind, wp_modify, wp_bind, wp_modify, wp_bind.
  set (w2 := set_activeConnections _ _).
  apply (wp_mono _ _
           (λ _ w3,
              sockets w3 = sockets w ∧
              kv w3 !! Signal.getConnectionKey id = None ∧
              jsmap_get id (activeConnections w3) = None ∧
              pollingIntervals w3 = pollingIntervals w ∧
              timers w3 = timers w ∧
              (Signal.isController id = true →
               kv w3 !! (Signal.CONTROLLERS_KEY_PREFIX ++ [id]) = None ∧
               id ∉ activeControllers w3) ∧
              (∀ k, k ≠ Signal.getConnectionKey id →
                    k ≠ Signal.CONTROLLERS_KEY_PREFIX ++ [id] →
                    has_prefix Signal.MESSAGE_KEY_PREFIX k = false →
                    kv w3 !! k = kv w !! k)) _ (λ _, False)).
  { destruct (Signal.isController id) eqn:Hctl.
    - apply wp_bind, wp_modify, wp_modify. subst w2. cbn.
      split; [done|].
      split; [rewrite lookup_delete_ne by (by intros [=]);
              apply lookup_delete_eq|].
      split; [apply jsmap_get_delete|]. split; [done|]. split; [done|].
      split.
      + intros _. split; [apply lookup_delete_eq|apply jsset_delete_not_elem].
      + intros k Hk1 Hk2 _. by rewrite !lookup_delete_ne.
    - eapply wp_mono;
        [apply (notifyControllers_messaging _ w2), only_messaging_refl| |done].
      intros [] w3
        (Hq & _ & _ & _ & _ & Hsocks & Hconns & Hpoll & _ & _ & Htimers & _).
      cbn beta. subst w2.
      split; [done|].
      split; [rewrite Hq by (by vm_compute); cbn; apply lookup_delete_eq|].
      split; [rewrite Hconns; apply jsmap_get_delete|].
      split; [done|]. split; [done|]. split; [done|].
      intros k Hk1 Hk2 Hk3. rewrite Hq by done. cbn.
      by rewrite lookup_delete_ne. }
  2: done.
  intros [] w3 (Hsocks & Hconn & Hattached & Hpoll & Htimers & Hctl & Hframe).
  cbn beta.
  apply wp_bind, wp_gets. rewrite Hpoll.
  destruct (jsmap_get id (pollingIntervals w)) as [n|] eqn:Hn.
  - rewrite decide_False by (by apply Hinterval).
    apply wp_bind, wp_modify, wp_modify. cbn.
    split; [done|]. split; [done|]. split; [done|].
    split; [apply jsmap_get_delete|]. split; [|by split].
    intros n' t [= <-] [Ht _]%list_elem_of_filter. done.
  - unfold wp, ret. rewrite Hpoll.
    split; [done|]. split; [done|]. split; [done|]. split; [done|].
    split; [by intros n t [=]|by split].
Qed.

(** X22.  When the socket of a registered client closes, the client's registry
    record, its attachment to this instance and its polling timer are all
    gone afterwards; for a controller so are its directory entry and its
    membership of the local controller set.  Apart from those two keys and
    the message queues the store is untouched: in particular the leadership
    record stays as it is, also when the closing socket is the leader's. *)
Theorem onclose_removes_the_client socket id w :
  bound_to socket id w →
  (∀ n, jsmap_get id (pollingIntervals w) = Some n → n ≠ 0%nat) →
  ∃ w', Signal.onclose socket w = Done tt w' ∧
        kv w' !! Signal.getConnectionKey id = None ∧
        jsmap_get id (activeConnections w') = None ∧
        jsmap_get id (pollingIntervals w') = None ∧
        (∀ n t, jsmap_get id (pollingIntervals w) = Some n →
                t ∈ timers w' → tm_id t ≠ n) ∧
        (Signal.isController id = true →
         kv w' !! (Signal.CONTROLLERS_KEY_PREFIX ++ [id]) = None ∧
         id ∉ activeControllers w') ∧
        (∀ k, k ≠ Signal.getConnectionKey id →
              k ≠ Signal.CONTROLLERS_KEY_PREFIX ++ [id] →
              has_prefix Signal.MESSAGE_KEY_PREFIX k = false →
              kv w' !! k = kv w !! k) ∧
        controller_at Manager.ACTIVE_CONTROLLER_KEY w'
          = controller_at Manager.ACTIVE_CONTROLLER_KEY w.
Proof.
  intros Hbound Hinterval.
  destruct (wp_returns _ _ _ (onclose_spec socket id w Hbound Hinterval))
    as ([] & w' & ? & _ & ? & ? & ? & ? & ? & Hframe).
  exists w'. repeat (split; [done|]).
  unfold controller_at. by rewrite Hframe.
Qed.

Lemma onclose_removes_the_client_witness :
  ∃ w', Signal.onclose 1 (led_stage_world (steady_clock 5000 1) leader_abc)
        = Done tt w' ∧
        kv w' !! Signal.getConnectionKey "controller-abc" = None ∧
        jsmap_get "controller-abc" (activeConnections w') = None ∧
        jsmap_get "controller-abc" (pollingIntervals w') = None ∧
        (∀ n t, jsmap_get "controller-abc"
                  (pollingIntervals (led_stage_world (steady_clock 5000 1) leader_abc))
                = Some n →
                t ∈ timers w' → tm_id t ≠ n) ∧
        (Signal.isController "controller-abc" = true →
         kv w' !! (Signal.CONTROLLERS_KEY_PREFIX ++ ["controller-abc"]) = None ∧
         "controller-abc" ∉ activeControllers w') ∧
        (∀ k, k ≠ Signal.getConnectionKey "controller-abc" →
              k ≠ Signal.CONTROLLERS_KEY_PREFIX ++ ["controller-abc"] →
              has_prefix Signal.MESSAGE_KEY_PREFIX k = false →
              kv w' !! k
              = kv (led_stage_world (steady_clock 5000 1) leader_abc) !! k) ∧
        controller_at Manager.ACTIVE_CONTROLLER_KEY w' = Some leader_abc.
Proof.
  apply (onclose_removes_the_client 1 "controller-abc"
           (led_stage_world (steady_clock 5000 1) leader_abc)).
  - eexists. split; reflexivity.
  - intros n Hn. vm_compute in Hn. discriminate.
Defined.

(** ** signal.ts: registering over an attached socket *)

Lemma jsmap_get_set {V} k (v : V) m : jsmap_get k (jsmap_set k v m) = Some v.
Proof.
  induction m as [|[k' v'] rest IH]; cbn.
  - by rewrite decide_True.
  - destruct (decide (k' = k)) as [->|Hne]; cbn.
    + by rewrite decide_True.
    + by rewrite decide_False.
Qed.

Lemma registerConnection_over_open_socket
    id socket previous s isReconnect timestamp w :
  jsmap_get id (activeConnections w) = Some previous →
  previous ≠ socket →
  sockets w !! previous = Some s →
  sk_readyState s = OPEN →
  wp (Signal.registerConnection id socket isReconnect timestamp) w
    (λ _ w',
       sockets w' = <[previous := mkSocket CLOSING
                                    (Some (1000, "Replaced by new connection"))
                                    (sk_clientId s)]> (sockets w) ∧
       is_Some (client_at id w') ∧
       jsmap_get id (activeConnections w') = Some socket ∧
       jsmap_get id (pollingIntervals w') = Some (nextTimer w) ∧
       timers w' =
         match jsmap_get id (pollingIntervals w) with
         | Some n => filter (λ t, tm_id t ≠ n) (timers w)
         | None => timers w
         end ++ [mkTimer (nextTimer w) 500 true (TProcessMessages id socket)])
    (λ _, False).
Proof.
  intros Hprev Hne Hs Hopen.
  unfold Signal.registerConnection.
  apply wp_bind, wp_try_catch. unfold Kv.get. apply wp_gets.
  apply wp_bind, wp_gets. rewrite Hprev, decide_True by done.
  apply wp_bind, wp_try_catch.
  unfold wp at 1, socket_close. rewrite Hs, Hopen.
  apply wp_bind. unfold wp at 1, Date_now.
  apply wp_bind, wp_gets. apply wp_bind, wp_modify, wp_bind, wp_modify.
  match goal with
  | |- context [mkKvEntry (VClient ?c) ?t] => set (rec := mkKvEntry (VClient c) t)
  end.
  set (w3 := set_activeConnections _ _).
  apply wp_bind.
  apply (wp_mono _ _
           (λ _ w4,
              kv w4 !! Signal.getConnectionKey id = Some rec ∧
              sockets w4 = sockets w3 ∧
              activeConnections w4 = activeConnections w3 ∧
              pollingIntervals w4 = pollingIntervals w3 ∧
              timers w4 = timers w3 ∧ nextTimer w4 = nextTimer w3)
           _ (λ _, False)).
  { destruct (Signal.isController id).
    - apply wp_bind, wp_modify, wp_modify. cbn.
      rewrite lookup_insert_ne by (by intros [=]).
      by rewrite lookup_insert_eq.
    - eapply wp_mono;
        [apply (notifyControllers_messaging _ w3), only_messaging_refl| |done].
      intros [] w4 (Hq & _ & _ & _ & _ & ? & ? & ? & _ & _ & ? & ?). cbn beta.
      split; [|done]. rewrite Hq by (by vm_compute).
      subst w3. cbn. by rewrite lookup_insert_eq. }
  2: done.
  intros [] w4 (Hrec & Hsockets & Hconns & Hpoll & Htimers & Hnext). cbn beta.
  assert (Hclient : is_Some (client_at id w4)).
  { unfold client_at. rewrite Hrec. subst rec. cbn. eauto. }
  clearbody rec.
  apply wp_bind, wp_gets. rewrite Hpoll.
  change (pollingIntervals w3) with (pollingIntervals w).
  change (timers w3) with (timers w) in Htimers.
  change (nextTimer w3) with (nextTimer w) in Hnext.
  destruct (jsmap_get id (pollingIntervals w)) as [n|].
  - apply wp_bind, wp_bind, wp_modify, wp_modify.
    apply wp_bind. unfold wp at 1, setInterval, set_timer. apply wp_modify.
    cbn. rewrite Hsockets, Hconns, Htimers, Hnext.
    split; [done|]. split; [done|].
    split; [apply jsmap_get_set|]. split; [apply jsmap_get_set|done].
  - apply wp_bind, wp_ret.
    apply wp_bind. unfold wp at 1, setInterval, set_timer. apply wp_modify.
    cbn. rewrite Hsockets, Hconns, Htimers, Hnext.
    split; [done|]. split; [done|].
    split; [apply jsmap_get_set|]. split; [apply jsmap_get_set|done].
Qed.

(** X23.  Registering an id that is attached to another, open socket closes that
    socket with code 1000 and the reason [Replaced by new connection],
    attaches the id to the new socket, and leaves the id with one polling
    timer: the old timer is cancelled and a new one, for the new socket, is
    started every 500 ms. *)
Theorem register_replaces_previous_socket
    id socket previous s n isReconnect timestamp w :
  jsmap_get id (activeConnections w) = Some previous →
  previous ≠ socket →
  sockets w !! previous = Some s →
  sk_readyState s = OPEN →
  jsmap_get id (pollingIntervals w) = Some n →
  ∃ w', Signal.registerConnection id socket isReconnect timestamp w = Done tt w' ∧
        sockets w' !! previous =
          Some (mkSocket CLOSING (Some (1000, "Replaced by new connection"))
                  (sk_clientId s)) ∧
        jsmap_get id (activeConnections w') = Some socket ∧
        jsmap_get id (pollingIntervals w') = Some (nextTimer w) ∧
        timers w' = filter (λ t, tm_id t ≠ n) (timers w)
                    ++ [mkTimer (nextTimer w) 500 true (TProcessMessages id socket)].
Proof.
  intros Hprev Hne Hs Hopen Hn.
  destruct (wp_returns _ _ _
              (registerConnection_over_open_socket id socket previous s
                 isReconnect timestamp w Hprev Hne Hs Hopen))
    as ([] & w' & Hrun & Hsockets & _ & Hconns & Hpoll & Htimers).
  exists w'. split; [done|].
  split; [by rewrite Hsockets, lookup_insert_eq|].
  rewrite Hn in Htimers. done.
Qed.

Lemma register_replaces_previous_socket_witness :
  ∃ w', Signal.registerConnection "synth-1" 5 true 1000
          (reconnecting_stage_world (steady_clock 5000 1)) = Done tt w' ∧
        sockets w' !! 2%nat =
          Some (mkSocket CLOSING (Some (1000, "Replaced by new connection"))
                  (Some "synth-1")) ∧
        jsmap_get "synth-1" (activeConnections w') = Some 5%nat ∧
        jsmap_get "synth-1" (pollingIntervals w') = Some 3%nat ∧
        timers w' = [mkTimer 1 500 true (TProcessMessages "controller-abc" 1);
                     mkTimer 3 500 true (TProcessMessages "synth-1" 5)].
Proof.
  apply (register_replaces_previous_socket "synth-1" 5 2
           (mkSocket OPEN None (Some "synth-1")) 2 true 1000
           (reconnecting_stage_world (steady_clock 5000 1)));
    first [reflexivity | lia].
Defined.

(** X24.  The replaced socket still carries the client's id, so when its [close]
    event is handled after the new registration has completed, the handler
    unregisters the id: the record just written is deleted, the new socket is
    detached from the id and the new polling timer is cancelled, although the
    new socket stays open. *)
Theorem close_of_replaced_socket_unregisters_successor
    id socket previous s isReconnect timestamp w :
  jsmap_get id (activeConnections w) = Some previous →
  previous ≠ socket →
  sockets w !! previous = Some s →
  sk_readyState s = OPEN →
  bound_id (sk_clientId s) = Some id →
  nextTimer w ≠ 0%nat →
  ∃ w1 w2,
    Signal.registerConnection id socket isReconnect timestamp w = Done tt w1 ∧
    is_Some (client_at id w1) ∧
    jsmap_get id (activeConnections w1) = Some socket ∧
    Signal.onclose previous w1 = Done tt w2 ∧
    client_at id w2 = None ∧
    jsmap_get id (activeConnections w2) = None ∧
    jsmap_get id (pollingIntervals w2) = None ∧
    (∀ t, t ∈ timers w2 → tm_id t ≠ nextTimer w) ∧
    sockets w2 !! socket = sockets w !! socket.
Proof.
  intros Hprev Hne Hs Hopen Hid Hnext.
  destruct (wp_returns _ _ _
              (registerConnection_over_open_socket id socket previous s
                 isReconnect timestamp w Hprev Hne Hs Hopen))
    as ([] & w1 & Hrun1 & Hsockets & Hclient & Hconns & Hpoll & _).
  assert (Hbound : bound_to previous id w1).
  { eexists. split; [by rewrite Hsockets, lookup_insert_eq|done]. }
  assert (Hinterval : ∀ n, jsmap_get id (pollingIntervals w1) = Some n → n ≠ 0%nat).
  { intros n. rewrite Hpoll. by intros [= <-]. }
  destruct (wp_returns _ _ _ (onclose_spec previous id w1 Hbound Hinterval))
    as ([] & w2 & Hrun2 & Hsockets2 & Hgone & Hdetached & Hnopoll & Htimers & _).
  exists w1, w2. repeat (split; [done|]).
  split; [unfold client_at; by rewrite Hgone|].
  split; [done|]. split; [done|].
  split; [intros t; by apply Htimers|].
  by rewrite Hsockets2, Hsockets, lookup_insert_ne.
Qed.

Lemma close_of_replaced_socket_unregisters_successor_witness :
  ∃ w1 w2,
    Signal.registerConnection "synth-1" 5 true 1000
      (reconnecting_stage_world (steady_clock 5000 1)) = Done tt w1 ∧
    is_Some (client_at "synth-1" w1) ∧
    jsmap_get "synth-1" (activeConnections w1) = Some 5%nat ∧
    Signal.onclose 2 w1 = Done tt w2 ∧
    client_at "synth-1" w2 = None ∧
    jsmap_get "synth-1" (activeConnections w2) = None ∧
    jsmap_get "synth-1" (pollingIntervals w2) = None ∧
    (∀ t, t ∈ timers w2 → tm_id t ≠ 3%nat) ∧
    sockets w2 !! 5%nat = Some (mkSocket OPEN None (Some "synth-1")).
Proof.
  apply (close_of_replaced_socket_unregisters_successor "synth-1" 5 2
           (mkSocket OPEN None (Some "synth-1")) true 1000
           (reconnecting_stage_world (steady_clock 5000 1)));
    first [reflexivity | by vm_compute | lia].
Defined.

(** ** signal.ts: what a sweep may remove *)

Lemma same_instance_trans w0 w w' :
  same_instance w0 w → same_instance w w' → same_instance w0 w'.
Proof.
  intros (?&?&?&?&?&?&?&?&?&?&?&?) (?&?&?&?&?&?&?&?&?&?&?&?).
  repeat split; congruence.
Qed.

Lemma reported_by_some_controller w clientId :
  jsset_has clientId (concat (snd <$> activeWebRTCConnections w))
  = Signal.hasActiveWebRTCConnection w clientId.
Proof.
  unfold Signal.hasActiveWebRTCConnection, jsset_has.
  induction (activeWebRTCConnections w) as [|[c l] rest IH]; [done|].
  cbn. rewrite <- IH.
  destruct (decide (clientId ∈ l)) as [Hin|Hnin].
  - rewrite (bool_decide_eq_true_2 (clientId ∈ l)) by done.
    rewrite bool_decide_eq_true_2; [done|]. apply elem_of_app. by left.
  - rewrite (bool_decide_eq_false_2 (clientId ∈ l)) by done. cbn.
    apply bool_decide_ext. rewrite elem_of_app.
    split; [by intros [?|?]|by right].
Qed.

(** The scan reads the clock and nothing else, and lists no record but those
    of non-controller ids outside the reported set. *)
Lemma scan_connections_lists active :
  ∀ entries acc w,
    wp (Signal.scan_connections entries active acc) w
      (λ res w',
         kv w' = kv w ∧ same_instance w w' ∧
         ∀ p, p ∈ res →
              p ∈ acc ∨
              ((∃ v, (p.1, v) ∈ entries) ∧
               Signal.isController (last_part p.1) = false ∧
               jsset_has (last_part p.1) active = false))
      (λ _, False).
Proof.
  induction entries as [|[k v] rest IH]; intros acc w.
  { cbn. split; [done|]. split; [apply same_instance_refl|]. by left. }
  cbn [Signal.scan_connections].
  assert (Hweaken : ∀ acc' w1,
            kv w1 = kv w → same_instance w w1 →
            (∀ p, p ∈ acc' →
                  p ∈ acc ∨
                  ((∃ v', (p.1, v') ∈ (k, v) :: rest) ∧
                   Signal.isController (last_part p.1) = false ∧
                   jsset_has (last_part p.1) active = false)) →
            wp (Signal.scan_connections rest active acc') w1
              (λ res w',
                 kv w' = kv w ∧ same_instance w w' ∧
                 ∀ p, p ∈ res →
                      p ∈ acc ∨
                      ((∃ v', (p.1, v') ∈ (k, v) :: rest) ∧
                       Signal.isController (last_part p.1) = false ∧
                       jsset_has (last_part p.1) active = false))
              (λ _, False)).
  { intros acc' w1 Hkv Hsame Hacc'.
    eapply wp_mono; [apply (IH acc' w1)| |done].
    intros res w' (Hkv' & Hsame' & Hres). cbn beta.
    split; [congruence|]. split; [by eapply same_instance_trans|].
    intros p Hp. destruct (Hres p Hp) as [Hin|([v' Hv'] & ? & ?)].
    - by apply Hacc'.
    - right. split; [|done]. exists v'. by right. }
  destruct (Signal.isController (last_part k)) eqn:Hctl.
  { apply Hweaken; [done|apply same_instance_refl|by left]. }
  apply wp_bind. unfold wp at 1, Date_now.
  assert (Hsame : same_instance w (set_ticks S w)) by (by repeat split).
  destruct (decide (_ < _)) as [_|_]; [by apply Hweaken; [| |left]|].
  destruct (jsset_has (last_part k) active) eqn:Hrep; cbn [negb];
    [by apply Hweaken; [| |left]|].
  apply Hweaken; [done..|].
  intros p [Hin| ->%list_elem_of_singleton]%elem_of_app; [by left|].
  right. cbn [fst]. split; [|done]. exists v. by left.
Qed.

(** X25.  A sweep always returns, and all it does to the store outside the message
    queues is delete connection records of non-controller ids that no
    controller reports a live peer connection to: records of controllers and
    of reported synths stay, and so does every key outside the connection
    registry.  The sweep is confined to the store: a swept client keeps its
    socket, its attachment to the instance and its polling timer. *)
Theorem sweep_touches_only_unreported_synth_records w :
  ∃ n w',
    Signal.cleanupBasedOnWebRTCConnections w = Done n w' ∧
    (∀ k, has_prefix Signal.MESSAGE_KEY_PREFIX k = false →
          has_prefix Signal.CONNECTION_KEY_PREFIX k = false ∨
          Signal.isController (last_part k) = true ∨
          Signal.hasActiveWebRTCConnection w (last_part k) = true →
          kv w' !! k = kv w !! k) ∧
    sockets w' = sockets w ∧
    activeConnections w' = activeConnections w ∧
    pollingIntervals w' = pollingIntervals w ∧
    timers w' = timers w.
Proof.
  apply wp_returns.
  unfold Signal.cleanupBasedOnWebRTCConnections.
  apply wp_bind, wp_gets, wp_try_catch, wp_bind.
  pose proof (entries_under_elem Signal.CONNECTION_KEY_PREFIX w) as Helem.
  unfold entries_under in Helem.
  unfold wp at 1. destruct (kv_list _ w) as [entries w0| |] eqn:Hlist; try done.
  assert (w0 = w) as -> by (unfold kv_list, gets in Hlist; congruence).
  apply wp_bind.
  eapply wp_mono; [apply scan_connections_lists| |done].
  intros clientsToRemove w1 (Hkv & Hsame & Hres). cbn beta.
  destruct Hsame as (_ & _ & _ & _ & Hsocks & _ & Hconns & Hpoll & _ & _ & Htimers & _).
  destruct (decide _);
    [|unfold wp, ret; split; [intros; by rewrite Hkv|done]].
  apply wp_bind.
  set (I := λ w2 : World,
         (∀ k, has_prefix Signal.MESSAGE_KEY_PREFIX k = false →
               has_prefix Signal.CONNECTION_KEY_PREFIX k = false ∨
               Signal.isController (last_part k) = true ∨
               Signal.hasActiveWebRTCConnection w (last_part k) = true →
               kv w2 !! k = kv w !! k) ∧
         sockets w2 = sockets w ∧
         activeConnections w2 = activeConnections w ∧
         pollingIntervals w2 = pollingIntervals w ∧
         timers w2 = timers w).
  eapply wp_mono; [apply (wp_for_each _ _ I (λ _, False))| |done].
  - split; [intros; by rewrite Hkv|done].
  - intros client w2 Hin (Hkeep & ? & ? & ? & ?).
    apply wp_try_catch, wp_bind, wp_modify.
    eapply wp_mono;
      [apply notifyControllers_messaging, only_messaging_refl| |done].
    intros [] w3 (Hq & _ & _ & _ & _ & ? & ? & ? & _ & _ & ? & _). cbn beta.
    split; [|cbn in *; repeat split; congruence].
    intros k Hk Hcond. rewrite Hq by done. cbn.
    rewrite lookup_delete_ne; [by apply Hkeep|].
    intros <-.
    destruct (Hres client Hin) as [[]%elem_of_nil|([v Hv] & Hctl & Hrep)].
    apply Helem in Hv as [Hp _].
    rewrite reported_by_some_controller in Hrep.
    destruct Hcond as [?|[?|?]]; congruence.
  - by intros [] w2 HI.
Qed.

(** The scan lists a record that is past the grace period at every clock
    reading the scan can make, when its id is neither a controller's nor
    reported. *)
Lemma scan_connections_finds active key c :
  Signal.isController (last_part key) = false →
  jsset_has (last_part key) active = false →
  ∀ entries acc w,
    (∀ v, (key, v) ∈ entries → v = VClient c) →
    (∀ i, (ticks w ≤ i < ticks w + length entries)%nat →
          Signal.CLIENT_GRACE_PERIOD_MS ≤ clock w i - cl_connectionTimestamp c) →
    (∃ v, (key, v) ∈ entries) ∨ key ∈ acc.*1 →
    wp (Signal.scan_connections entries active acc) w
      (λ res _, key ∈ res.*1) (λ _, False).
Proof.
  intros Hctl Hrep.
  induction entries as [|[k v] rest IH]; intros acc w Hval Hgrace Hin.
  { cbn. destruct Hin as [[v Hv]|Hin]; [by apply elem_of_nil in Hv|done]. }
  cbn [Signal.scan_connections].
  assert (Hrest : ∀ v', (key, v') ∈ rest → v' = VClient c).
  { intros v' Hv'. apply Hval. by right. }
  assert (Hnext : ∀ acc' w1,
            (ticks w ≤ ticks w1 ≤ S (ticks w))%nat → clock w1 = clock w →
            (∃ v', (key, v') ∈ rest) ∨ key ∈ acc'.*1 →
            wp (Signal.scan_connections rest active acc') w1
              (λ res _, key ∈ res.*1) (λ _, False)).
  { intros acc' w1 Hticks Hclock Hin'. apply IH; [done| |done].
    intros i Hi. rewrite Hclock. apply Hgrace. cbn [length]. lia. }
  destruct (decide (k = key)) as [->|Hne].
  - rewrite Hctl. apply wp_bind. unfold wp at 1, Date_now.
    rewrite (Hval v) by left. cbn [Kv.connectionTimestamp_or_0].
    rewrite decide_False by (specialize (Hgrace (ticks w)); cbn [length] in Hgrace; lia).
    rewrite Hrep. cbn [negb].
    apply Hnext; [cbn; lia|done|].
    right. rewrite fmap_app. apply elem_of_app. right. cbn. by left.
  - assert (Hin' : ∀ extra, (∃ v', (key, v') ∈ rest) ∨ key ∈ (acc ++ extra).*1).
    { intros extra. destruct Hin as [[v' Hv']|Hin].
      - apply elem_of_cons in Hv' as [[= ? ?]|Hv']; [done|]. left. eauto.
      - right. rewrite fmap_app. apply elem_of_app. by left. }
    assert (Hin0 : (∃ v', (key, v') ∈ rest) ∨ key ∈ acc.*1).
    { specialize (Hin' []). by rewrite app_nil_r in Hin'. }
    destruct (Signal.isController (last_part k)).
    { apply Hnext; [lia|done|done]. }
    apply wp_bind. unfold wp at 1, Date_now.
    destruct (decide (_ < _)); [apply Hnext; [cbn; lia|done|done]|].
    destruct (negb _); apply Hnext; first [cbn; lia|done].
Qed.

(** One step of the removal loop deletes the record at the listed key and
    changes nothing else outside the message queues. *)
Lemma sweep_step (client : KvKey * string) w :
  wp (try_catch
        (do! Kv.delete client.1 in
         Signal.notifyControllers (FClientDisconnected client.2))
        (ret tt)) w
    (λ _ w', ∀ k, has_prefix Signal.MESSAGE_KEY_PREFIX k = false →
                  kv w' !! k = delete client.1 (kv w) !! k)
    (λ _, False).
Proof.
  apply wp_try_catch, wp_bind, wp_modify.
  eapply wp_mono;
    [apply notifyControllers_frame, off_queue_unchanged_refl| |done].
  intros [] w' Hq. cbn beta. intros k Hk. by rewrite Hq.
Qed.

Lemma sweep_deletes_listed key :
  has_prefix Signal.MESSAGE_KEY_PREFIX key = false →
  ∀ (clientsToRemove : list (KvKey * string)) w,
    key ∈ clientsToRemove.*1 →
    wp (for_each clientsToRemove (λ client,
          try_catch
            (do! Kv.delete client.1 in
             Signal.notifyControllers (FClientDisconnected client.2))
            (ret tt))) w
      (λ _ w', kv w' !! key = None) (λ _, False).
Proof.
  intros Hkey. induction clientsToRemove as [|client rest IH]; intros w Hin.
  { by apply elem_of_nil in Hin. }
  cbn [for_each]. apply wp_bind.
  eapply wp_mono; [apply sweep_step| |done].
  intros [] w1 Hstep. cbn beta.
  rewrite fmap_cons in Hin.
  destruct (decide (key ∈ rest.*1)) as [Hrest|Hnrest]; [by apply IH|].
  apply elem_of_cons in Hin as [->|?]; [|done].
  apply (wp_for_each _ _ (λ w2, kv w2 !! client.1 = None) (λ _, False)).
  - rewrite Hstep by done. apply lookup_delete_eq.
  - intros client' w2 _ Hnone.
    eapply wp_mono; [apply sweep_step| |done].
    intros [] w3 Hstep'. cbn beta. rewrite Hstep' by done.
    apply lookup_delete_None. by right.
Qed.

(** X26.  A synth that no controller reports is removed by a sweep once it is past
    the grace period at the clock readings of the sweep (there are at most as
    many as the store has entries): the sweep returns a positive count and
    the synth's record is gone. *)
Theorem sweep_removes_unreported_synth_past_grace w s c :
  client_at s w = Some c →
  Signal.isController s = false →
  Signal.hasActiveWebRTCConnection w s = false →
  (∀ i, (ticks w ≤ i < ticks w + size (kv w))%nat →
        Signal.CLIENT_GRACE_PERIOD_MS ≤ clock w i - cl_connectionTimestamp c) →
  ∃ n w', Signal.cleanupBasedOnWebRTCConnections w = Done n w' ∧
          (0 < n)%nat ∧ client_at s w' = None.
Proof.
  intros Hc Hctl Hrep Hgrace.
  destruct (client_at_entry _ _ _ Hc) as (e & He & Hv).
  apply wp_returns.
  unfold Signal.cleanupBasedOnWebRTCConnections.
  apply wp_bind, wp_gets, wp_try_catch, wp_bind.
  pose proof (entries_under_elem Signal.CONNECTION_KEY_PREFIX w) as Helem.
  pose proof (kv_list_length Signal.CONNECTION_KEY_PREFIX w) as Hlen.
  unfold entries_under in Helem.
  unfold wp at 1. destruct (kv_list _ w) as [entries w0| |] eqn:Hlist; try done.
  assert (w0 = w) as -> by (unfold kv_list, gets in Hlist; congruence).
  apply wp_bind.
  eapply wp_mono;
    [apply (scan_connections_finds _ (Signal.getConnectionKey s) c)| |done].
  - done.
  - by rewrite reported_by_some_controller.
  - intros v Hin. apply Helem in Hin as (_ & e' & He' & <-). congruence.
  - intros i Hi. apply Hgrace. lia.
  - left. exists (VClient c). apply Helem. split; [|eauto].
    cbn. by rewrite !bool_decide_eq_true_2.
  - intros clientsToRemove w1 Hfound. cbn beta.
    destruct (decide _) as [Hpos|Hnone].
    + apply wp_bind.
      eapply wp_mono;
        [apply (sweep_deletes_listed (Signal.getConnectionKey s));
         [by vm_compute|done]| |done].
      intros [] w2 Hgone. cbn beta. unfold wp, ret.
      split; [done|]. unfold client_at. by rewrite Hgone.
    + destruct clientsToRemove; [by apply elem_of_nil in Hfound|].
      cbn in Hnone. lia.
Qed.

Lemma sweep_removes_unreported_synth_past_grace_witness :
  ∃ n w', Signal.cleanupBasedOnWebRTCConnections (stage_world (steady_clock 21000 1))
          = Done n w' ∧
          (0 < n)%nat ∧ client_at "synth-1" w' = None.
Proof.
  apply (sweep_removes_unreported_synth_past_grace
           (stage_world (steady_clock 21000 1)) "synth-1"
           (mkClientRecord "local" 1000 1000 0 None false)).
  - reflexivity.
  - reflexivity.
  - reflexivity.
  - intros i Hi.
    unfold stage_world, steady_clock, Signal.CLIENT_GRACE_PERIOD_MS. cbn. lia.
Defined.

(** ** signal.ts: the notification poller *)

Lemma notification_at_entry key w n :
  notification_at key w = Some n →
  Kv.as_notification (kv_value <$> kv w !! key) = Some n.
Proof. done. Qed.

Lemma poll_seen w n :
  notification_at Manager.CONTROLLER_NOTIFICATION_KEY w = Some n →
  SignalPoller.checkForControllerChangeNotifications
    (Some (cn_notificationId n)) w
  = Done (Some (cn_notificationId n)) w.
Proof.
  intros Hn. unfold SignalPoller.checkForControllerChangeNotifications.
  unfold try_catch, bind at 1, Kv.get, gets.
  rewrite (notification_at_entry _ _ _ Hn). by rewrite decide_True.
Qed.

Lemma poll_unseen last w n :
  notification_at Manager.CONTROLLER_NOTIFICATION_KEY w = Some n →
  last ≠ Some (cn_notificationId n) →
  let frames :=
    if decide (clock w (ticks w) - cn_timestamp n > 30000) then []
    else broadcast_frames (activeConnections w)
           (Manager.standardizeControllerId <$> string_or_null (cn_controllerId n))
           (sockets w) (clock w) (S (ticks w)) in
  SignalPoller.checkForControllerChangeNotifications last w
  = Done (Some (cn_notificationId n))
      (set_sent (λ trace, trace ++ frames)
         (set_ticks (λ t, S t + length frames)%nat w)).
Proof.
  intros Hn Hlast. cbv zeta.
  unfold SignalPoller.checkForControllerChangeNotifications.
  unfold try_catch, bind at 1, Kv.get, gets.
  rewrite (notification_at_entry _ _ _ Hn), decide_False by done.
  unfold bind at 1, Date_now.
  destruct (decide (clock w (ticks w) - cn_timestamp n > 30000)).
  - unfold ret. f_equal. apply world_eq; cbn; try done; try lia.
    by rewrite app_nil_r.
  - unfold bind at 1. rewrite broadcastControllerChange_Done.
    unfold ret. f_equal.
Qed.

(** X27.  Whatever the poller remembered, after one poll of a store that holds a
    change notification it remembers that notification's id, and the store is
    as it was; the next poll then sends nothing and does not even read the
    clock.  So one instance acts on a notification at most once. *)
Theorem poller_handles_a_notification_once last w n :
  notification_at Manager.CONTROLLER_NOTIFICATION_KEY w = Some n →
  ∃ w1,
    SignalPoller.checkForControllerChangeNotifications last w
    = Done (Some (cn_notificationId n)) w1 ∧
    kv w1 = kv w ∧
    SignalPoller.checkForControllerChangeNotifications
      (Some (cn_notificationId n)) w1
    = Done (Some (cn_notificationId n)) w1.
Proof.
  intros Hn.
  destruct (decide (last = Some (cn_notificationId n))) as [->|Hlast].
  - exists w. split; [by apply poll_seen|]. split; [done|by apply poll_seen].
  - eexists. split; [by apply poll_unseen|]. split; [done|].
    by apply poll_seen.
Qed.

Lemma poller_handles_a_notification_once_witness :
  ∃ w1,
    SignalPoller.checkForControllerChangeNotifications None
      (notified_stage_world (steady_clock 5000 1)
         (mkChangeNotification (Some "controller-abc") 4000 7))
    = Done (Some 7%nat) w1 ∧
    kv w1 = kv (notified_stage_world (steady_clock 5000 1)
                  (mkChangeNotification (Some "controller-abc") 4000 7)) ∧
    SignalPoller.checkForControllerChangeNotifications (Some 7%nat) w1
    = Done (Some 7%nat) w1.
Proof.
  apply (poller_handles_a_notification_once None
           (notified_stage_world (steady_clock 5000 1)
              (mkChangeNotification (Some "controller-abc") 4000 7))
           (mkChangeNotification (Some "controller-abc") 4000 7)).
  reflexivity.
Defined.

(** X28.  A notification the poller has not handled yet and that is at most 30 s
    old is broadcast: every attached non-controller client with an open
    socket is sent one [active-controller] frame.  The frame carries the
    notification's controller id with a leading ["controller-"] removed, so it
    differs from the id the controller registered with when that id has the
    prefix. *)
Theorem poller_broadcasts_fresh_notification last w n :
  notification_at Manager.CONTROLLER_NOTIFICATION_KEY w = Some n →
  last ≠ Some (cn_notificationId n) →
  clock w (ticks w) - cn_timestamp n ≤ 30000 →
  ∃ w1,
    SignalPoller.checkForControllerChangeNotifications last w
    = Done (Some (cn_notificationId n)) w1 ∧
    sent w1 = sent w
              ++ broadcast_frames (activeConnections w)
                   (Manager.standardizeControllerId
                      <$> string_or_null (cn_controllerId n))
                   (sockets w) (clock w) (S (ticks w)) ∧
    ∀ clientId socket,
      (clientId, socket) ∈ activeConnections w →
      Signal.isController clientId = false →
      is_open (sockets w) socket = true →
      ∃ t, (socket,
            FActiveController
              (Manager.standardizeControllerId
                 <$> string_or_null (cn_controllerId n)) (Some t)) ∈ sent w1.
Proof.
  intros Hn Hlast Hfresh.
  eexists. split; [by apply poll_unseen|].
  rewrite decide_False by lia. cbn. split; [done|].
  intros clientId socket Hin Hsynth Hopen.
  destruct (broadcast_frames_reach (activeConnections w)
              (Manager.standardizeControllerId
                 <$> string_or_null (cn_controllerId n))
              (sockets w) (clock w) (S (ticks w)) clientId socket Hin Hsynth Hopen)
    as [t Ht].
  exists t. apply elem_of_app. by right.
Qed.

Lemma poller_broadcasts_fresh_notification_witness :
  ∃ w1,
    SignalPoller.checkForControllerChangeNotifications None
      (notified_stage_world (steady_clock 5000 1)
         (mkChangeNotification (Some "controller-abc") 4000 7))
    = Done (Some 7%nat) w1 ∧
    sent w1 = [(2%nat, FActiveController (Some "abc") (Some 5001))] ∧
    ∀ clientId socket,
      (clientId, socket)
        ∈ activeConnections
            (notified_stage_world (steady_clock 5000 1)
               (mkChangeNotification (Some "controller-abc") 4000 7)) →
      Signal.isController clientId = false →
      is_open
        (sockets (notified_stage_world (steady_clock 5000 1)
                    (mkChangeNotification (Some "controller-abc") 4000 7)))
        socket = true →
      ∃ t, (socket, FActiveController (Some "abc") (Some t)) ∈ sent w1.
Proof.
  apply (poller_broadcasts_fresh_notification None
           (notified_stage_world (steady_clock 5000 1)
              (mkChangeNotification (Some "controller-abc") 4000 7))
           (mkChangeNotification (Some "controller-abc") 4000 7)).
  - reflexivity.
  - discriminate.
  - by vm_compute.
Defined.

(** X29.  A notification older than 30 s on the poller's clock is never broadcast:
    the poll sends no frame and leaves the store alone, and it remembers the
    notification, so later polls skip it as well.  The synths of an instance
    that reads a notification late are not told of that change. *)
Theorem poller_drops_stale_notification last w n :
  notification_at Manager.CONTROLLER_NOTIFICATION_KEY w = Some n →
  last ≠ Some (cn_notificationId n) →
  clock w (ticks w) - cn_timestamp n > 30000 →
  ∃ w1,
    SignalPoller.checkForControllerChangeNotifications last w
    = Done (Some (cn_notificationId n)) w1 ∧
    sent w1 = sent w ∧ kv w1 = kv w.
Proof.
  intros Hn Hlast Hstale.
  eexists. split; [by apply poll_unseen|].
  rewrite decide_True by done. cbn. by rewrite app_nil_r.
Qed.

Lemma poller_drops_stale_notification_witness :
  ∃ w1,
    SignalPoller.checkForControllerChangeNotifications None
      (notified_stage_world (steady_clock 50000 1)
         (mkChangeNotification (Some "controller-abc") 4000 7))
    = Done (Some 7%nat) w1 ∧
    sent w1 = [] ∧
    kv w1 = kv (notified_stage_world (steady_clock 50000 1)
                  (mkChangeNotification (Some "controller-abc") 4000 7)).
Proof.
  apply (poller_drops_stale_notification None
           (notified_stage_world (steady_clock 50000 1)
              (mkChangeNotification (Some "controller-abc") 4000 7))
           (mkChangeNotification (Some "controller-abc") 4000 7)).
  - reflexivity.
  - discriminate.
  - by vm_compute.
Defined.

(** ** signal.ts: the client list *)

(** X30.  Building the client list reads the clock once and writes nothing.  The
    list holds no controller, and it holds every non-controller id that has a
    connection record in the store, whichever instance registered it: whether
    this instance holds the client's socket is told by [hasWebsocket], while
    [connected] is [false] for every element. *)
Theorem getConnectedClients_lists_every_synth_record w :
  ∃ clients,
    Signal.getConnectedClients w = Done clients (set_ticks S w) ∧
    (∀ info, info ∈ clients →
             Signal.isController (ci_id info) = false ∧
             ci_connected info = false) ∧
    (∀ id c, client_at id w = Some c →
             Signal.isController id = false →
             ∃ info, info ∈ clients ∧ ci_id info = id ∧
                     ci_lastSeen info = cl_lastSeen c ∧
                     ci_hasWebsocket info
                     = bool_decide (is_Some (jsmap_get id (activeConnections w))) ∧
                     ci_webRTCConnected info
                     = Signal.hasActiveWebRTCConnection w id).
Proof.
  eexists. split; [reflexivity|]. split.
  - intros info (entry & _ & Hinfo)%list_elem_of_omap.
    unfold Signal.client_info in Hinfo. cbv zeta in Hinfo.
    destruct (Signal.isController (last_part entry.1)) eqn:Hctl;
      [discriminate|].
    injection Hinfo as <-. done.
  - intros id c Hc Hsynth.
    destruct (client_at_entry _ _ _ Hc) as (e & He & Hv).
    assert (Hin : (Signal.getConnectionKey id, VClient c)
                    ∈ entries_under Signal.CONNECTION_KEY_PREFIX w).
    { apply entries_under_elem. split; [|eauto].
      cbn. by rewrite !bool_decide_eq_true_2. }
    eexists. split.
    + apply list_elem_of_omap. eexists. split; [exact Hin|].
      unfold Signal.client_info.
      change (last_part (Signal.getConnectionKey id, VClient c).1) with id.
      rewrite Hsynth. reflexivity.
    + done.
Qed.
